(** * CathoLink attendance scanner and ratings page: a shallow embedding

    The development follows three React components of the repository and
    one edge function:

    - [AdminScanner] (the QR scanner page): [checkIfBirthday],
      [getAttendanceStatus] and the scan handler [handleScan], with its
      session reconciliation, the attendance insert and the three
      notification calls (e-mail, push, SMS);
    - [AdminRatings]: the [statistics] aggregation over rating rows, the
      section counts, the colours and the CSV export;
    - [AdminTestNotifications]: the two send handlers and their buttons;
    - the [send-email] function: its handler and [getStatusMessage].

    JavaScript values are modelled as the code uses them: clock readings as
    records of local calendar fields, nullable strings as [option string],
    the statistics object as a finite map keyed by question name, and the
    asynchronous handler as a function into a trace of effects with early
    returns and exceptions. *)

From Stdlib Require Import ZArith QArith Lia List String Ascii Bool.
From Stdlib Require DecimalString.
From stdpp Require Import gmap strings list fin_maps.

Local Open Scope string_scope.
Local Open Scope Z_scope.

(** ** JavaScript runtime values *)

Module Js.

(** A [Date] object read through its local-time getters.  [getMonth] is
    zero-based, as in JavaScript. *)
Record Date := mkDate {
  getFullYear : Z;
  getMonth : Z;
  getDate : Z;
  getHours : Z;
  getMinutes : Z
}.

(** Truthiness of a nullable string: [null], [undefined] and the empty
    string are falsy. *)
Definition truthy (v : option string) : bool :=
  match v with
  | Some s => negb (String.eqb s "")
  | None => false
  end.

(** [a || b] on a nullable string with a string default. *)
Definition or_else (v : option string) (dflt : string) : string :=
  match v with
  | Some s => if String.eqb s "" then dflt else s
  | None => dflt
  end.

(** *** The [Date] constructor on date-only ISO strings

    [new Date("YYYY-MM-DD")] denotes midnight UTC of that day; the local
    getters then read it in the zone of the browser.  [tz] is the zone's
    offset in minutes ahead of UTC (480 for Asia/Manila). *)

Definition digit (c : ascii) : option Z :=
  let n := Z.of_nat (nat_of_ascii c) in
  if (48 <=? n) && (n <=? 57) then Some (n - 48) else None.

Definition digitChar (n : Z) : ascii := ascii_of_nat (Z.to_nat (48 + n)).

Definition isLeapYear (y : Z) : bool :=
  ((y mod 4 =? 0) && negb (y mod 100 =? 0)) || (y mod 400 =? 0).

(** Days of the month [m] (1-based) of year [y]. *)
Definition daysInMonth (y m : Z) : Z :=
  if m =? 2 then (if isLeapYear y then 29 else 28)
  else if (m =? 4) || (m =? 6) || (m =? 9) || (m =? 11) then 30
  else 31.

Definition validYMD (y m d : Z) : bool :=
  (0 <=? y) && (y <=? 9999) && (1 <=? m) && (m <=? 12) &&
  (1 <=? d) && (d <=? daysInMonth y m).

(** The calendar day before [(y, m, d)], months 1-based. *)
Definition previousDay (y m d : Z) : Z * Z * Z :=
  if 1 <? d then (y, m, d - 1)
  else if 1 <? m then (y, m - 1, daysInMonth y (m - 1))
  else (y - 1, 12, 31).

(** Local fields of midnight UTC of [(y, m, d)] in a zone [tz] minutes
    ahead of UTC, for [-1440 < tz < 1440]. *)
Definition localOfUtcMidnight (tz y m d : Z) : Date :=
  if 0 <=? tz then mkDate y (m - 1) d (tz / 60) (tz mod 60)
  else
    let '(y', m', d') := previousDay y m d in
    mkDate y' (m' - 1) d' ((1440 + tz) / 60) ((1440 + tz) mod 60).

(** The text [YYYY-MM-DD] read as three numbers; [None] when the text has
    another shape or is no calendar day (an Invalid Date). *)
Definition parseYMD (s : string) : option (Z * Z * Z) :=
  match list_ascii_of_string s with
  | [y1; y2; y3; y4; s1; m1; m2; s2; d1; d2] =>
      match digit y1, digit y2, digit y3, digit y4,
            digit m1, digit m2, digit d1, digit d2 with
      | Some a, Some b, Some c, Some e, Some f, Some g, Some h, Some i =>
          let y := a * 1000 + b * 100 + c * 10 + e in
          let m := f * 10 + g in
          let d := h * 10 + i in
          if Ascii.eqb s1 "-" && Ascii.eqb s2 "-" && validYMD y m d
          then Some (y, m, d) else None
      | _, _, _, _, _, _, _, _ => None
      end
  | _ => None
  end.

(** [new Date(s)] for a date-only string, in the zone [tz]. *)
Definition newDate (tz : Z) (s : string) : option Date :=
  match parseYMD s with
  | Some (y, m, d) => Some (localOfUtcMidnight tz y m d)
  | None => None
  end.

(** The date-only text of a calendar day, as the profile store holds it. *)
Definition isoDateString (y m d : Z) : string :=
  string_of_list_ascii
    [digitChar (y / 1000); digitChar (y / 100 mod 10);
     digitChar (y / 10 mod 10); digitChar (y mod 10); "-"%char;
     digitChar (m / 10); digitChar (m mod 10); "-"%char;
     digitChar (d / 10); digitChar (d mod 10)].

End Js.

(** ** The scanner page *)

Module Scanner.

Import Js.

Inductive AttendanceStatus := present | late | absent | half_day.

(** [checkIfBirthday]: [Date_new] is the runtime's [Date] constructor on
    strings ([None] for an Invalid Date, whose getters give [NaN], equal to
    nothing), [today] the clock reading [new Date()]. *)
Definition checkIfBirthday (Date_new : string -> option Date) (today : Date)
    (birthday : option string) : bool :=
  if negb (truthy birthday) then false
  else
    match birthday with
    | Some s =>
        match Date_new s with
        | Some birthDate =>
            (getMonth today =? getMonth birthDate) &&
            (getDate today =? getDate birthDate)
        | None => false
        end
    | None => false
    end.

(** [getAttendanceStatus], on the clock reading [now]. *)
Definition getAttendanceStatus (now : Date) : AttendanceStatus :=
  let hours := getHours now in
  let minutes := getMinutes now in
  let currentTime := hours * 60 + minutes in
  if (360 <=? currentTime) && (currentTime <? 480) then present
  else if (480 <=? currentTime) && (currentTime <? 720) then late
  else if (720 <=? currentTime) && (currentTime <=? 795) then present
  else if 1050 <=? currentTime then absent
  else present.

(** *** Data of one handling pass *)

(** The JSON text of a QR code, decoded. *)
Record StudentData := mkStudentData {
  sd_user_id : string;
  sd_name : string;
  sd_section : string
}.

(** A row of [profiles], with the columns the handler reads. *)
Record Profile := mkProfile {
  email : option string;
  birthday : option string;
  parent_number : option string;
  parent_guardian_name : option string
}.

(** A row of [attendance] returned by the same-day query; [scanned_at] is
    the row's timestamp as [new Date(a.scanned_at)] reads it. *)
Record AttendanceRow := mkAttendanceRow {
  student_id : string;
  row_status : AttendanceStatus;
  scanned_at : Date
}.

(** The row handed to [insert]. *)
Record NewAttendance := mkNewAttendance {
  new_student_id : string;
  new_student_name : string;
  new_section : string;
  new_scanned_by : string;
  new_status : AttendanceStatus;
  new_parent_notified : bool
}.

(** The value the QR scanner passes to [onScan]: a falsy value, an array of
    detected codes, or one detected code. *)
Record Barcode := mkBarcode { rawValue : option string }.

Inductive ScanResult :=
| Falsy
| Codes (codes : list Barcode)
| Code (code : Barcode).

Inductive PushAlert := LateArrivalAlert | AbsenceAlert | HalfDayAlert.

Inductive SmsTemplate := EnteredPremises | ArrivedLate | MarkedAbsent | HalfDayOnly.

(** The three edge functions and the payload fields built for each. *)
Inductive Request :=
| SendEmail (to_email to_name student_name : string) (status : AttendanceStatus)
| SendNotification (user_id : string) (title : PushAlert) (status : AttendanceStatus)
| SendSms (phone_number : string) (message : SmsTemplate) (for_student : string).

(** What [await supabase.functions.invoke(...)] does: it resolves with
    [data], resolves with [error], or rejects (the call throws). *)
Inductive InvokeResult := Resolved | ResolvedError | Rejected.

Inductive Error :=
| MissingRawValue
| InvalidJSON
| ProfileNotFound
| InsertError
| InvokeThrew (req : Request).

Inductive ToastKind :=
| AlreadyRecordedToday
| AlreadyRecordedSession
| AttendanceRecorded (status : AttendanceStatus)
| ScanFailedToast (e : Error).

Inductive Channel := EMAIL | PUSH | SMS.

Inductive Timer := ResumeAfterReject | ResetAfterRecord | ResumeAfterFailure.

(** The observable effects of a handling pass, in program order. *)
Inductive Event :=
| SetScanning (b : bool)
| SetIsBirthday (b : bool)
| SetScannedStudent (s : StudentData) (status : AttendanceStatus)
| PlayBirthdayAnimation
| Toast (kind : ToastKind) (birthdayToday : bool)
| Inserted (row : NewAttendance)
| InsertRefused (row : NewAttendance)
| Invoke (req : Request)
| ConsoleError (ch : Channel)
| ConsoleErrorScan (e : Error)
| SetTimeout (t : Timer) (ms : Z).

(** How a handling pass ends. *)
Inductive Outcome :=
| Ignored
| BothSessionsComplete
| SessionAlreadyRecorded
| Recorded (status : AttendanceStatus)
| ScanFailed (e : Error).

(** The component state and the collaborators a pass talks to.  The three
    clock fields are the three [new Date()] readings the decisions use
    (in [checkIfBirthday], in [getAttendanceStatus] and for [hours]). *)
Record World := mkWorld {
  scanning : bool;
  admin_id : option string;
  clock_birthday : Date;
  clock_status : Date;
  clock_now : Date;
  Date_new : string -> option Date;
  JSON_parse : string -> option StudentData;
  profiles_single : string -> option Profile;
  attendance_today : string -> option (list AttendanceRow);
  attendance_insert : NewAttendance -> bool;
  functions_invoke : Request -> InvokeResult
}.

(** *** Effects: a trace, early return and exceptions *)

Inductive Flow (A : Type) :=
| Next (a : A)
| Return (o : Outcome)
| Throw (e : Error).

Arguments Next {A} a.
Arguments Return {A} o.
Arguments Throw {A} e.

Definition Eff (A : Type) : Type := list Event * Flow A.

Definition ret {A} (a : A) : Eff A := ([], Next a).

Definition bind {A B} (m : Eff A) (k : A -> Eff B) : Eff B :=
  match m with
  | (t, Next a) => let '(t', r) := k a in ((t ++ t')%list, r)
  | (t, Return o) => (t, Return o)
  | (t, Throw e) => (t, Throw e)
  end.

Definition emit (e : Event) : Eff unit := ([e], Next tt).

Definition throw {A} (e : Error) : Eff A := ([], Throw e).

Definition early_return {A} (o : Outcome) : Eff A := ([], Return o).

(** [try { m } catch (err) { handler }] *)
Definition try_catch {A} (m : Eff A) (handler : Error -> Eff A) : Eff A :=
  match m with
  | (t, Throw e) => let '(t', r) := handler e in ((t ++ t')%list, r)
  | other => other
  end.

Definition when (b : bool) (m : Eff unit) : Eff unit :=
  if b then m else ret tt.

Notation "x <- m ;; k" := (bind m (fun x => k))
  (at level 100, m at next level, right associativity).
Notation "m ;; k" := (bind m (fun _ => k))
  (at level 100, right associativity).

(** *** The blocks of [handleScan] *)

(** [Array.isArray(result) ? result[0]?.rawValue : result?.rawValue] *)
Definition rawValueOf (result : ScanResult) : option string :=
  match result with
  | Falsy => None
  | Codes [] => None
  | Codes (c :: _) => rawValue c
  | Code c => rawValue c
  end.

Definition isMorningHour (h : Z) : bool := (6 <=? h) && (h <? 12).

Definition isAfternoonHour (h : Z) : bool := (12 <=? h) && (h <? 16).

Definition morningScans (existingAttendance : list AttendanceRow) : list AttendanceRow :=
  List.filter (fun a => let scanHour := getHours (scanned_at a) in isMorningHour scanHour)
    existingAttendance.

Definition afternoonScans (existingAttendance : list AttendanceRow) : list AttendanceRow :=
  List.filter (fun a => let scanHour := getHours (scanned_at a) in isAfternoonHour scanHour)
    existingAttendance.

(** [xs.length > 0] *)
Definition nonEmpty {A} (xs : list A) : bool := (0 <? Z.of_nat (length xs)).

(** The reconciliation with the rows already recorded today: either of the
    two rejections toasts, arms the resume timer and returns. *)
Definition reconcile (birthdayToday : bool) (hours : Z)
    (existingAttendance : option (list AttendanceRow)) : Eff unit :=
  match existingAttendance with
  | Some rows =>
      if nonEmpty rows then
        let currentlyMorning := isMorningHour hours in
        let currentlyAfternoon := isAfternoonHour hours in
        if (currentlyMorning && nonEmpty (afternoonScans rows)) ||
           (currentlyAfternoon && nonEmpty (morningScans rows)) then
          emit (Toast AlreadyRecordedToday birthdayToday) ;;
          emit (SetTimeout ResumeAfterReject (if birthdayToday then 5000 else 3000)) ;;
          early_return BothSessionsComplete
        else if (currentlyMorning && nonEmpty (morningScans rows)) ||
                (currentlyAfternoon && nonEmpty (afternoonScans rows)) then
          emit (Toast AlreadyRecordedSession birthdayToday) ;;
          emit (SetTimeout ResumeAfterReject (if birthdayToday then 5000 else 3000)) ;;
          early_return SessionAlreadyRecorded
        else ret tt
      else ret tt
  | None => ret tt
  end.

(** [await supabase.functions.invoke(name, { body })] followed by the
    [if (error) console.error(...) else console.log(...)] of each call. *)
Definition invoke (w : World) (ch : Channel) (req : Request) : Eff unit :=
  emit (Invoke req) ;;
  match functions_invoke w req with
  | Resolved => ret tt
  | ResolvedError => emit (ConsoleError ch)
  | Rejected => throw (InvokeThrew req)
  end.

Definition sendEmail (w : World) (studentData : StudentData) (profile : Profile)
    (finalStatus : AttendanceStatus) : Eff unit :=
  match email profile with
  | Some to_email =>
      if truthy (email profile) then
        invoke w EMAIL
          (SendEmail to_email (or_else (parent_guardian_name profile) "Parent/Guardian")
             (sd_name studentData) finalStatus)
      else ret tt
  | None => ret tt
  end.

Definition notificationTitle (finalStatus : AttendanceStatus) : PushAlert :=
  match finalStatus with
  | late => LateArrivalAlert
  | absent => AbsenceAlert
  | _ => HalfDayAlert
  end.

Definition isAlertStatus (finalStatus : AttendanceStatus) : bool :=
  match finalStatus with
  | late | absent | half_day => true
  | present => false
  end.

Definition sendPush (w : World) (studentData : StudentData)
    (finalStatus : AttendanceStatus) : Eff unit :=
  when (isAlertStatus finalStatus)
    (try_catch
       (invoke w PUSH
          (SendNotification (sd_user_id studentData) (notificationTitle finalStatus)
             finalStatus))
       (fun notifError => emit (ConsoleError PUSH))).

Definition smsMessage (finalStatus : AttendanceStatus) : SmsTemplate :=
  match finalStatus with
  | present => EnteredPremises
  | late => ArrivedLate
  | absent => MarkedAbsent
  | half_day => HalfDayOnly
  end.

Definition sendSms (w : World) (studentData : StudentData) (profile : Profile)
    (finalStatus : AttendanceStatus) : Eff unit :=
  match parent_number profile with
  | Some phone =>
      if truthy (parent_number profile) then
        try_catch
          (invoke w SMS
             (SendSms phone (smsMessage finalStatus) (sd_user_id studentData)))
          (fun smsError => emit (ConsoleError SMS))
      else ret tt
  | None => ret tt
  end.

(** The three notification calls, in the order of the source. *)
Definition notify (w : World) (studentData : StudentData) (profile : Profile)
    (finalStatus : AttendanceStatus) : Eff unit :=
  sendEmail w studentData profile finalStatus ;;
  sendPush w studentData finalStatus ;;
  sendSms w studentData profile finalStatus.

(** The row a pass builds for the student: [scanned_by] is
    [user?.id || ''] and [parent_notified] is [!!profile.parent_number]. *)
Definition attendanceRow (w : World) (studentData : StudentData) (profile : Profile)
    (finalStatus : AttendanceStatus) : NewAttendance :=
  mkNewAttendance (sd_user_id studentData) (sd_name studentData)
    (sd_section studentData) (or_else (admin_id w) "")
    finalStatus (truthy (parent_number profile)).

(** The insert into [attendance]; a refused insert throws its error. *)
Definition recordAttendance (w : World) (studentData : StudentData)
    (profile : Profile) (finalStatus : AttendanceStatus) : Eff unit :=
  let row := attendanceRow w studentData profile finalStatus in
  if attendance_insert w row then emit (Inserted row)
  else (emit (InsertRefused row) ;; throw InsertError).

(** The body of the [try] block from the profile on. *)
Definition processStudent (w : World) (studentData : StudentData)
    (profile : Profile) : Eff AttendanceStatus :=
  let birthdayToday :=
    checkIfBirthday (Date_new w) (clock_birthday w) (birthday profile) in
  emit (SetIsBirthday birthdayToday) ;;
  when birthdayToday (emit PlayBirthdayAnimation) ;;
  let existingAttendance := attendance_today w (sd_user_id studentData) in
  let status := getAttendanceStatus (clock_status w) in
  let now := clock_now w in
  let hours := getHours now in
  let finalStatus := status in
  reconcile birthdayToday hours existingAttendance ;;
  recordAttendance w studentData profile finalStatus ;;
  emit (SetScannedStudent studentData finalStatus) ;;
  emit (Toast (AttendanceRecorded finalStatus) birthdayToday) ;;
  notify w studentData profile finalStatus ;;
  emit (SetTimeout ResetAfterRecord (if birthdayToday then 5000 else 3000)) ;;
  ret finalStatus.

(** The body of the [try] block. *)
Definition tryBlock (w : World) (result : ScanResult) : Eff AttendanceStatus :=
  emit (SetScanning false) ;;
  match rawValueOf result with
  | Some raw =>
      if truthy (Some raw) then
        match JSON_parse w raw with
        | Some studentData =>
            match profiles_single w (sd_user_id studentData) with
            | Some profile => processStudent w studentData profile
            | None => throw ProfileNotFound
            end
        | None => throw InvalidJSON
        end
      else throw MissingRawValue
  | None => throw MissingRawValue
  end.

(** The [catch] block of the handler. *)
Definition catchBlock (e : Error) : list Event :=
  [ConsoleErrorScan e; Toast (ScanFailedToast e) false;
   SetTimeout ResumeAfterFailure 2000].

Definition isFalsy (result : ScanResult) : bool :=
  match result with Falsy => true | _ => false end.

(** The [try]/[catch] of the handler around its body: a [return] inside
    the body ends the pass, a thrown error runs the [catch] block. *)
Definition tryCatch (body : Eff AttendanceStatus) : list Event * Outcome :=
  match body with
  | (t, Next finalStatus) => (t, Recorded finalStatus)
  | (t, Return o) => (t, o)
  | (t, Throw e) => ((t ++ catchBlock e)%list, ScanFailed e)
  end.

(** [handleScan]: the effects of one pass and how it ended. *)
Definition handleScan (w : World) (result : ScanResult) : list Event * Outcome :=
  if isFalsy result || negb (scanning w) then ([], Ignored)
  else tryCatch (tryBlock w result).

(** *** Reading a trace *)

(** The rows the pass added to [attendance]. *)
Definition insertedRows (t : list Event) : list NewAttendance :=
  omap (fun e => match e with Inserted row => Some row | _ => None end) t.

(** The rows the pass handed to [insert], accepted or not. *)
Definition submittedRows (t : list Event) : list NewAttendance :=
  omap (fun e => match e with
                 | Inserted row | InsertRefused row => Some row
                 | _ => None
                 end) t.

(** The requests the pass sent to the edge functions. *)
Definition requests (t : list Event) : list Request :=
  omap (fun e => match e with Invoke req => Some req | _ => None end) t.

Definition isEmail (req : Request) : bool :=
  match req with SendEmail _ _ _ _ => true | _ => false end.

Definition isPush (req : Request) : bool :=
  match req with SendNotification _ _ _ => true | _ => false end.

Definition isSms (req : Request) : bool :=
  match req with SendSms _ _ _ => true | _ => false end.

Definition dispatched (kind : Request -> bool) (t : list Event) : bool :=
  existsb kind (requests t).

(** The events of a pass before its reconciliation. *)
Definition prelude (birthdayToday : bool) : list Event :=
  SetScanning false :: SetIsBirthday birthdayToday ::
  (if birthdayToday then [PlayBirthdayAnimation] else []).

(** The events of a rejection: the toast and the resume timer. *)
Definition rejection (kind : ToastKind) (birthdayToday : bool) : list Event :=
  [Toast kind birthdayToday;
   SetTimeout ResumeAfterReject (if birthdayToday then 5000 else 3000)].

(** An event that hands a row to the insert hands one of status [st]. *)
Definition carriesStatus (st : AttendanceStatus) (e : Event) : Prop :=
  match e with
  | Inserted row | InsertRefused row => new_status row = st
  | _ => True
  end.

(** The student and the profile a pass gets to, when the scanner is on,
    the code decodes and the profile exists. *)
Definition scannedStudent (w : World) (result : ScanResult)
    : option (StudentData * Profile) :=
  if isFalsy result || negb (scanning w) then None
  else
    match rawValueOf result with
    | Some raw =>
        if truthy (Some raw) then
          match JSON_parse w raw with
          | Some studentData =>
              match profiles_single w (sd_user_id studentData) with
              | Some profile => Some (studentData, profile)
              | None => None
              end
          | None => None
          end
        else None
    | None => None
    end.

(** Whether the e-mail call of a pass throws: the profile has an address
    and the invocation rejects. *)
Definition emailThrows (w : World) (studentData : StudentData) (profile : Profile)
    (finalStatus : AttendanceStatus) : bool :=
  match sendEmail w studentData profile finalStatus with
  | (_, Throw _) => true
  | _ => false
  end.

(** *** Scenarios *)

Module Scenario.

Definition at_time (h m : Z) : Date := mkDate 2025 2 10 h m.

Definition ana : StudentData := mkStudentData "u-ana" "Ana" "7-A".

Definition ana_profile : Profile :=
  mkProfile (Some "parent@example.org") (Some "2010-06-01") (Some "09170000000") None.

Definition qr : ScanResult := Codes [mkBarcode (Some "ana-qr")].

(** A scanner that is on at [h]:[m], with Ana's code and profile known,
    [rows] already recorded today, every insert accepted, and the edge
    functions answering as [answers] says. *)
Definition world (h m : Z) (rows : list AttendanceRow)
    (answers : Request -> InvokeResult) : World :=
  mkWorld true (Some "admin-1") (at_time h m) (at_time h m) (at_time h m)
    (newDate 480)
    (fun raw => if String.eqb raw "ana-qr" then Some ana else None)
    (fun uid => if String.eqb uid "u-ana" then Some ana_profile else None)
    (fun _ => Some rows)
    (fun _ => true)
    answers.

Definition all_resolve : Request -> InvokeResult := fun _ => Resolved.

Definition email_rejects : Request -> InvokeResult :=
  fun req => if isEmail req then Rejected else Resolved.

Definition push_rejects : Request -> InvokeResult :=
  fun req => if isPush req then Rejected else Resolved.

Definition sms_rejects : Request -> InvokeResult :=
  fun req => if isSms req then Rejected else Resolved.

Definition morning_row : AttendanceRow := mkAttendanceRow "u-ana" present (at_time 7 30).

Definition afternoon_row : AttendanceRow := mkAttendanceRow "u-ana" present (at_time 13 0).

Definition row_of (st : AttendanceStatus) : NewAttendance :=
  mkNewAttendance "u-ana" "Ana" "7-A" "admin-1" st true.

End Scenario.

End Scanner.

(** ** The ratings page *)

Module Ratings.

(** A row of [app_ratings].  A score is a whole number of stars or [null]. *)
Record Rating := mkRating {
  rating_id : string;
  user_id : string;
  user_name : string;
  user_section : option string;
  ease_of_use : option Z;
  interface_design : option Z;
  qr_code_functionality : option Z;
  attendance_tracking : option Z;
  response_speed : option Z;
  reliability : option Z;
  overall_satisfaction : option Z;
  would_recommend : option Z;
  suggestions : option string;
  additional_comments : option string;
  created_at : string
}.

(** [Object.keys(questionLabels)], in insertion order. *)
Definition questionKeys : list string :=
  ["ease_of_use"; "interface_design"; "qr_code_functionality"; "attendance_tracking";
   "response_speed"; "reliability"; "overall_satisfaction"; "would_recommend"].

(** [rating[key]] when [typeof] it is ['number']; the other columns hold
    text, and a [null] score is no number. *)
Definition numberAt (rating : Rating) (key : string) : option Z :=
  if String.eqb key "ease_of_use" then ease_of_use rating
  else if String.eqb key "interface_design" then interface_design rating
  else if String.eqb key "qr_code_functionality" then qr_code_functionality rating
  else if String.eqb key "attendance_tracking" then attendance_tracking rating
  else if String.eqb key "response_speed" then response_speed rating
  else if String.eqb key "reliability" then reliability rating
  else if String.eqb key "overall_satisfaction" then overall_satisfaction rating
  else if String.eqb key "would_recommend" then would_recommend rating
  else None.

(** One entry of [stats]; the quotient of two whole numbers is kept exact. *)
Record Stat := mkStat { sum : Z; count : Z; avg : Q }.

(** [xs.forEach(x => ...)] over a state the callback updates; [None] is a
    [TypeError] thrown by the callback (a property read on [undefined]). *)
Fixpoint forEach {S A : Type} (f : S -> A -> option S) (xs : list A) (s : S) : option S :=
  match xs with
  | [] => Some s
  | x :: rest =>
      match f s x with
      | Some s' => forEach f rest s'
      | None => None
      end
  end.

(** [stats[key] = { sum: 0, count: 0, avg: 0 }] *)
Definition initStat (stats : gmap string Stat) (key : string) : option (gmap string Stat) :=
  Some (<[key := mkStat 0 0 0%Q]> stats).

(** [stats[key].sum += value; stats[key].count += 1] when the value is a
    number. *)
Definition addValue (rating : Rating) (stats : gmap string Stat) (key : string)
    : option (gmap string Stat) :=
  let value := numberAt rating key in
  match value with
  | Some v =>
      match stats !! key with
      | Some st => Some (<[key := mkStat (sum st + v) (count st + 1) (avg st)]> stats)
      | None => None
      end
  | None => Some stats
  end.

Definition addRating (stats : gmap string Stat) (rating : Rating)
    : option (gmap string Stat) :=
  forEach (addValue rating) questionKeys stats.

(** [if (stats[key].count > 0) stats[key].avg = stats[key].sum / stats[key].count] *)
Definition setAvg (stats : gmap string Stat) (key : string) : option (gmap string Stat) :=
  match stats !! key with
  | Some st =>
      if 0 <? count st
      then Some (<[key := mkStat (sum st) (count st)
                            (inject_Z (sum st) / inject_Z (count st))%Q]> stats)
      else Some stats
  | None => None
  end.

(** [totalSum += stats[key].sum; totalCount += stats[key].count] *)
Definition addTotals (stats : gmap string Stat) (totals : Z * Z) (key : string)
    : option (Z * Z) :=
  match stats !! key with
  | Some st => Some (fst totals + sum st, snd totals + count st)
  | None => None
  end.

Record Statistics := mkStatistics {
  byQuestion : gmap string Stat;
  overallAvg : Q;
  totalResponses : Z
}.

(** The value of the [statistics] memo: [null], the object, or a thrown
    [TypeError]. *)
Inductive Memo :=
| Null
| Value (s : Statistics)
| Thrown.

Definition statistics (ratings : list Rating) : Memo :=
  if Z.of_nat (length ratings) =? 0 then Null
  else
    let result :=
      stats ← forEach initStat questionKeys ∅;
      stats ← forEach addRating ratings stats;
      stats ← forEach setAvg questionKeys stats;
      totals ← forEach (addTotals stats) questionKeys (0, 0);
      let '(totalSum, totalCount) := totals in
      Some (mkStatistics stats
              (if 0 <? totalCount then (inject_Z totalSum / inject_Z totalCount)%Q else 0%Q)
              (Z.of_nat (length ratings))) in
    match result with
    | Some s => Value s
    | None => Thrown
    end.

(** *** The aggregation, stated directly on the rows *)

(** The numeric values the rows hold for the question [key], in row
    order. *)
Definition valuesOf (key : string) (ratings : list Rating) : list Z :=
  omap (fun rating => numberAt rating key) ratings.

Definition sumZ (xs : list Z) : Z := fold_right Z.add 0 xs.

(** The numeric values of all the questions. *)
Definition allValues (ratings : list Rating) : list Z :=
  concat (map (fun key => valuesOf key ratings) questionKeys).

(** Sum over count, and 0 over no value. *)
Definition average (xs : list Z) : Q :=
  if Z.of_nat (length xs) =? 0 then 0%Q
  else (inject_Z (sumZ xs) / inject_Z (Z.of_nat (length xs)))%Q.

(** *** The aggregation as the claim words it

    The eight questions of the form, each with the column of [Rating] that
    holds its score.  The list is read off the interface [Rating] and the
    keys of [questionLabels]; it does not go through [numberAt]. *)
Definition questionColumns : list (string * (Rating -> option Z)) :=
  [("ease_of_use", ease_of_use);
   ("interface_design", interface_design);
   ("qr_code_functionality", qr_code_functionality);
   ("attendance_tracking", attendance_tracking);
   ("response_speed", response_speed);
   ("reliability", reliability);
   ("overall_satisfaction", overall_satisfaction);
   ("would_recommend", would_recommend)].

(** The values of a column that are not [null], in row order. *)
Fixpoint columnValues (column : Rating -> option Z) (ratings : list Rating) : list Z :=
  match ratings with
  | [] => []
  | rating :: rest =>
      match column rating with
      | Some value => value :: columnValues column rest
      | None => columnValues column rest
      end
  end.

(** The values of the eight columns that are not [null]. *)
Definition allColumnValues (ratings : list Rating) : list Z :=
  columnValues ease_of_use ratings ++ columnValues interface_design ratings ++
  columnValues qr_code_functionality ratings ++ columnValues attendance_tracking ratings ++
  columnValues response_speed ratings ++ columnValues reliability ratings ++
  columnValues overall_satisfaction ratings ++ columnValues would_recommend ratings.

(** *** Entries of [stats] along the loops *)

(** The entry of a question after one row was added to it. *)
Definition bumped (rating : Rating) (key : string) (st : Stat) : Stat :=
  match numberAt rating key with
  | Some v => mkStat (sum st + v) (count st + 1) (avg st)
  | None => st
  end.

(** The entry of a question after the rows [ratings] were added to it. *)
Definition accumulated (key : string) (ratings : list Rating) (st : Stat) : Stat :=
  mkStat (sum st + sumZ (valuesOf key ratings))
         (count st + Z.of_nat (length (valuesOf key ratings))) (avg st).

(** The entry of a question after the averaging loop. *)
Definition averaged (st : Stat) : Stat :=
  if 0 <? count st
  then mkStat (sum st) (count st) (inject_Z (sum st) / inject_Z (count st))%Q
  else st.

Definition rate (user : string) (scores : list (option Z)) : Rating :=
  mkRating "r" user user None
    (nth 0 scores None) (nth 1 scores None) (nth 2 scores None) (nth 3 scores None)
    (nth 4 scores None) (nth 5 scores None) (nth 6 scores None) (nth 7 scores None)
    None None "2025-01-01".

End Ratings.

(** ** The rest of the ratings page *)

Module RatingsViews.

Import Ratings.

(** *** [sectionStats] *)

(** A value of the [sections] object: a count, or the text that results
    from adding 1 to a member inherited from [Object.prototype]. *)
Inductive Entry :=
| Count (n : Z)
| NotACount.

(** The data members every object inherits from [Object.prototype]; the
    accessor [__proto__] is apart, an assignment of a text to it is
    dropped. *)
Definition inheritedData : list string :=
  ["constructor"; "hasOwnProperty"; "isPrototypeOf"; "propertyIsEnumerable";
   "toLocaleString"; "toString"; "valueOf"; "__defineGetter__"; "__defineSetter__";
   "__lookupGetter__"; "__lookupSetter__"].

(** [r.user_section || 'Unknown'] *)
Definition sectionOf (r : Rating) : string := Js.or_else (user_section r) "Unknown".

(** [sections[section] = (sections[section] || 0) + 1], on the own
    properties of [sections]. *)
Definition countSection (sections : gmap string Entry) (r : Rating) : gmap string Entry :=
  let section := sectionOf r in
  match sections !! section with
  | Some (Count n) => <[section := Count ((if n =? 0 then 0 else n) + 1)]> sections
  | Some NotACount => <[section := NotACount]> sections
  | None =>
      if String.eqb section "__proto__" then sections
      else if bool_decide (section ∈ inheritedData) then <[section := NotACount]> sections
      else <[section := Count 1]> sections
  end.

Definition sectionStats (ratings : list Rating) : gmap string Entry :=
  foldl countSection ∅ ratings.

(** The number of rows counted under the section [s]. *)
Definition rowsOfSection (s : string) (ratings : list Rating) : Z :=
  Z.of_nat (length (List.filter (fun r => String.eqb (sectionOf r) s) ratings)).

Definition entryCount (e : Entry) : Z :=
  match e with
  | Count n => n
  | NotACount => 0
  end.

(** The sum of the counts of all sections. *)
Definition totalCounted (sections : gmap string Entry) : Z :=
  map_fold (fun _ e acc => entryCount e + acc) 0 sections.

(** A section name that is no member of [Object.prototype]. *)
Definition plainSection (s : string) : bool :=
  negb (String.eqb s "__proto__") && negb (bool_decide (s ∈ inheritedData)).

(** *** The entries of [statistics] *)

(** The entry of a question in the words of its values. *)
Definition entryOf (key : string) (ratings : list Rating) : Stat :=
  mkStat (sumZ (valuesOf key ratings)) (Z.of_nat (length (valuesOf key ratings)))
    (average (valuesOf key ratings)).

(** *** Colours *)

(** [getScoreColor] *)
Definition getScoreColor (score : Q) : string :=
  if Qle_bool 4 score then "text-green-600 dark:text-green-400"
  else if Qle_bool 3 score then "text-yellow-600 dark:text-yellow-400"
  else "text-red-600 dark:text-red-400".

(** The colour of the bar of a question:
    [data.avg >= 4 ? 'bg-green-500' : data.avg >= 3 ? 'bg-yellow-500' : 'bg-red-500'] *)
Definition barColor (avg : Q) : string :=
  if Qle_bool 4 avg then "bg-green-500"
  else if Qle_bool 3 avg then "bg-yellow-500"
  else "bg-red-500".

(** *** The highest rated question *)

(** [Object.entries(statistics.byQuestion)]: the keys were inserted in the
    order of [questionKeys]. *)
Definition entries (s : Statistics) : list (string * Stat) :=
  omap (fun key => (fun st => (key, st)) <$> byQuestion s !! key) questionKeys.

(** [(a, b) => b[1].avg - a[1].avg] *)
Definition byAvgDescending (a b : string * Stat) : Q := (avg (snd b) - avg (snd a))%Q.

(** [Array.prototype.sort] with a comparator: the sort is stable, so its
    result is the one an insertion from the right builds; [x] goes behind
    [y] when [cmp x y > 0]. *)
Fixpoint insertBy {A} (cmp : A -> A -> Q) (x : A) (sorted : list A) : list A :=
  match sorted with
  | [] => [x]
  | y :: rest =>
      match (cmp x y ?= 0)%Q with
      | Gt => y :: insertBy cmp x rest
      | _ => x :: y :: rest
      end
  end.

Definition sortBy {A} (cmp : A -> A -> Q) (xs : list A) : list A :=
  fold_right (insertBy cmp) [] xs.

(** [Object.entries(statistics.byQuestion).sort(...)[0]] *)
Definition highestRated (s : Statistics) : option (string * Stat) :=
  head (sortBy byAvgDescending (entries s)).

(** *** [exportToCSV] *)

Definition quote : ascii := ascii_of_nat 34.

(** The [replace] of [exportToCSV], with the global pattern of one double
    quote and the replacement of two: every double quote is written
    twice. *)
Fixpoint doubleQuotes (s : string) : string :=
  match s with
  | EmptyString => EmptyString
  | String c rest =>
      if Ascii.eqb c quote then String quote (String quote (doubleQuotes rest))
      else String c (doubleQuotes rest)
  end.

(** The cell of a free text: [v || ''] with its quotes doubled, between
    two double quotes. *)
Definition quoted (v : option string) : string :=
  String quote (doubleQuotes (Js.or_else v "") ++ String quote EmptyString)%string.

(** The text of a whole number, as [join] writes it. *)
Definition numberText (n : Z) : string :=
  DecimalString.NilZero.string_of_int (Z.to_int n).

(** The cell of a score: [r.ease_of_use || ''], joined as text. *)
Definition scoreCell (v : option Z) : string :=
  match v with
  | Some n => if n =? 0 then "" else numberText n
  | None => ""
  end.

Definition headers : list string :=
  ["Respondent Name"; "Section"; "Ease of Use"; "Interface Design";
   "QR Code Functionality"; "Attendance Tracking"; "Response Speed"; "Reliability";
   "Overall Satisfaction"; "Would Recommend"; "Suggestions"; "Additional Comments";
   "Submitted At"].

(** The cells of one row; [toLocaleString] is the browser's rendering of
    [new Date(r.created_at)]. *)
Definition rowCells (toLocaleString : string -> string) (r : Rating) : list string :=
  [user_name r; Js.or_else (user_section r) "";
   scoreCell (ease_of_use r); scoreCell (interface_design r);
   scoreCell (qr_code_functionality r); scoreCell (attendance_tracking r);
   scoreCell (response_speed r); scoreCell (reliability r);
   scoreCell (overall_satisfaction r); scoreCell (would_recommend r);
   quoted (suggestions r); quoted (additional_comments r);
   toLocaleString (created_at r)].

Definition newline : string := String (ascii_of_nat 10) EmptyString.

Definition csvContent (toLocaleString : string -> string) (ratings : list Rating) : string :=
  String.concat newline
    (String.concat "," headers ::
     map (fun row => String.concat "," row) (map (rowCells toLocaleString) ratings)).

(** What [exportToCSV] does: the toast it shows and the file it offers;
    [today] is [new Date().toISOString().split('T')[0]]. *)
Inductive Export :=
| NoData
| Exported (download content : string) (exportedRows : Z).

Definition exportToCSV (toLocaleString : string -> string) (today : string)
    (ratings : list Rating) : Export :=
  if Z.of_nat (length ratings) =? 0 then NoData
  else Exported ("app_ratings_" ++ today ++ ".csv")%string
         (csvContent toLocaleString ratings) (Z.of_nat (length ratings)).

(** *** Reading an exported row back

    One record of a CSV file read the way a CSV reader does: the cells are
    separated by the commas outside quotes; a quote opens a quoted
    stretch, in which two quotes in a row stand for one quote and a single
    quote closes the stretch.  The first cell of the result is the cell
    being read. *)
Definition pushChar (c : ascii) (cells : list string) : list string :=
  match cells with
  | cell :: rest => String c cell :: rest
  | [] => [String c EmptyString]
  end.

Fixpoint readCells (inQuotes : bool) (text : string) : list string :=
  match text with
  | EmptyString => [EmptyString]
  | String c rest =>
      if inQuotes then
        if Ascii.eqb c quote then
          match rest with
          | String c' rest' =>
              if Ascii.eqb c' quote then pushChar quote (readCells true rest')
              else readCells false rest
          | EmptyString => [EmptyString]
          end
        else pushChar c (readCells true rest)
      else if Ascii.eqb c "," then EmptyString :: readCells false rest
      else if Ascii.eqb c quote then readCells true rest
      else pushChar c (readCells false rest)
  end.

Definition readRecord (line : string) : list string := readCells false line.

(** The number of commas of a text, and whether it is free of double
    quotes. *)
Fixpoint commas (text : string) : nat :=
  match text with
  | EmptyString => 0%nat
  | String c rest => if Ascii.eqb c "," then S (commas rest) else commas rest
  end.

Fixpoint noQuote (text : string) : bool :=
  match text with
  | EmptyString => true
  | String c rest => negb (Ascii.eqb c quote) && noQuote rest
  end.

End RatingsViews.

(** ** The [send-email] edge function *)

Module SendEmailFunction.

Import RatingsViews.

(** The fields read from the JSON body, with the types the interface
    [EmailRequest] gives them; a field the body lacks is [undefined]. *)
Record EmailRequest := mkEmailRequest {
  to_email : option string;
  to_name : option string;
  student_name : option string;
  status : option string;
  time : option string
}.

(** [Deno.env.get] of the three EmailJS secrets. *)
Record Secrets := mkSecrets {
  EMAILJS_SERVICE_ID : option string;
  EMAILJS_TEMPLATE_ID : option string;
  EMAILJS_PUBLIC_KEY : option string
}.

(** [await req.json()]: the body, or the message of the error it throws. *)
Inductive Json :=
| JsonBody (body : EmailRequest)
| JsonThrows (message : string).

Record HttpRequest := mkHttpRequest {
  method : string;
  json : Json
}.

(** [getStatusMessage] *)
Definition getStatusMessage (status studentName : string) : string :=
  if String.eqb status "present" then
    "Good day, Ma'am/Sir. We would like to inform you that your son/daughter, " ++
    studentName ++ ", has safely entered the school premises."
  else if String.eqb status "late" then
    "Good day, Ma'am/Sir. We would like to inform you that your son/daughter, " ++
    studentName ++
    ", has arrived late at the school premises. Please ensure timely arrival in the future."
  else if String.eqb status "absent" then
    "Good day, Ma'am/Sir. We would like to inform you that your son/daughter, " ++
    studentName ++
    ", was marked absent today. If this is an error, please contact the school administration."
  else if String.eqb status "half_day" then
    "Good day, Ma'am/Sir. We would like to inform you that your son/daughter, " ++
    studentName ++ ", was marked for half-day attendance today."
  else if String.eqb status "welcome" then
    "Welcome to Holy Cross of Davao College Attendance System! Your account has been successfully created. You can now use the app to track attendance and receive notifications."
  else
    "Good day, Ma'am/Sir. We would like to inform you about your son/daughter, " ++
    studentName ++ "'s attendance status.".

(** [toUpperCase] on one character of the ASCII letters. *)
Definition upper (c : ascii) : ascii :=
  let n := nat_of_ascii c in
  if (97 <=? n)%nat && (n <=? 122)%nat then ascii_of_nat (n - 32) else c.

(** [text.replace("_", " ")]: a text pattern replaces its first match
    only. *)
Fixpoint replaceFirstUnderscore (text : string) : string :=
  match text with
  | EmptyString => EmptyString
  | String c rest =>
      if Ascii.eqb c "_" then String " " rest
      else String c (replaceFirstUnderscore rest)
  end.

(** [status.charAt(0).toUpperCase() + status.slice(1).replace("_", " ")] *)
Definition statusFormatted (status : string) : string :=
  match status with
  | EmptyString => EmptyString
  | String c rest => String (upper c) (replaceFirstUnderscore rest)
  end.

(** The body posted to EmailJS. *)
Record EmailJsPayload := mkEmailJsPayload {
  service_id : string;
  template_id : string;
  public_key : string;
  param_to_email : string;
  param_to_name : string;
  param_student_name : string;
  param_status : string;
  param_status_formatted : string;
  param_time : option string;
  param_message : string
}.

(** [await fetch(...)] followed by [await emailjsResponse.text()]. *)
Inductive FetchResult :=
| FetchThrows (message : string)
| FetchResponse (ok : bool) (code : Z) (text : string).

Inductive Body :=
| NoBody
| SuccessBody
| ErrorBody (error : string).

Record Response := mkResponse {
  code : Z;
  headers : list (string * string);
  body : Body
}.

Definition corsHeaders : list (string * string) :=
  [("Access-Control-Allow-Origin", "*");
   ("Access-Control-Allow-Headers", "authorization, x-client-info, apikey, content-type")].

Definition jsonHeaders : list (string * string) :=
  corsHeaders ++ [("Content-Type", "application/json")].

(** The [try] block: the requests sent to EmailJS and either the error
    thrown or nothing. *)
Definition tryBlock (secrets : Secrets) (fetch : EmailJsPayload -> FetchResult)
    (req : HttpRequest) : list EmailJsPayload * option string :=
  match EMAILJS_SERVICE_ID secrets, EMAILJS_TEMPLATE_ID secrets,
        EMAILJS_PUBLIC_KEY secrets with
  | Some serviceId, Some templateId, Some publicKey =>
      if Js.truthy (Some serviceId) && Js.truthy (Some templateId) &&
         Js.truthy (Some publicKey) then
        match json req with
        | JsonThrows message => ([], Some message)
        | JsonBody b =>
            match to_email b, student_name b, status b with
            | Some toEmail, Some studentName, Some st =>
                if Js.truthy (Some toEmail) && Js.truthy (Some studentName) &&
                   Js.truthy (Some st) then
                  let message := getStatusMessage st studentName in
                  let payload :=
                    mkEmailJsPayload serviceId templateId publicKey toEmail
                      (Js.or_else (to_name b) "Parent/Guardian") studentName st
                      (statusFormatted st) (time b) message in
                  match fetch payload with
                  | FetchThrows message' => ([payload], Some message')
                  | FetchResponse ok code' text =>
                      if ok then ([payload], None)
                      else
                        ([payload],
                         Some ("EmailJS error (" ++ numberText code' ++ "): " ++
                               (if String.eqb text "" then "Unknown" else text)))
                  end
                else ([], Some "to_email, student_name, and status are required")
            | _, _, _ => ([], Some "to_email, student_name, and status are required")
            end
        end
      else ([], Some "Email service not configured")
  | _, _, _ => ([], Some "Email service not configured")
  end.

(** The handler passed to [serve]. *)
Definition handler (secrets : Secrets) (fetch : EmailJsPayload -> FetchResult)
    (req : HttpRequest) : list EmailJsPayload * Response :=
  if String.eqb (method req) "OPTIONS" then ([], mkResponse 200 corsHeaders NoBody)
  else
    match tryBlock secrets fetch req with
    | (sent, None) => (sent, mkResponse 200 jsonHeaders SuccessBody)
    | (sent, Some errorMessage) => (sent, mkResponse 500 jsonHeaders (ErrorBody errorMessage))
    end.

(** Whether the function is configured and the body names the three
    fields it requires. *)
Definition configured (secrets : Secrets) : bool :=
  Js.truthy (EMAILJS_SERVICE_ID secrets) && Js.truthy (EMAILJS_TEMPLATE_ID secrets) &&
  Js.truthy (EMAILJS_PUBLIC_KEY secrets).

Definition wellFormed (req : HttpRequest) : bool :=
  match json req with
  | JsonBody b =>
      Js.truthy (to_email b) && Js.truthy (student_name b) && Js.truthy (status b)
  | JsonThrows _ => false
  end.

(** The texts of the four attendance statuses, as the scanner sends
    them. *)
Definition statusText (st : Scanner.AttendanceStatus) : string :=
  match st with
  | Scanner.present => "present"
  | Scanner.late => "late"
  | Scanner.absent => "absent"
  | Scanner.half_day => "half_day"
  end.

End SendEmailFunction.

(** ** The test notifications page *)

Module TestNotifications.

Record StudentProfile := mkStudentProfile {
  user_id : string;
  name : string;
  email : string;
  section : option string;
  parent_number : option string;
  parent_guardian_name : option string
}.

Inductive Kind := email_kind | sms_kind.

(** An entry of the response log: its type, whether it succeeded, and the
    error message when it did not. *)
Record NotificationResult := mkNotificationResult {
  type : Kind;
  success : bool;
  error : option string
}.

(** The state of the component. *)
Record State := mkState {
  students : list StudentProfile;
  selectedStudentId : string;
  sendingEmail : bool;
  sendingSms : bool;
  results : list NotificationResult
}.

(** The two requests of the page, with the fields that vary. *)
Inductive Payload :=
| TestEmail (to_email to_name student_name status : string)
| TestSms (phone_number student_name student_id notification_type : string).

(** What [await supabase.functions.invoke(...)] does: it resolves with
    data, resolves with an error, or throws a value that is an [Error]
    with a message or is some other value. *)
Inductive Invoked :=
| Data
| Failed (message : string)
| ThrewError (message : string)
| ThrewOther.

Inductive Toasted :=
| Sent (kind : Kind)
| NotSent (kind : Kind) (message : string).

Inductive Event :=
| Invoke (payload : Payload)
| Toast (t : Toasted).

(** [students.find(s => s.user_id === selectedStudentId)] *)
Definition selectedStudent (st : State) : option StudentProfile :=
  List.find (fun s => String.eqb (user_id s) (selectedStudentId st)) (students st).

(** The message of the [catch] block:
    [err instanceof Error ? err.message : 'Unknown error'] *)
Definition thrownMessage (r : Invoked) : string :=
  match r with
  | ThrewError message => message
  | _ => "Unknown error"
  end.

(** What one send does to the log and which toast it shows, for both
    handlers: the [try] block for a call that returns, the [catch] block
    for one that throws. *)
Definition outcome (kind : Kind) (r : Invoked) : NotificationResult * Toasted :=
  match r with
  | Data => (mkNotificationResult kind true None, Sent kind)
  | Failed message => (mkNotificationResult kind false (Some message), NotSent kind message)
  | ThrewError _ | ThrewOther =>
      (mkNotificationResult kind false (Some (thrownMessage r)),
       NotSent kind (thrownMessage r))
  end.

(** [handleSendEmail]: the state when the handler has finished (after the
    [finally] block) and its events. *)
Definition handleSendEmail (invoke : Payload -> Invoked) (st : State)
    : State * list Event :=
  match selectedStudent st with
  | None => (st, [])
  | Some student =>
      let payload :=
        TestEmail (email student)
          (Js.or_else (parent_guardian_name student) "Parent/Guardian")
          (name student) "present" in
      let '(result, toasted) := outcome email_kind (invoke payload) in
      (mkState (students st) (selectedStudentId st) false (sendingSms st)
         (result :: results st),
       [Invoke payload; Toast toasted])
  end.

(** [handleSendSms] *)
Definition handleSendSms (invoke : Payload -> Invoked) (st : State)
    : State * list Event :=
  match selectedStudent st with
  | None => (st, [])
  | Some student =>
      match parent_number student with
      | Some phone =>
          if Js.truthy (Some phone) then
            let payload := TestSms phone (name student) (user_id student) "test_sms" in
            let '(result, toasted) := outcome sms_kind (invoke payload) in
            (mkState (students st) (selectedStudentId st) (sendingEmail st) false
               (result :: results st),
             [Invoke payload; Toast toasted])
          else (st, [])
      | None => (st, [])
      end
  end.

(** The [disabled] attribute of the two buttons. *)
Definition emailButtonDisabled (st : State) : bool :=
  match selectedStudent st with
  | None => true
  | Some _ => sendingEmail st
  end.

Definition smsButtonDisabled (st : State) : bool :=
  match selectedStudent st with
  | None => true
  | Some student => negb (Js.truthy (parent_number student)) || sendingSms st
  end.

Definition invocations (events : list Event) : list Payload :=
  omap (fun e => match e with Invoke payload => Some payload | _ => None end) events.

End TestNotifications.

(** ** The paths of a handling pass *)

Module ScannerPaths.

Import Js Scanner.

(** [birthdayToday] and [status] as a pass computes them. *)
Definition birthdayOf (w : World) (p : Profile) : bool :=
  checkIfBirthday (Date_new w) (clock_birthday w) (birthday p).

Definition baseStatus (w : World) : AttendanceStatus :=
  getAttendanceStatus (clock_status w).

(** The reconciliation of a pass that got to the student [sd]. *)
Definition reconciled (w : World) (sd : StudentData) (p : Profile) : Eff unit :=
  reconcile (birthdayOf w p) (getHours (clock_now w))
    (attendance_today w (sd_user_id sd)).

(** The events from the accepted insert to the first notification. *)
Definition recordedEvents (w : World) (sd : StudentData) (p : Profile) : list Event :=
  [Inserted (attendanceRow w sd p (baseStatus w));
   SetScannedStudent sd (baseStatus w);
   Toast (AttendanceRecorded (baseStatus w)) (birthdayOf w p)].

Definition resetDelay (birthdayToday : bool) : Z :=
  if birthdayToday then 5000 else 3000.

(** The six ways through [handleScan], each with its events and outcome. *)
Inductive PassShape (w : World) (result : ScanResult) : list Event -> Outcome -> Prop :=
| PassIgnored :
    isFalsy result || negb (scanning w) = true ->
    PassShape w result [] Ignored
| PassNoStudent e :
    isFalsy result || negb (scanning w) = false ->
    scannedStudent w result = None ->
    e = MissingRawValue \/ e = InvalidJSON \/ e = ProfileNotFound ->
    PassShape w result (SetScanning false :: catchBlock e) (ScanFailed e)
| PassRejected sd p kind o :
    scannedStudent w result = Some (sd, p) ->
    reconciled w sd p = (rejection kind (birthdayOf w p), Return o) ->
    (kind = AlreadyRecordedToday /\ o = BothSessionsComplete) \/
    (kind = AlreadyRecordedSession /\ o = SessionAlreadyRecorded) ->
    PassShape w result (prelude (birthdayOf w p) ++ rejection kind (birthdayOf w p)) o
| PassInsertRefused sd p :
    scannedStudent w result = Some (sd, p) ->
    reconciled w sd p = ([], Next tt) ->
    attendance_insert w (attendanceRow w sd p (baseStatus w)) = false ->
    PassShape w result
      (prelude (birthdayOf w p) ++
       InsertRefused (attendanceRow w sd p (baseStatus w)) :: catchBlock InsertError)
      (ScanFailed InsertError)
| PassEmailThrew sd p te req :
    scannedStudent w result = Some (sd, p) ->
    reconciled w sd p = ([], Next tt) ->
    attendance_insert w (attendanceRow w sd p (baseStatus w)) = true ->
    sendEmail w sd p (baseStatus w) = (te, Throw (InvokeThrew req)) ->
    isEmail req = true ->
    requests te = [req] ->
    PassShape w result
      (prelude (birthdayOf w p) ++ recordedEvents w sd p ++ te ++
       catchBlock (InvokeThrew req))
      (ScanFailed (InvokeThrew req))
| PassRecorded sd p :
    scannedStudent w result = Some (sd, p) ->
    reconciled w sd p = ([], Next tt) ->
    attendance_insert w (attendanceRow w sd p (baseStatus w)) = true ->
    emailThrows w sd p (baseStatus w) = false ->
    PassShape w result
      (prelude (birthdayOf w p) ++ recordedEvents w sd p ++
       (notify w sd p (baseStatus w)).1 ++
       [SetTimeout ResetAfterRecord (resetDelay (birthdayOf w p))])
      (Recorded (baseStatus w)).

(** The timers a pass arms, in order. *)
Definition timers (t : list Event) : list (Timer * Z) :=
  omap (fun e => match e with SetTimeout timer ms => Some (timer, ms) | _ => None end) t.

(** The channels whose call a pass logged as failed. *)
Definition loggedErrors (t : list Event) : list Channel :=
  omap (fun e => match e with ConsoleError ch => Some ch | _ => None end) t.

(** The status a request carries, for the two calls that carry one, and
    the student a push or SMS request is about. *)
Definition requestStatus (req : Request) : option AttendanceStatus :=
  match req with
  | SendEmail _ _ _ st => Some st
  | SendNotification _ _ st => Some st
  | SendSms _ _ _ => None
  end.

(** An event of the notification phase: a request or a logged error. *)
Definition isNotifyEvent (e : Event) : bool :=
  match e with
  | Invoke _ | ConsoleError _ => true
  | _ => false
  end.

(** The world [w] with other answers from the edge functions. *)
Definition withAnswers (w : World) (answers : Request -> InvokeResult) : World :=
  mkWorld (scanning w) (admin_id w) (clock_birthday w) (clock_status w) (clock_now w)
    (Date_new w) (JSON_parse w) (profiles_single w) (attendance_today w)
    (attendance_insert w) answers.

(** An event that sends a request with a status sends it with [st]. *)
Definition carriesRequestStatus (st : AttendanceStatus) (e : Event) : Prop :=
  match e with
  | Invoke req => forall st', requestStatus req = Some st' -> st' = st
  | _ => True
  end.

(** The row a pass inserts, read off the inputs without running the
    notification phase. *)
Definition acceptedRow (w : World) (result : ScanResult) : option NewAttendance :=
  match scannedStudent w result with
  | Some (sd, p) =>
      match reconciled w sd p with
      | (_, Next _) =>
          if attendance_insert w (attendanceRow w sd p (baseStatus w))
          then Some (attendanceRow w sd p (baseStatus w)) else None
      | _ => None
      end
  | None => None
  end.

End ScannerPaths.

Module ScannerFacts.

Import Js Scanner.

Example isoDateString_ex : isoDateString 2027 3 15 = "2027-03-15".
Proof. reflexivity. Qed.

Example newDate_manila :
  newDate 480 "2027-03-15" = Some (mkDate 2027 2 15 8 0).
Proof. reflexivity. Qed.

Example newDate_new_york :
  newDate (-300) "2027-03-01" = Some (mkDate 2027 1 28 19 0).
Proof. reflexivity. Qed.

(** *** The base status *)

(** C1: for a scan time of [t] minutes since midnight the base status is
    present on [360, 480), late on [480, 720), present on [720, 795],
    absent from 1050 on, and present at every other time (before 360 and
    strictly between 795 and 1050). *)
Theorem getAttendanceStatus_table (now : Date) :
  let t := getHours now * 60 + getMinutes now in
  (360 <= t < 480 -> getAttendanceStatus now = present) /\
  (480 <= t < 720 -> getAttendanceStatus now = late) /\
  (720 <= t <= 795 -> getAttendanceStatus now = present) /\
  (1050 <= t -> getAttendanceStatus now = absent) /\
  (t < 360 \/ 795 < t < 1050 -> getAttendanceStatus now = present).
Proof.
  unfold getAttendanceStatus; cbv zeta.
  set (t := getHours now * 60 + getMinutes now).
  repeat split; intros H;
    repeat match goal with
    | |- context [?a <=? ?b] => destruct (Z.leb_spec a b)
    | |- context [?a <? ?b] => destruct (Z.ltb_spec a b)
    end; cbn; try reflexivity; lia.
Qed.

Lemma getAttendanceStatus_table_witness :
  getAttendanceStatus (Scenario.at_time 7 30) = present /\
  getAttendanceStatus (Scenario.at_time 9 0) = late /\
  getAttendanceStatus (Scenario.at_time 13 15) = present /\
  getAttendanceStatus (Scenario.at_time 17 30) = absent /\
  getAttendanceStatus (Scenario.at_time 16 0) = present.
Proof.
  refine (conj _ (conj _ (conj _ (conj _ _)))).
  - apply (proj1 (getAttendanceStatus_table (Scenario.at_time 7 30))). cbn; lia.
  - apply (proj1 (proj2 (getAttendanceStatus_table (Scenario.at_time 9 0)))). cbn; lia.
  - apply (proj1 (proj2 (proj2 (getAttendanceStatus_table (Scenario.at_time 13 15))))).
    cbn; lia.
  - apply (proj1 (proj2 (proj2 (proj2 (getAttendanceStatus_table (Scenario.at_time 17 30)))))).
    cbn; lia.
  - apply (proj2 (proj2 (proj2 (proj2 (getAttendanceStatus_table (Scenario.at_time 16 0)))))).
    cbn; lia.
Defined.

Lemma getAttendanceStatus_range now :
  getAttendanceStatus now = present \/ getAttendanceStatus now = late \/
  getAttendanceStatus now = absent.
Proof.
  unfold getAttendanceStatus; cbv zeta.
  repeat match goal with
  | |- context [if ?b then _ else _] => destruct b
  end; auto.
Qed.

(** *** The birthday check *)

Lemma digit_digitChar n : 0 <= n <= 9 -> digit (digitChar n) = Some n.
Proof.
  intros H. assert (Hk : (Z.to_nat n <= 9)%nat) by lia.
  rewrite <- (Z2Nat.id n) by lia. revert Hk. generalize (Z.to_nat n) as k. intros k Hk.
  do 10 (destruct k as [| k]; [reflexivity |]). lia.
Qed.

Lemma daysInMonth_bounds y m : 28 <= daysInMonth y m <= 31.
Proof.
  unfold daysInMonth.
  repeat match goal with
  | |- context [if ?b then _ else _] => destruct b
  end; lia.
Qed.

Lemma validYMD_bounds y m d :
  validYMD y m d = true ->
  0 <= y <= 9999 /\ 1 <= m <= 12 /\ 1 <= d <= daysInMonth y m.
Proof.
  unfold validYMD. rewrite !andb_true_iff, !Z.leb_le. tauto.
Qed.

(** The date-only text of a calendar day reads back as that day. *)
Lemma parseYMD_isoDateString y m d :
  validYMD y m d = true -> parseYMD (isoDateString y m d) = Some (y, m, d).
Proof.
  intros Hv. pose proof (validYMD_bounds _ _ _ Hv) as (Hy & Hm & Hd).
  pose proof (daysInMonth_bounds y m) as Hdim.
  unfold parseYMD, isoDateString. rewrite list_ascii_of_string_of_list_ascii.
  rewrite !digit_digitChar by (Z.to_euclidean_division_equations; lia).
  cbv zeta.
  replace (y / 1000 * 1000 + y / 100 mod 10 * 100 + y / 10 mod 10 * 10 + y mod 10)
    with y by (Z.to_euclidean_division_equations; lia).
  replace (m / 10 * 10 + m mod 10) with m by (Z.to_euclidean_division_equations; lia).
  replace (d / 10 * 10 + d mod 10) with d by (Z.to_euclidean_division_equations; lia).
  rewrite Hv. reflexivity.
Qed.

Lemma newDate_isoDateString tz y m d :
  0 <= tz -> validYMD y m d = true ->
  newDate tz (isoDateString y m d) = Some (mkDate y (m - 1) d (tz / 60) (tz mod 60)).
Proof.
  intros Htz Hv. unfold newDate, localOfUtcMidnight.
  rewrite (parseYMD_isoDateString _ _ _ Hv).
  apply Z.leb_le in Htz. rewrite Htz. reflexivity.
Qed.

Lemma checkIfBirthday_iff Date_new today birthday :
  checkIfBirthday Date_new today birthday = true <->
  exists s birthDate,
    birthday = Some s /\ s <> "" /\ Date_new s = Some birthDate /\
    getMonth today = getMonth birthDate /\ getDate today = getDate birthDate.
Proof.
  unfold checkIfBirthday, truthy. split.
  - destruct birthday as [s |]; [| discriminate].
    destruct (String.eqb_spec s "") as [| Hne]; cbn [negb]; [discriminate |].
    destruct (Date_new s) as [bd |] eqn:Hnew; [| discriminate].
    rewrite andb_true_iff, !Z.eqb_eq. intros [Hm Hd].
    exists s, bd. auto.
  - intros (s & bd & -> & Hne & Hnew & Hm & Hd).
    destruct (String.eqb_spec s ""); [contradiction |]. cbn [negb].
    rewrite Hnew, Hm, Hd, !Z.eqb_refl. reflexivity.
Qed.




(** The same in every zone behind UTC and at every time of the day: the
    check answers for the day before the one written. *)
Lemma checkIfBirthday_day_before tz today y m d :
  tz < 0 -> validYMD y m d = true ->
  checkIfBirthday (newDate tz) today (Some (isoDateString y m d)) = true <->
  let '(_, m', d') := previousDay y m d in
  getMonth today + 1 = m' /\ getDate today = d'.
Proof.
  intros Htz Hv. unfold checkIfBirthday, truthy.
  destruct (String.eqb_spec (isoDateString y m d) "") as [E | _]; [discriminate E |].
  cbn [negb]. unfold newDate, localOfUtcMidnight.
  rewrite (parseYMD_isoDateString _ _ _ Hv).
  destruct (Z.leb_spec 0 tz) as [Hge | _]; [lia |].
  destruct (previousDay y m d) as [[y' m'] d']. cbn [getMonth getDate fst snd].
  rewrite andb_true_iff, !Z.eqb_eq. lia.
Qed.

(** *** The effect monad *)

Lemma bind_Next {A B} (m : Eff A) (k : A -> Eff B) t a :
  m = (t, Next a) -> bind m k = ((t ++ (k a).1)%list, (k a).2).
Proof. intros ->. unfold bind. destruct (k a); reflexivity. Qed.

Lemma bind_emit {B} (e : Event) (k : unit -> Eff B) :
  bind (emit e) k = (e :: (k tt).1, (k tt).2).
Proof. unfold bind, emit. destruct (k tt); reflexivity. Qed.

(** An invariant of every event passes through [bind] and [try_catch]. *)
Lemma bind_Forall {A B} (P : Event -> Prop) (m : Eff A) (k : A -> Eff B) :
  Forall P m.1 -> (forall a, Forall P (k a).1) -> Forall P (bind m k).1.
Proof.
  intros Hm Hk. destruct m as [t [a | o | e]]; cbn in *; trivial.
  specialize (Hk a). destruct (k a) as [t' r]; cbn in *.
  apply Forall_app; split; assumption.
Qed.

Lemma try_catch_Forall {A} (P : Event -> Prop) (m : Eff A) (h : Error -> Eff A) :
  Forall P m.1 -> (forall e, Forall P (h e).1) -> Forall P (try_catch m h).1.
Proof.
  intros Hm Hh. destruct m as [t [a | o | e]]; cbn in *; trivial.
  specialize (Hh e). destruct (h e) as [t' r]; cbn in *.
  apply Forall_app; split; assumption.
Qed.

Lemma emit_Forall (P : Event -> Prop) (e : Event) : P e -> Forall P (emit e).1.
Proof. intros H. cbn. constructor; [exact H | constructor]. Qed.

Lemma tryCatch_Forall (P : Event -> Prop) (body : Eff AttendanceStatus) :
  Forall P body.1 -> (forall e, Forall P (catchBlock e)) -> Forall P (tryCatch body).1.
Proof.
  intros Hb Hc. destruct body as [t [a | o | e]]; cbn in *; trivial.
  apply Forall_app; split; [assumption | apply Hc].
Qed.

(** *** Sessions *)

Lemma isMorningHour_iff h : isMorningHour h = true <-> 6 <= h < 12.
Proof. unfold isMorningHour. rewrite andb_true_iff, Z.leb_le, Z.ltb_lt. tauto. Qed.

Lemma isAfternoonHour_iff h : isAfternoonHour h = true <-> 12 <= h < 16.
Proof. unfold isAfternoonHour. rewrite andb_true_iff, Z.leb_le, Z.ltb_lt. tauto. Qed.

Lemma sessions_disjoint h : isMorningHour h && isAfternoonHour h = false.
Proof.
  destruct (isMorningHour h) eqn:Hm, (isAfternoonHour h) eqn:Ha; trivial.
  apply isMorningHour_iff in Hm. apply isAfternoonHour_iff in Ha. lia.
Qed.

Lemma nonEmpty_iff {A} (xs : list A) : nonEmpty xs = true <-> xs <> [].
Proof.
  unfold nonEmpty. rewrite Z.ltb_lt. destruct xs; cbn [length]; split; intros H;
    try congruence; lia.
Qed.

Lemma nonEmpty_filter {A} (f : A -> bool) (xs : list A) :
  nonEmpty (List.filter f xs) = true <-> exists a, a ∈ xs /\ f a = true.
Proof.
  rewrite nonEmpty_iff. split.
  - intros H. destruct (List.filter f xs) as [| a l] eqn:E; [congruence |].
    exists a. assert (Hin : In a (List.filter f xs)) by (rewrite E; left; reflexivity).
    apply filter_In in Hin. destruct Hin as [Hin Hf].
    split; [apply list_elem_of_In; exact Hin | exact Hf].
  - intros [a [Hin Hf]] E. apply list_elem_of_In in Hin.
    assert (Hin' : In a (List.filter f xs)) by (apply filter_In; auto).
    rewrite E in Hin'. destruct Hin'.
Qed.

Lemma morningScans_nonEmpty rows :
  nonEmpty (morningScans rows) = true <->
  exists a, a ∈ rows /\ 6 <= getHours (scanned_at a) < 12.
Proof.
  unfold morningScans. rewrite nonEmpty_filter.
  split; intros [a [Hin H]]; exists a; (split; [exact Hin |]);
    cbv zeta in *; apply isMorningHour_iff; exact H.
Qed.

Lemma afternoonScans_nonEmpty rows :
  nonEmpty (afternoonScans rows) = true <->
  exists a, a ∈ rows /\ 12 <= getHours (scanned_at a) < 16.
Proof.
  unfold afternoonScans. rewrite nonEmpty_filter.
  split; intros [a [Hin H]]; exists a; (split; [exact Hin |]);
    cbv zeta in *; apply isAfternoonHour_iff; exact H.
Qed.

Lemma nonEmpty_of_filter {A} (f : A -> bool) (xs : list A) :
  nonEmpty (List.filter f xs) = true -> nonEmpty xs = true.
Proof.
  rewrite !nonEmpty_iff. intros H E. subst xs. apply H. reflexivity.
Qed.

(** The three ways the reconciliation ends. *)
Lemma reconcile_other_session b h rows :
  (isMorningHour h && nonEmpty (afternoonScans rows)) ||
  (isAfternoonHour h && nonEmpty (morningScans rows)) = true ->
  reconcile b h (Some rows) =
    (rejection AlreadyRecordedToday b, Return BothSessionsComplete).
Proof.
  intros H. unfold reconcile.
  assert (Hne : nonEmpty rows = true).
  { apply orb_true_iff in H. destruct H as [H | H];
      apply andb_true_iff in H; destruct H as [_ H];
      eapply nonEmpty_of_filter; exact H. }
  rewrite Hne. cbv zeta. rewrite H. reflexivity.
Qed.

Lemma reconcile_this_session b h rows :
  (isMorningHour h && nonEmpty (afternoonScans rows)) ||
  (isAfternoonHour h && nonEmpty (morningScans rows)) = false ->
  (isMorningHour h && nonEmpty (morningScans rows)) ||
  (isAfternoonHour h && nonEmpty (afternoonScans rows)) = true ->
  reconcile b h (Some rows) =
    (rejection AlreadyRecordedSession b, Return SessionAlreadyRecorded).
Proof.
  intros H1 H2. unfold reconcile.
  assert (Hne : nonEmpty rows = true).
  { apply orb_true_iff in H2. destruct H2 as [H | H];
      apply andb_true_iff in H; destruct H as [_ H];
      eapply nonEmpty_of_filter; exact H. }
  rewrite Hne. cbv zeta. rewrite H1, H2. reflexivity.
Qed.

Lemma reconcile_cases b h existing :
  reconcile b h existing = ([], Next tt) \/
  reconcile b h existing =
    (rejection AlreadyRecordedToday b, Return BothSessionsComplete) \/
  reconcile b h existing =
    (rejection AlreadyRecordedSession b, Return SessionAlreadyRecorded).
Proof.
  unfold reconcile. destruct existing as [rows |]; [| left; reflexivity].
  destruct (nonEmpty rows); [| left; reflexivity]. cbv zeta.
  destruct (_ || _); [right; left; reflexivity |].
  destruct (_ || _); [right; right; reflexivity | left; reflexivity].
Qed.

(** Outside the two session windows the reconciliation lets every scan
    through. *)
Lemma reconcile_outside_sessions b h existing :
  isMorningHour h = false -> isAfternoonHour h = false ->
  reconcile b h existing = ([], Next tt).
Proof.
  intros Hm Ha. unfold reconcile. destruct existing as [rows |]; trivial.
  destruct (nonEmpty rows); trivial. cbv zeta. rewrite Hm, Ha. reflexivity.
Qed.

(** *** The pass up to the reconciliation *)

Lemma scannedStudent_tryBlock w result sd p :
  scannedStudent w result = Some (sd, p) ->
  handleScan w result =
    tryCatch (bind (emit (SetScanning false)) (fun _ => processStudent w sd p)).
Proof.
  unfold scannedStudent, handleScan, tryBlock.
  destruct (isFalsy result || negb (scanning w)); [discriminate |].
  destruct (rawValueOf result) as [raw |]; [| discriminate].
  destruct (truthy (Some raw)); [| discriminate].
  destruct (JSON_parse w raw) as [sd' |]; [| discriminate].
  destruct (profiles_single w (sd_user_id sd')) as [p' |]; [| discriminate].
  intros [= <- <-]. reflexivity.
Qed.

Lemma handleScan_rejected w result sd p t o :
  scannedStudent w result = Some (sd, p) ->
  reconcile (checkIfBirthday (Date_new w) (clock_birthday w) (birthday p))
    (getHours (clock_now w)) (attendance_today w (sd_user_id sd)) = (t, Return o) ->
  handleScan w result =
    ((prelude (checkIfBirthday (Date_new w) (clock_birthday w) (birthday p)) ++ t)%list, o).
Proof.
  intros Hs Hr. rewrite (scannedStudent_tryBlock _ _ _ _ Hs).
  unfold processStudent. cbv zeta. rewrite Hr.
  destruct (checkIfBirthday _ _ _); reflexivity.
Qed.

Lemma no_record_without_student w result :
  scannedStudent w result = None ->
  submittedRows (handleScan w result).1 = [] /\ requests (handleScan w result).1 = [].
Proof.
  unfold scannedStudent, handleScan, tryBlock.
  destruct (isFalsy result || negb (scanning w)); [split; reflexivity |].
  destruct (rawValueOf result) as [raw |]; [| split; reflexivity].
  destruct (truthy (Some raw)); [| split; reflexivity].
  destruct (JSON_parse w raw) as [sd' |]; [| split; reflexivity].
  destruct (profiles_single w (sd_user_id sd')) as [p' |]; [discriminate |].
  split; reflexivity.
Qed.

(** *** Rejections *)

Lemma rejection_quiet b kind :
  submittedRows (prelude b ++ rejection kind b) = [] /\
  insertedRows (prelude b ++ rejection kind b) = [] /\
  requests (prelude b ++ rejection kind b) = [].
Proof. destruct b; repeat split; reflexivity. Qed.

Lemma rejected_other_session w result sd p rows :
  scannedStudent w result = Some (sd, p) ->
  attendance_today w (sd_user_id sd) = Some rows ->
  (isMorningHour (getHours (clock_now w)) && nonEmpty (afternoonScans rows)) ||
  (isAfternoonHour (getHours (clock_now w)) && nonEmpty (morningScans rows)) = true ->
  exists b, handleScan w result =
    ((prelude b ++ rejection AlreadyRecordedToday b)%list, BothSessionsComplete).
Proof.
  intros Hs Hrows Hc. eexists. eapply handleScan_rejected; [exact Hs |].
  rewrite Hrows. apply reconcile_other_session. exact Hc.
Qed.

Lemma rejected_this_session w result sd p rows :
  scannedStudent w result = Some (sd, p) ->
  attendance_today w (sd_user_id sd) = Some rows ->
  (isMorningHour (getHours (clock_now w)) && nonEmpty (afternoonScans rows)) ||
  (isAfternoonHour (getHours (clock_now w)) && nonEmpty (morningScans rows)) = false ->
  (isMorningHour (getHours (clock_now w)) && nonEmpty (morningScans rows)) ||
  (isAfternoonHour (getHours (clock_now w)) && nonEmpty (afternoonScans rows)) = true ->
  exists b, handleScan w result =
    ((prelude b ++ rejection AlreadyRecordedSession b)%list, SessionAlreadyRecorded).
Proof.
  intros Hs Hrows H1 H2. eexists. eapply handleScan_rejected; [exact Hs |].
  rewrite Hrows. apply reconcile_this_session; assumption.
Qed.

(** Within the session hours, a row of either session already recorded
    today ends the pass in one of the two rejections. *)
Lemma rejected_in_session_hours w result sd p rows :
  scannedStudent w result = Some (sd, p) ->
  attendance_today w (sd_user_id sd) = Some rows ->
  isMorningHour (getHours (clock_now w)) || isAfternoonHour (getHours (clock_now w)) = true ->
  nonEmpty (morningScans rows) || nonEmpty (afternoonScans rows) = true ->
  exists b kind o,
    handleScan w result = ((prelude b ++ rejection kind b)%list, o) /\
    (o = BothSessionsComplete \/ o = SessionAlreadyRecorded).
Proof.
  intros Hs Hrows Hh Hr.
  destruct ((isMorningHour (getHours (clock_now w)) && nonEmpty (afternoonScans rows)) ||
            (isAfternoonHour (getHours (clock_now w)) && nonEmpty (morningScans rows)))
    eqn:Hother.
  - destruct (rejected_other_session _ _ _ _ _ Hs Hrows Hother) as [b Hb].
    exists b, AlreadyRecordedToday, BothSessionsComplete. split; [exact Hb | left; reflexivity].
  - assert (Hthis :
      (isMorningHour (getHours (clock_now w)) && nonEmpty (morningScans rows)) ||
      (isAfternoonHour (getHours (clock_now w)) && nonEmpty (afternoonScans rows)) = true).
    { destruct (isMorningHour _), (isAfternoonHour _), (nonEmpty (morningScans rows)),
        (nonEmpty (afternoonScans rows)); cbn in *; congruence. }
    destruct (rejected_this_session _ _ _ _ _ Hs Hrows Hother Hthis) as [b Hb].
    exists b, AlreadyRecordedSession, SessionAlreadyRecorded.
    split; [exact Hb | right; reflexivity].
Qed.

(** C3: a scan in the morning hours [6, 12) of a student with a row of
    today in the afternoon hours [12, 16), or a scan in the afternoon hours
    of a student with a row in the morning hours, ends in the
    both-sessions rejection, and the pass hands no row to the insert. *)
Theorem other_session_scan_rejected w result sd p rows :
  scannedStudent w result = Some (sd, p) ->
  attendance_today w (sd_user_id sd) = Some rows ->
  (6 <= getHours (clock_now w) < 12 /\
     exists a, a ∈ rows /\ 12 <= getHours (scanned_at a) < 16) \/
  (12 <= getHours (clock_now w) < 16 /\
     exists a, a ∈ rows /\ 6 <= getHours (scanned_at a) < 12) ->
  (handleScan w result).2 = BothSessionsComplete /\
  submittedRows (handleScan w result).1 = [] /\
  insertedRows (handleScan w result).1 = [].
Proof.
  intros Hs Hrows H.
  destruct (rejected_other_session w result sd p rows Hs Hrows) as [b Hb].
  - apply orb_true_iff. destruct H as [[Hh Ha] | [Hh Ha]]; [left | right];
      apply andb_true_iff; split.
    + apply isMorningHour_iff; exact Hh.
    + apply afternoonScans_nonEmpty; exact Ha.
    + apply isAfternoonHour_iff; exact Hh.
    + apply morningScans_nonEmpty; exact Ha.
  - rewrite Hb. cbn [fst snd]. destruct (rejection_quiet b AlreadyRecordedToday) as (? & ? & ?).
    auto.
Qed.

Lemma other_session_scan_rejected_witness :
  (handleScan (Scenario.world 9 0 [Scenario.afternoon_row] Scenario.all_resolve)
     Scenario.qr).2 = BothSessionsComplete /\
  submittedRows (handleScan (Scenario.world 9 0 [Scenario.afternoon_row]
     Scenario.all_resolve) Scenario.qr).1 = [] /\
  insertedRows (handleScan (Scenario.world 9 0 [Scenario.afternoon_row]
     Scenario.all_resolve) Scenario.qr).1 = [].
Proof.
  apply (other_session_scan_rejected _ _ Scenario.ana Scenario.ana_profile
           [Scenario.afternoon_row]).
  - reflexivity.
  - reflexivity.
  - left. split; [cbn; lia |]. exists Scenario.afternoon_row.
    split; [apply list_elem_of_here | cbn; lia].
Defined.

(** C4: a student with a row of today in the session of the scan (scan
    hour and row hour both in [6, 12), or both in [12, 16)) is rejected
    whatever the clock reads for the base status; the pass hands no row to
    the insert and sends no request to the e-mail, push or SMS function.
    Without a row in the other session the rejection is the
    session-already-recorded one. *)
Theorem same_session_rescan_rejected w result sd p rows :
  scannedStudent w result = Some (sd, p) ->
  attendance_today w (sd_user_id sd) = Some rows ->
  (6 <= getHours (clock_now w) < 12 /\
     exists a, a ∈ rows /\ 6 <= getHours (scanned_at a) < 12) \/
  (12 <= getHours (clock_now w) < 16 /\
     exists a, a ∈ rows /\ 12 <= getHours (scanned_at a) < 16) ->
  ((handleScan w result).2 = SessionAlreadyRecorded \/
   (handleScan w result).2 = BothSessionsComplete) /\
  (morningScans rows = [] \/ afternoonScans rows = [] ->
   (handleScan w result).2 = SessionAlreadyRecorded) /\
  submittedRows (handleScan w result).1 = [] /\
  insertedRows (handleScan w result).1 = [] /\
  requests (handleScan w result).1 = [].
Proof.
  intros Hs Hrows H.
  assert (Hthis :
    (isMorningHour (getHours (clock_now w)) && nonEmpty (morningScans rows)) ||
    (isAfternoonHour (getHours (clock_now w)) && nonEmpty (afternoonScans rows)) = true).
  { apply orb_true_iff. destruct H as [[Hh Ha] | [Hh Ha]]; [left | right];
      apply andb_true_iff; split.
    - apply isMorningHour_iff; exact Hh.
    - apply morningScans_nonEmpty; exact Ha.
    - apply isAfternoonHour_iff; exact Hh.
    - apply afternoonScans_nonEmpty; exact Ha. }
  destruct ((isMorningHour (getHours (clock_now w)) && nonEmpty (afternoonScans rows)) ||
            (isAfternoonHour (getHours (clock_now w)) && nonEmpty (morningScans rows)))
    eqn:Hother.
  - destruct (rejected_other_session _ _ _ _ _ Hs Hrows Hother) as [b Hb].
    rewrite Hb. cbn [fst snd].
    destruct (rejection_quiet b AlreadyRecordedToday) as (? & ? & ?).
    repeat split; auto.
    intros Hnone. exfalso.
    assert (Hm : nonEmpty (morningScans rows) = true /\ nonEmpty (afternoonScans rows) = true).
    { pose proof (sessions_disjoint (getHours (clock_now w))) as Hd.
      destruct (isMorningHour _), (isAfternoonHour _), (nonEmpty (morningScans rows)),
        (nonEmpty (afternoonScans rows)); cbn in *; split; congruence. }
    destruct Hm as [Hm Ha]. apply nonEmpty_iff in Hm. apply nonEmpty_iff in Ha.
    destruct Hnone; contradiction.
  - destruct (rejected_this_session _ _ _ _ _ Hs Hrows Hother Hthis) as [b Hb].
    rewrite Hb. cbn [fst snd].
    destruct (rejection_quiet b AlreadyRecordedSession) as (? & ? & ?).
    repeat split; auto.
Qed.

Lemma same_session_rescan_rejected_witness :
  let pass := handleScan (Scenario.world 9 0 [Scenario.morning_row] Scenario.all_resolve)
                Scenario.qr in
  (pass.2 = SessionAlreadyRecorded \/ pass.2 = BothSessionsComplete) /\
  (morningScans [Scenario.morning_row] = [] \/ afternoonScans [Scenario.morning_row] = [] ->
   pass.2 = SessionAlreadyRecorded) /\
  submittedRows pass.1 = [] /\ insertedRows pass.1 = [] /\ requests pass.1 = [].
Proof.
  apply (same_session_rescan_rejected _ _ Scenario.ana Scenario.ana_profile
           [Scenario.morning_row]).
  - reflexivity.
  - reflexivity.
  - left. split; [cbn; lia |]. exists Scenario.morning_row.
    split; [apply list_elem_of_here | cbn; lia].
Defined.

(** *** Invariants of the events of a pass *)

Ltac trace_step :=
  lazymatch goal with
  | |- Forall _ (bind _ _).1 => apply bind_Forall; [| intros ?]
  | |- Forall _ (try_catch _ _).1 => apply try_catch_Forall; [| intros ?]
  | |- Forall _ (tryCatch _).1 => apply tryCatch_Forall; [| intros ?]
  | |- Forall _ (emit _).1 => apply emit_Forall
  | |- Forall _ (ret _).1 => constructor
  | |- Forall _ (throw _).1 => constructor
  | |- Forall _ (early_return _).1 => constructor
  | |- Forall _ (when ?b _).1 => destruct b; cbn [when]
  | |- Forall _ (if ?b then _ else _).1 => destruct b
  | |- Forall _ (match ?x with _ => _ end).1 => destruct x
  | |- Forall _ (_, _).1 => cbn [fst]
  | |- Forall _ [] => constructor
  end.

(** Every row a pass hands to the insert carries the base status read
    from the clock. *)
Lemma handleScan_carriesStatus w result :
  Forall (carriesStatus (getAttendanceStatus (clock_status w))) (handleScan w result).1.
Proof.
  unfold handleScan, tryBlock, processStudent, recordAttendance, attendanceRow, notify,
    sendEmail, sendPush, sendSms, invoke, reconcile, catchBlock.
  cbv zeta. repeat trace_step; try exact I; try reflexivity;
    repeat (constructor; try exact I).
Qed.

Lemma submittedRows_Forall (Q : NewAttendance -> Prop) (t : list Event) :
  Forall (fun e => match e with
                   | Inserted row | InsertRefused row => Q row
                   | _ => True
                   end) t ->
  Forall Q (submittedRows t).
Proof.
  induction 1 as [| e t He Ht IH]; [constructor |].
  unfold submittedRows in *. destruct e; cbn; try exact IH; constructor; assumption.
Qed.

(** *** The notification calls *)

Lemma invoke_requests w ch req : requests (invoke w ch req).1 = [req].
Proof. unfold invoke. rewrite bind_emit. cbn. destruct (functions_invoke w req); reflexivity. Qed.

(** The push and SMS blocks contain what their call throws. *)
Lemma sendPush_contained w sd st : (sendPush w sd st).2 = Next tt.
Proof.
  unfold sendPush, when, invoke. destruct (isAlertStatus st); [| reflexivity].
  rewrite bind_emit. destruct (functions_invoke w _); reflexivity.
Qed.

Lemma sendSms_contained w sd p st : (sendSms w sd p st).2 = Next tt.
Proof.
  unfold sendSms, invoke. destruct (parent_number p); [| reflexivity].
  destruct (truthy _); [| reflexivity].
  rewrite bind_emit. destruct (functions_invoke w _); reflexivity.
Qed.

Lemma sendPush_requests w sd st :
  requests (sendPush w sd st).1 =
    if isAlertStatus st then [SendNotification (sd_user_id sd) (notificationTitle st) st]
    else [].
Proof.
  unfold sendPush, when, invoke. destruct (isAlertStatus st); [| reflexivity].
  rewrite bind_emit. destruct (functions_invoke w _); reflexivity.
Qed.

Lemma sendSms_requests w sd p st :
  requests (sendSms w sd p st).1 =
    match parent_number p with
    | Some phone =>
        if truthy (parent_number p) then [SendSms phone (smsMessage st) (sd_user_id sd)]
        else []
    | None => []
    end.
Proof.
  unfold sendSms, invoke. destruct (parent_number p); [| reflexivity].
  destruct (truthy _); [| reflexivity].
  rewrite bind_emit. destruct (functions_invoke w _); reflexivity.
Qed.

Lemma sendEmail_requests w sd p st :
  requests (sendEmail w sd p st).1 =
    match email p with
    | Some to_email =>
        if truthy (email p)
        then [SendEmail to_email (or_else (parent_guardian_name p) "Parent/Guardian")
                (sd_name sd) st]
        else []
    | None => []
    end.
Proof.
  unfold sendEmail. destruct (email p); [| reflexivity].
  destruct (truthy _); [| reflexivity]. apply invoke_requests.
Qed.

Lemma sendEmail_flow w sd p st :
  (sendEmail w sd p st).2 = Next tt \/
  exists req, isEmail req = true /\ (sendEmail w sd p st).2 = Throw (InvokeThrew req).
Proof.
  unfold sendEmail, invoke. destruct (email p) as [s |]; [| left; reflexivity].
  destruct (truthy _); [| left; reflexivity].
  rewrite bind_emit. destruct (functions_invoke w _); cbn;
    [left; reflexivity | left; reflexivity |
     right; exists (SendEmail s (or_else (parent_guardian_name p) "Parent/Guardian")
                     (sd_name sd) st); split; reflexivity].
Qed.

Lemma emailThrows_false w sd p st :
  emailThrows w sd p st = false -> (sendEmail w sd p st).2 = Next tt.
Proof.
  unfold emailThrows. destruct (sendEmail_flow w sd p st) as [H | [req [_ H]]];
    destruct (sendEmail w sd p st) as [t r]; cbn in *; subst; [reflexivity | discriminate].
Qed.

Lemma emailThrows_true w sd p st :
  emailThrows w sd p st = true -> exists e, (sendEmail w sd p st).2 = Throw e.
Proof.
  unfold emailThrows. destruct (sendEmail w sd p st) as [t [[] | o | e]]; cbn;
    try discriminate. intros _. exists e. reflexivity.
Qed.

Lemma requests_app t1 t2 : requests (t1 ++ t2) = (requests t1 ++ requests t2)%list.
Proof. unfold requests. apply omap_app. Qed.

Lemma insertedRows_app t1 t2 :
  insertedRows (t1 ++ t2) = (insertedRows t1 ++ insertedRows t2)%list.
Proof. unfold insertedRows. apply omap_app. Qed.

(** When the e-mail call does not throw, the three blocks run in turn and
    the notification phase ends normally. *)
Lemma notify_when_email_returns w sd p st :
  emailThrows w sd p st = false ->
  (notify w sd p st).2 = Next tt /\
  requests (notify w sd p st).1 =
    (requests (sendEmail w sd p st).1 ++ requests (sendPush w sd st).1 ++
     requests (sendSms w sd p st).1)%list.
Proof.
  intros He. apply emailThrows_false in He. unfold notify.
  destruct (sendEmail w sd p st) as [te re] eqn:Ee. cbn in He. subst re.
  rewrite (bind_Next _ _ te tt eq_refl).
  pose proof (sendPush_contained w sd st) as Hp.
  destruct (sendPush w sd st) as [tp rp] eqn:Ep. cbn in Hp. subst rp.
  rewrite (bind_Next _ _ tp tt eq_refl).
  cbn [fst snd]. rewrite !requests_app. split; [apply sendSms_contained | reflexivity].
Qed.

(** When the e-mail call throws, the phase stops there: the push and SMS
    blocks do not run. *)
Lemma notify_when_email_throws w sd p st :
  emailThrows w sd p st = true ->
  notify w sd p st = sendEmail w sd p st /\
  dispatched isPush (notify w sd p st).1 = false /\
  dispatched isSms (notify w sd p st).1 = false.
Proof.
  intros He. destruct (emailThrows_true _ _ _ _ He) as [e Hthrow].
  assert (Hn : notify w sd p st = sendEmail w sd p st).
  { unfold notify. destruct (sendEmail w sd p st) as [te re]. cbn in Hthrow. subst re.
    reflexivity. }
  rewrite Hn. split; [reflexivity |]. unfold dispatched. rewrite sendEmail_requests.
  destruct (email p); [destruct (truthy _) |]; split; reflexivity.
Qed.

Lemma omap_none {A B} (f : A -> option B) (t : list A) :
  Forall (fun e => f e = None) t -> omap f t = [].
Proof. induction 1 as [| e t He Ht IH]; cbn; [reflexivity |]. rewrite He. exact IH. Qed.

(** The notification phase hands no row to the insert. *)
Lemma notify_no_insert w sd p st :
  submittedRows (notify w sd p st).1 = [] /\ insertedRows (notify w sd p st).1 = [].
Proof.
  split; apply omap_none;
    unfold notify, sendEmail, sendPush, sendSms, invoke;
    repeat trace_step; reflexivity.
Qed.

(** *** Recorded passes *)

Lemma outcome_without_student w result :
  scannedStudent w result = None ->
  (handleScan w result).2 = Ignored \/ exists e, (handleScan w result).2 = ScanFailed e.
Proof.
  unfold scannedStudent, handleScan, tryBlock.
  destruct (isFalsy result || negb (scanning w)); [left; reflexivity |].
  destruct (rawValueOf result) as [raw |]; [| right; eexists; reflexivity].
  destruct (truthy (Some raw)); [| right; eexists; reflexivity].
  destruct (JSON_parse w raw) as [sd' |]; [| right; eexists; reflexivity].
  destruct (profiles_single w (sd_user_id sd')) as [p' |]; [discriminate |].
  right; eexists; reflexivity.
Qed.

(** A pass that ends recorded got to a student, passed the reconciliation,
    had its insert accepted and ran the whole notification phase. *)
Lemma handleScan_Recorded w result st :
  (handleScan w result).2 = Recorded st ->
  exists sd p,
    scannedStudent w result = Some (sd, p) /\
    st = getAttendanceStatus (clock_status w) /\
    emailThrows w sd p st = false /\
    attendance_insert w (attendanceRow w sd p st) = true /\
    insertedRows (handleScan w result).1 = [attendanceRow w sd p st] /\
    requests (handleScan w result).1 = requests (notify w sd p st).1.
Proof.
  intros Hrec. destruct (scannedStudent w result) as [[sd p] |] eqn:Hs.
  2:{ destruct (outcome_without_student _ _ Hs) as [H | [e H]]; congruence. }
  exists sd, p. rewrite (scannedStudent_tryBlock _ _ _ _ Hs) in *.
  unfold processStudent, recordAttendance in *. cbv zeta in *.
  set (s0 := getAttendanceStatus (clock_status w)) in *.
  set (b := checkIfBirthday _ _ _) in *.
  destruct (reconcile_cases b (getHours (clock_now w)) (attendance_today w (sd_user_id sd)))
    as [Hr | [Hr | Hr]]; rewrite Hr in *.
  2,3: destruct b; cbn in Hrec; discriminate.
  destruct (attendance_insert w (attendanceRow w sd p s0)) eqn:Hins.
  2:{ destruct b; cbn in Hrec; discriminate. }
  destruct (emailThrows w sd p s0) eqn:He.
  - destruct (notify_when_email_throws _ _ _ _ He) as [Hn _].
    destruct (emailThrows_true _ _ _ _ He) as [e Hthrow]. rewrite Hn in *.
    destruct (sendEmail w sd p s0) as [te re]. cbn in Hthrow. subst re.
    destruct b; cbn in Hrec; discriminate.
  - destruct (notify_when_email_returns _ _ _ _ He) as [Hflow _].
    destruct (notify w sd p s0) as [tn rn] eqn:En. cbn in Hflow. subst rn.
    assert (Hst : st = s0) by (destruct b; cbn in Hrec; congruence).
    subst st. rewrite En.
    pose proof (notify_no_insert w sd p s0) as [_ Hni]. rewrite En in Hni. cbn [fst] in Hni.
    repeat split; trivial; destruct b; cbn; rewrite ?insertedRows_app, ?requests_app, ?Hni;
      cbn; rewrite ?app_nil_r; reflexivity.
Qed.

(** *** The session rules at 13:00 and after the session hours *)

(** C2, as written, fails: at 13:00, with the 07:30 row as the only row of
    today, the pass ends in the both-sessions rejection and adds no row,
    where the claim has it recorded as present. *)
Lemma afternoon_scan_after_morning_not_recorded :
  length (morningScans [Scenario.morning_row]) = 1%nat /\
  afternoonScans [Scenario.morning_row] = [] /\
  (handleScan (Scenario.world 13 0 [Scenario.morning_row] Scenario.all_resolve)
     Scenario.qr).2 = BothSessionsComplete /\
  (handleScan (Scenario.world 13 0 [Scenario.morning_row] Scenario.all_resolve)
     Scenario.qr).2 <> Recorded present /\
  insertedRows (handleScan (Scenario.world 13 0 [Scenario.morning_row]
     Scenario.all_resolve) Scenario.qr).1 = [].
Proof. repeat split; try reflexivity. discriminate. Qed.

(** C2, amended: a scan at 13:00 of a student with exactly one row of
    today in the morning hours [6, 12) and none in the afternoon hours is
    rejected as both sessions complete, and no row is handed to the
    insert. *)
Theorem afternoon_scan_after_morning_rejected w result sd p rows :
  scannedStudent w result = Some (sd, p) ->
  attendance_today w (sd_user_id sd) = Some rows ->
  getHours (clock_now w) = 13 ->
  getMinutes (clock_now w) = 0 ->
  length (morningScans rows) = 1%nat ->
  afternoonScans rows = [] ->
  (handleScan w result).2 = BothSessionsComplete /\
  submittedRows (handleScan w result).1 = [] /\
  insertedRows (handleScan w result).1 = [].
Proof.
  intros Hs Hrows Hh _ Hm _.
  destruct (rejected_other_session w result sd p rows Hs Hrows) as [b Hb].
  - rewrite Hh. apply orb_true_iff. right. cbn [isAfternoonHour andb]. 
    apply andb_true_iff. split; [reflexivity |].
    apply nonEmpty_iff. intros E. rewrite E in Hm. discriminate.
  - rewrite Hb. cbn [fst snd].
    destruct (rejection_quiet b AlreadyRecordedToday) as (? & ? & ?). auto.
Qed.

Lemma afternoon_scan_after_morning_rejected_witness :
  (handleScan (Scenario.world 13 0 [Scenario.morning_row] Scenario.email_rejects)
     Scenario.qr).2 = BothSessionsComplete /\
  submittedRows (handleScan (Scenario.world 13 0 [Scenario.morning_row]
     Scenario.email_rejects) Scenario.qr).1 = [] /\
  insertedRows (handleScan (Scenario.world 13 0 [Scenario.morning_row]
     Scenario.email_rejects) Scenario.qr).1 = [].
Proof.
  apply (afternoon_scan_after_morning_rejected _ _ Scenario.ana Scenario.ana_profile
           [Scenario.morning_row]); reflexivity.
Defined.

(** C6, as written, fails: at 17:30, outside both session windows, a
    student with a morning row and an afternoon row of today is let
    through and a third row is added. *)
Lemma third_row_after_session_hours :
  morningScans [Scenario.morning_row; Scenario.afternoon_row] = [Scenario.morning_row] /\
  afternoonScans [Scenario.morning_row; Scenario.afternoon_row] = [Scenario.afternoon_row] /\
  (handleScan (Scenario.world 17 30 [Scenario.morning_row; Scenario.afternoon_row]
     Scenario.all_resolve) Scenario.qr).2 = Recorded absent /\
  insertedRows (handleScan (Scenario.world 17 30
     [Scenario.morning_row; Scenario.afternoon_row] Scenario.all_resolve)
     Scenario.qr).1 = [Scenario.row_of absent].
Proof. repeat split; reflexivity. Qed.

(** C6, amended: for every scan whose hour lies in a session window
    ([6, 16)), whatever rows the student has today, a row of today in
    either session is detected and the scan rejected before any insert;
    with a morning row and an afternoon row the rejection is the
    both-sessions one. *)
Theorem session_hours_rescan_rejected w result sd p rows :
  scannedStudent w result = Some (sd, p) ->
  attendance_today w (sd_user_id sd) = Some rows ->
  6 <= getHours (clock_now w) < 16 ->
  (exists a, a ∈ rows /\ 6 <= getHours (scanned_at a) < 16) ->
  ((handleScan w result).2 = BothSessionsComplete \/
   (handleScan w result).2 = SessionAlreadyRecorded) /\
  (morningScans rows <> [] /\ afternoonScans rows <> [] ->
   (handleScan w result).2 = BothSessionsComplete) /\
  submittedRows (handleScan w result).1 = [] /\
  insertedRows (handleScan w result).1 = [].
Proof.
  intros Hs Hrows Hh [a [Hin Ha]].
  assert (Hhour : isMorningHour (getHours (clock_now w)) ||
                  isAfternoonHour (getHours (clock_now w)) = true).
  { apply orb_true_iff. destruct (Z.lt_ge_cases (getHours (clock_now w)) 12);
      [left; apply isMorningHour_iff | right; apply isAfternoonHour_iff]; lia. }
  assert (Hany : nonEmpty (morningScans rows) || nonEmpty (afternoonScans rows) = true).
  { apply orb_true_iff. destruct (Z.lt_ge_cases (getHours (scanned_at a)) 12);
      [left; apply morningScans_nonEmpty | right; apply afternoonScans_nonEmpty];
      exists a; (split; [exact Hin | lia]). }
  destruct (rejected_in_session_hours _ _ _ _ _ Hs Hrows Hhour Hany)
    as (b & kind & o & Hpass & Ho).
  split; [| split].
  - rewrite Hpass. cbn [snd]. exact Ho.
  - intros [Hm Hn]. apply nonEmpty_iff in Hm. apply nonEmpty_iff in Hn.
    destruct (rejected_other_session w result sd p rows Hs Hrows) as [b' Hb'].
    + rewrite Hm, Hn, !andb_true_r. exact Hhour.
    + rewrite Hb'. reflexivity.
  - rewrite Hpass. cbn [fst]. destruct (rejection_quiet b kind) as (? & ? & ?). auto.
Qed.

Lemma session_hours_rescan_rejected_witness :
  let pass := handleScan (Scenario.world 15 59 [Scenario.morning_row; Scenario.afternoon_row]
                Scenario.all_resolve) Scenario.qr in
  (pass.2 = BothSessionsComplete \/ pass.2 = SessionAlreadyRecorded) /\
  (morningScans [Scenario.morning_row; Scenario.afternoon_row] <> [] /\
   afternoonScans [Scenario.morning_row; Scenario.afternoon_row] <> [] ->
   pass.2 = BothSessionsComplete) /\
  submittedRows pass.1 = [] /\ insertedRows pass.1 = [].
Proof.
  apply (session_hours_rescan_rejected _ _ Scenario.ana Scenario.ana_profile
           [Scenario.morning_row; Scenario.afternoon_row]).
  - reflexivity.
  - reflexivity.
  - cbn; lia.
  - exists Scenario.morning_row. split; [apply list_elem_of_here | cbn; lia].
Defined.

(** C5 (the handler at the failing input): when the e-mail invocation
    throws at 09:00, the row is already inserted, the error reaches the
    [catch] block of the handler, which reports a failed scan, and neither
    the push nor the SMS request is sent; a throwing push or SMS
    invocation is contained and the pass ends recorded. *)
Theorem email_throw_skips_push_and_sms :
  let pass := handleScan (Scenario.world 9 0 [] Scenario.email_rejects) Scenario.qr in
  let mail := SendEmail "parent@example.org" "Parent/Guardian" "Ana" late in
  insertedRows pass.1 = [Scenario.row_of late] /\
  requests pass.1 = [mail] /\
  dispatched isPush pass.1 = false /\
  dispatched isSms pass.1 = false /\
  pass.2 = ScanFailed (InvokeThrew mail) /\
  Toast (ScanFailedToast (InvokeThrew mail)) false ∈ pass.1 /\
  (handleScan (Scenario.world 9 0 [] Scenario.push_rejects) Scenario.qr).2 = Recorded late /\
  dispatched isSms
    (handleScan (Scenario.world 9 0 [] Scenario.push_rejects) Scenario.qr).1 = true /\
  (handleScan (Scenario.world 9 0 [] Scenario.sms_rejects) Scenario.qr).2 = Recorded late.
Proof.
  cbv zeta. repeat split; try reflexivity.
  apply list_elem_of_In. vm_compute. tauto.
Qed.

(** Whatever the world, a throwing e-mail invocation ends an accepted pass
    as a failed scan, with the row inserted and no push or SMS request. *)
Lemma email_throw_fails_the_pass w result sd p :
  scannedStudent w result = Some (sd, p) ->
  reconcile (checkIfBirthday (Date_new w) (clock_birthday w) (birthday p))
    (getHours (clock_now w)) (attendance_today w (sd_user_id sd)) = ([], Next tt) ->
  attendance_insert w (attendanceRow w sd p (getAttendanceStatus (clock_status w))) = true ->
  emailThrows w sd p (getAttendanceStatus (clock_status w)) = true ->
  (exists e, (handleScan w result).2 = ScanFailed e) /\
  insertedRows (handleScan w result).1 =
    [attendanceRow w sd p (getAttendanceStatus (clock_status w))] /\
  dispatched isPush (handleScan w result).1 = false /\
  dispatched isSms (handleScan w result).1 = false.
Proof.
  intros Hs Hr Hins He. rewrite (scannedStudent_tryBlock _ _ _ _ Hs).
  unfold processStudent, recordAttendance. cbv zeta.
  set (s0 := getAttendanceStatus (clock_status w)) in *.
  set (b := checkIfBirthday _ _ _) in *. rewrite Hr, Hins.
  destruct (notify_when_email_throws _ _ _ _ He) as (Hn & Hp & Hsms).
  destruct (emailThrows_true _ _ _ _ He) as [e Hthrow].
  pose proof (notify_no_insert w sd p s0) as [_ Hni].
  unfold dispatched in *.
  destruct (notify w sd p s0) as [tn rn] eqn:En. rewrite <- Hn in Hthrow.
  cbn [fst snd] in *. subst rn.
  destruct b; cbn; rewrite ?insertedRows_app, ?requests_app, ?Hni, ?existsb_app, ?Hp, ?Hsms;
    cbn; (split; [eexists; reflexivity | repeat split; reflexivity]).
Qed.

Lemma isAlertStatus_iff st :
  isAlertStatus st = true <-> st = late \/ st = absent \/ st = half_day.
Proof.
  destruct st; cbn; split; intros H; auto; try discriminate;
    destruct H as [H | [H | H]]; discriminate.
Qed.

(** What the notification phase sends when it runs to its end. *)
Lemma notify_fan_out w sd p st :
  emailThrows w sd p st = false ->
  dispatched isPush (notify w sd p st).1 = isAlertStatus st /\
  dispatched isEmail (notify w sd p st).1 = truthy (email p) /\
  dispatched isSms (notify w sd p st).1 = truthy (parent_number p).
Proof.
  intros He. destruct (notify_when_email_returns _ _ _ _ He) as [_ Hreq].
  unfold dispatched. rewrite Hreq, sendEmail_requests, sendPush_requests, sendSms_requests.
  destruct (email p) as [to |]; [destruct (truthy (Some to)) |];
    (destruct (parent_number p) as [ph |]; [destruct (truthy (Some ph)) |]);
    destruct (isAlertStatus st); repeat split; reflexivity.
Qed.

(** The rule of the push block when the e-mail call returns: the push
    request is sent exactly for the statuses late, absent and half_day;
    for present no push is sent, while the e-mail goes out when the
    profile has an address and the SMS when it has a parent number,
    whatever the status.  The first part is the notification phase on any
    final status, the e-mail call not throwing; the second is a whole pass
    that ends recorded. *)
Lemma push_iff_alert_status w sd p st :
  (emailThrows w sd p st = false ->
   (dispatched isPush (notify w sd p st).1 = true <->
      st = late \/ st = absent \/ st = half_day) /\
   (st = present -> dispatched isPush (notify w sd p st).1 = false) /\
   (truthy (email p) = true -> dispatched isEmail (notify w sd p st).1 = true) /\
   (truthy (parent_number p) = true -> dispatched isSms (notify w sd p st).1 = true)) /\
  (forall result,
     scannedStudent w result = Some (sd, p) ->
     (handleScan w result).2 = Recorded st ->
     (dispatched isPush (handleScan w result).1 = true <->
        st = late \/ st = absent \/ st = half_day) /\
     (st = present -> dispatched isPush (handleScan w result).1 = false) /\
     (truthy (email p) = true -> dispatched isEmail (handleScan w result).1 = true) /\
     (truthy (parent_number p) = true -> dispatched isSms (handleScan w result).1 = true)).
Proof.
  assert (Hblock : emailThrows w sd p st = false ->
    forall t, requests t = requests (notify w sd p st).1 ->
    (dispatched isPush t = true <-> st = late \/ st = absent \/ st = half_day) /\
    (st = present -> dispatched isPush t = false) /\
    (truthy (email p) = true -> dispatched isEmail t = true) /\
    (truthy (parent_number p) = true -> dispatched isSms t = true)).
  { intros He t Ht. destruct (notify_fan_out _ _ _ _ He) as (Hp & Hm & Hs).
    unfold dispatched in *. rewrite Ht, Hp, Hm, Hs.
    split; [apply isAlertStatus_iff |]. split; [intros ->; reflexivity |]. auto. }
  split.
  - intros He. apply (Hblock He). reflexivity.
  - intros result Hs Hrec.
    destruct (handleScan_Recorded _ _ _ Hrec) as (sd' & p' & Hs' & _ & He & _ & _ & Hreq).
    rewrite Hs in Hs'. injection Hs' as <- <-.
    apply (Hblock He). exact Hreq.
Qed.

Lemma push_iff_alert_status_witness :
  let pass := handleScan (Scenario.world 7 30 [] Scenario.all_resolve) Scenario.qr in
  dispatched isPush pass.1 = false /\
  dispatched isEmail pass.1 = true /\
  dispatched isSms pass.1 = true.
Proof.
  pose proof (proj2 (push_iff_alert_status (Scenario.world 7 30 [] Scenario.all_resolve)
                       Scenario.ana Scenario.ana_profile present)
                Scenario.qr eq_refl eq_refl) as (_ & Hpush & Hmail & Hsms).
  exact (conj (Hpush eq_refl) (conj (Hmail eq_refl) (Hsms eq_refl))).
Defined.

(** C7 (the handler at the failing inputs): with a throwing e-mail
    invocation the rule of the push block is not reached.  At 09:00 the
    row is inserted with the status late and no push request is sent,
    although the same scan sends one when the e-mail call returns; at
    07:30 the row is inserted with the status present and, although the
    profile has a parent number, no SMS request is sent, while the same
    scan sends one when the e-mail call returns. *)
Theorem email_throw_breaks_push_rule :
  let late_pass := handleScan (Scenario.world 9 0 [] Scenario.email_rejects) Scenario.qr in
  let present_pass :=
    handleScan (Scenario.world 7 30 [] Scenario.email_rejects) Scenario.qr in
  (insertedRows late_pass.1 = [Scenario.row_of late] /\
   dispatched isPush late_pass.1 = false /\
   dispatched isPush
     (handleScan (Scenario.world 9 0 [] Scenario.all_resolve) Scenario.qr).1 = true) /\
  (insertedRows present_pass.1 = [Scenario.row_of present] /\
   truthy (email Scenario.ana_profile) = true /\
   truthy (parent_number Scenario.ana_profile) = true /\
   dispatched isEmail present_pass.1 = true /\
   dispatched isPush present_pass.1 = false /\
   dispatched isSms present_pass.1 = false /\
   dispatched isSms
     (handleScan (Scenario.world 7 30 [] Scenario.all_resolve) Scenario.qr).1 = true).
Proof.
  cbv zeta. split; [split_and! | split_and!]; vm_compute; reflexivity.
Qed.

(** C8: no input produces half_day: the base status is present, late or
    absent at every clock reading, and so is the status of every row a
    pass hands to the insert and of every recorded outcome. *)
Theorem half_day_never_produced :
  (forall now,
     (getAttendanceStatus now = present \/ getAttendanceStatus now = late \/
      getAttendanceStatus now = absent) /\
     getAttendanceStatus now <> half_day) /\
  (forall w result,
     Forall (fun row => (new_status row = present \/ new_status row = late \/
                         new_status row = absent) /\ new_status row <> half_day)
       (submittedRows (handleScan w result).1) /\
     match (handleScan w result).2 with
     | Recorded st => (st = present \/ st = late \/ st = absent) /\ st <> half_day
     | _ => True
     end).
Proof.
  assert (Hrange : forall now,
    (getAttendanceStatus now = present \/ getAttendanceStatus now = late \/
     getAttendanceStatus now = absent) /\ getAttendanceStatus now <> half_day).
  { intros now. pose proof (getAttendanceStatus_range now) as H.
    split; [exact H |]. destruct H as [H | [H | H]]; rewrite H; discriminate. }
  split; [exact Hrange |]. intros w result. split.
  - apply submittedRows_Forall.
    eapply Forall_impl; [apply handleScan_carriesStatus |].
    intros e He. destruct e; trivial; cbn in He; rewrite He; apply Hrange.
  - destruct (handleScan w result).2 as [| | | st |] eqn:Ho; trivial.
    destruct (handleScan_Recorded _ _ _ Ho) as (_ & _ & _ & -> & _). apply Hrange.
Qed.

End ScannerFacts.

Module RatingsFacts.

Import Ratings.

Section KeyLoops.

(** A loop over distinct keys whose callback rewrites the entry of its own
    key by [u] and leaves the others alone. *)
Variable step : gmap string Stat -> string -> option (gmap string Stat).
Variable u : string -> Stat -> Stat.

Hypothesis step_entry : forall stats key st,
  stats !! key = Some st ->
  exists stats', step stats key = Some stats' /\
    stats' !! key = Some (u key st) /\
    forall k, k <> key -> stats' !! k = stats !! k.

Lemma forEach_keys keys :
  NoDup keys ->
  forall stats, (forall k, k ∈ keys -> is_Some (stats !! k)) ->
  exists stats', forEach step keys stats = Some stats' /\
    forall k, stats' !! k = if decide (k ∈ keys) then u k <$> stats !! k else stats !! k.
Proof.
  induction 1 as [| key keys Hnotin Hnodup IH]; intros stats Hdef.
  - exists stats. split; [reflexivity |]. intros k.
    destruct (decide (k ∈ [])) as [Hin | _]; [inversion Hin | reflexivity].
  - destruct (Hdef key) as [st Hst]; [left |].
    destruct (step_entry _ _ _ Hst) as (stats1 & Hstep & Hkey & Hother).
    destruct (IH stats1) as (stats' & Hrest & Hlook).
    { intros k Hk. rewrite Hother by (intros ->; contradiction).
      apply Hdef. right. exact Hk. }
    exists stats'. cbn [forEach]. rewrite Hstep. split; [exact Hrest |].
    intros k. rewrite Hlook.
    destruct (decide (k = key)) as [-> | Hne].
    + destruct (decide (key ∈ keys)); [contradiction |].
      destruct (decide (key ∈ key :: keys)) as [_ | Hn]; [| exfalso; apply Hn; left].
      rewrite Hkey, Hst. reflexivity.
    + rewrite (Hother _ Hne).
      destruct (decide (k ∈ keys)) as [Hin | Hnin];
        destruct (decide (k ∈ key :: keys)) as [Hin' | Hnin']; try reflexivity.
      * exfalso. apply Hnin'. right. exact Hin.
      * exfalso. apply elem_of_cons in Hin'. destruct Hin'; contradiction.
Qed.

End KeyLoops.

Lemma questionKeys_NoDup : NoDup questionKeys.
Proof. apply (bool_decide_unpack _). vm_compute. reflexivity. Qed.

Lemma forEach_initStat keys :
  forall stats, exists stats', forEach initStat keys stats = Some stats' /\
    forall k, stats' !! k =
      if decide (k ∈ keys) then Some (mkStat 0 0 0%Q) else stats !! k.
Proof.
  induction keys as [| key keys IH]; intros stats.
  - exists stats. split; [reflexivity |]. intros k.
    destruct (decide (k ∈ [])) as [Hin | _]; [inversion Hin | reflexivity].
  - destruct (IH (<[key := mkStat 0 0 0%Q]> stats)) as (stats' & Hrest & Hlook).
    exists stats'. split; [exact Hrest |]. intros k. rewrite Hlook.
    destruct (decide (k ∈ keys)) as [Hin | Hnin];
      destruct (decide (k ∈ key :: keys)) as [Hin' | Hnin']; try reflexivity.
    + exfalso. apply Hnin'. right. exact Hin.
    + apply elem_of_cons in Hin'. destruct Hin' as [-> | ?]; [| contradiction].
      apply lookup_insert_eq.
    + apply lookup_insert_ne. intros ->. apply Hnin'. left.
Qed.

Lemma addValue_entry rating stats key st :
  stats !! key = Some st ->
  exists stats', addValue rating stats key = Some stats' /\
    stats' !! key = Some (bumped rating key st) /\
    forall k, k <> key -> stats' !! k = stats !! k.
Proof.
  intros Hst. unfold addValue, bumped. cbv zeta.
  destruct (numberAt rating key) as [v |].
  - rewrite Hst. eexists. split; [reflexivity |]. split.
    + apply lookup_insert_eq.
    + intros k Hk. apply lookup_insert_ne. congruence.
  - exists stats. auto.
Qed.

Lemma setAvg_entry stats key st :
  stats !! key = Some st ->
  exists stats', setAvg stats key = Some stats' /\
    stats' !! key = Some (averaged st) /\
    forall k, k <> key -> stats' !! k = stats !! k.
Proof.
  intros Hst. unfold setAvg, averaged. rewrite Hst.
  destruct (0 <? count st).
  - eexists. split; [reflexivity |]. split.
    + apply lookup_insert_eq.
    + intros k Hk. apply lookup_insert_ne. congruence.
  - exists stats. auto.
Qed.

Lemma valuesOf_cons key rating ratings :
  valuesOf key (rating :: ratings) =
    match numberAt rating key with
    | Some v => v :: valuesOf key ratings
    | None => valuesOf key ratings
    end.
Proof. unfold valuesOf. simpl. destruct (numberAt rating key); reflexivity. Qed.

Lemma accumulated_cons key rating ratings st :
  accumulated key ratings (bumped rating key st) = accumulated key (rating :: ratings) st.
Proof.
  unfold accumulated, bumped. rewrite valuesOf_cons.
  destruct (numberAt rating key) as [v |]; [| reflexivity].
  cbn [sum count avg length]. rewrite Nat2Z.inj_succ.
  change (sumZ (v :: valuesOf key ratings)) with (v + sumZ (valuesOf key ratings)).
  f_equal; lia.
Qed.

Lemma accumulated_nil key st : accumulated key [] st = st.
Proof.
  unfold accumulated. cbn. destruct st as [a b c]. cbn. f_equal; lia.
Qed.

Lemma addRating_entries stats rating :
  (forall k, k ∈ questionKeys -> is_Some (stats !! k)) ->
  exists stats', addRating stats rating = Some stats' /\
    forall k, stats' !! k =
      if decide (k ∈ questionKeys) then bumped rating k <$> stats !! k else stats !! k.
Proof.
  intros Hdef. unfold addRating.
  apply (forEach_keys (addValue rating) (bumped rating)); trivial.
  - intros. apply addValue_entry. assumption.
  - apply questionKeys_NoDup.
Qed.

(** The loop over the rows adds to each entry the values of its question. *)
Lemma forEach_addRating ratings :
  forall stats, (forall k, k ∈ questionKeys -> is_Some (stats !! k)) ->
  exists stats', forEach addRating ratings stats = Some stats' /\
    forall k, stats' !! k =
      if decide (k ∈ questionKeys) then accumulated k ratings <$> stats !! k
      else stats !! k.
Proof.
  induction ratings as [| rating ratings IH]; intros stats Hdef.
  - exists stats. split; [reflexivity |]. intros k.
    destruct (decide (k ∈ questionKeys)); [| reflexivity].
    destruct (stats !! k) as [st |]; [| reflexivity]. cbn. rewrite accumulated_nil.
    reflexivity.
  - destruct (addRating_entries stats rating Hdef) as (stats1 & Hadd & Hlook1).
    destruct (IH stats1) as (stats' & Hrest & Hlook).
    { intros k Hk. rewrite Hlook1. destruct (decide (k ∈ questionKeys)); [| contradiction].
      destruct (Hdef k Hk) as [st ->]. eexists. reflexivity. }
    exists stats'. cbn [forEach]. rewrite Hadd. split; [exact Hrest |].
    intros k. rewrite Hlook, Hlook1.
    destruct (decide (k ∈ questionKeys)); [| reflexivity].
    destruct (stats !! k) as [st |]; [| reflexivity]. cbn.
    rewrite accumulated_cons. reflexivity.
Qed.

Lemma forEach_setAvg stats :
  (forall k, k ∈ questionKeys -> is_Some (stats !! k)) ->
  exists stats', forEach setAvg questionKeys stats = Some stats' /\
    forall k, stats' !! k =
      if decide (k ∈ questionKeys) then averaged <$> stats !! k else stats !! k.
Proof.
  intros Hdef.
  apply (forEach_keys setAvg (fun _ => averaged)); trivial.
  - intros. apply setAvg_entry. assumption.
  - apply questionKeys_NoDup.
Qed.

(** The totals loop sums the entries of the keys it visits. *)
Lemma forEach_addTotals stats (entry : string -> Stat) keys :
  (forall k, k ∈ keys -> stats !! k = Some (entry k)) ->
  forall totals,
    forEach (addTotals stats) keys totals =
      Some (fst totals + sumZ (map (fun k => sum (entry k)) keys),
            snd totals + sumZ (map (fun k => count (entry k)) keys)).
Proof.
  induction keys as [| key keys IH]; intros Hdef totals.
  - cbn. destruct totals as [a b]. cbn. f_equal. f_equal; lia.
  - cbn [forEach]. unfold addTotals at 1. rewrite (Hdef key) by left.
    rewrite IH by (intros k Hk; apply Hdef; right; exact Hk).
    unfold sumZ. cbn [fst snd map fold_right]. f_equal. f_equal; lia.
Qed.

Lemma sumZ_app xs ys : sumZ (xs ++ ys) = sumZ xs + sumZ ys.
Proof. unfold sumZ. induction xs as [| x xs IH]; cbn; [reflexivity | rewrite IH; lia]. Qed.

Lemma sumZ_concat (xss : list (list Z)) : sumZ (concat xss) = sumZ (map sumZ xss).
Proof.
  induction xss as [| xs xss IH]; [reflexivity |].
  cbn [concat map]. rewrite sumZ_app, IH. reflexivity.
Qed.

Lemma length_concat_Z (xss : list (list Z)) :
  Z.of_nat (length (concat xss)) = sumZ (map (fun xs => Z.of_nat (length xs)) xss).
Proof.
  induction xss as [| xs xss IH]; [reflexivity |].
  cbn [concat map sumZ fold_right]. rewrite length_app, Nat2Z.inj_add.
  unfold sumZ in IH. rewrite IH. reflexivity.
Qed.

Lemma quotient_average (xs : list Z) :
  (if 0 <? Z.of_nat (length xs)
   then (inject_Z (sumZ xs) / inject_Z (Z.of_nat (length xs)))%Q else 0%Q) = average xs.
Proof.
  unfold average.
  destruct (Z.ltb_spec 0 (Z.of_nat (length xs))), (Z.eqb_spec (Z.of_nat (length xs)) 0);
    try reflexivity; lia.
Qed.

(** The entry of a question at the end of the three loops. *)
Lemma averaged_accumulated key ratings :
  let st := averaged (accumulated key ratings (mkStat 0 0 0%Q)) in
  sum st = sumZ (valuesOf key ratings) /\
  count st = Z.of_nat (length (valuesOf key ratings)) /\
  avg st = average (valuesOf key ratings).
Proof.
  cbv zeta. unfold averaged, accumulated. cbn [sum count avg]. rewrite !Z.add_0_l.
  rewrite <- quotient_average.
  destruct (0 <? Z.of_nat (length (valuesOf key ratings))); cbn [sum count avg]; auto.
Qed.

(** The aggregation on every list of rows, by the keys the loops run
    over. *)
Lemma statistics_by_key (ratings : list Rating) :
  match statistics ratings with
  | Null => ratings = []
  | Thrown => False
  | Value s =>
      ratings <> [] /\
      length questionKeys = 8%nat /\
      (forall key, key ∈ questionKeys ->
         exists st, byQuestion s !! key = Some st /\
           sum st = sumZ (valuesOf key ratings) /\
           count st = Z.of_nat (length (valuesOf key ratings)) /\
           avg st = average (valuesOf key ratings)) /\
      overallAvg s = average (allValues ratings) /\
      totalResponses s = Z.of_nat (length ratings)
  end.
Proof.
  unfold statistics.
  destruct (Z.eqb_spec (Z.of_nat (length ratings)) 0) as [Hlen | Hlen].
  { destruct ratings; [reflexivity | cbn in Hlen; lia]. }
  cbv zeta.
  destruct (forEach_initStat questionKeys ∅) as (stats0 & -> & Hlook0).
  assert (Hdef0 : forall k, k ∈ questionKeys -> is_Some (stats0 !! k)).
  { intros k Hk. rewrite Hlook0. destruct (decide (k ∈ questionKeys)); [| contradiction].
    eexists; reflexivity. }
  destruct (forEach_addRating ratings stats0 Hdef0) as (stats1 & Hloop1 & Hlook1).
  assert (Hdef1 : forall k, k ∈ questionKeys -> is_Some (stats1 !! k)).
  { intros k Hk. rewrite Hlook1. destruct (decide (k ∈ questionKeys)); [| contradiction].
    destruct (Hdef0 k Hk) as [st ->]. eexists; reflexivity. }
  destruct (forEach_setAvg stats1 Hdef1) as (stats2 & Hloop2 & Hlook2).
  set (entry := fun k => averaged (accumulated k ratings (mkStat 0 0 0%Q))).
  assert (Hentry : forall k, k ∈ questionKeys -> stats2 !! k = Some (entry k)).
  { intros k Hk. rewrite Hlook2, Hlook1, Hlook0.
    destruct (decide (k ∈ questionKeys)); [reflexivity | contradiction]. }
  pose proof (forEach_addTotals stats2 entry questionKeys Hentry (0, 0)) as Htotals.
  cbn [mbind option_bind]. rewrite Hloop1. cbn [mbind option_bind].
  rewrite Hloop2. cbn [mbind option_bind]. rewrite Htotals. cbn [mbind option_bind fst snd].
  cbn [byQuestion overallAvg totalResponses]. rewrite !Z.add_0_l.
  split; [intros ->; apply Hlen; reflexivity |].
  split; [reflexivity |]. split; [| split; [| reflexivity]].
  - intros key Hkey. exists (entry key). split; [apply Hentry; exact Hkey |].
    apply averaged_accumulated.
  - assert (Hsum : sumZ (map (fun k => sum (entry k)) questionKeys) =
                   sumZ (allValues ratings)).
    { unfold allValues. rewrite sumZ_concat, map_map. f_equal.
      apply map_ext. intros k. apply averaged_accumulated. }
    assert (Hcount : sumZ (map (fun k => count (entry k)) questionKeys) =
                     Z.of_nat (length (allValues ratings))).
    { unfold allValues. rewrite length_concat_Z, map_map. f_equal.
      apply map_ext. intros k. apply averaged_accumulated. }
    rewrite Hsum, Hcount. apply quotient_average.
Qed.

(** The values the loops read under a key are those of the column the
    question is stored in. *)
Lemma valuesOf_columnValues (ratings : list Rating) :
  Forall (fun q => valuesOf q.1 ratings = columnValues q.2 ratings) questionColumns.
Proof.
  assert (Hcol : forall column, omap column ratings = columnValues column ratings).
  { intros column. induction ratings as [| rating rest IH]; [reflexivity |].
    cbn. rewrite IH. destruct (column rating); reflexivity. }
  unfold questionColumns. repeat constructor; cbn [fst snd]; rewrite <- Hcol; reflexivity.
Qed.

Lemma allValues_allColumnValues (ratings : list Rating) :
  allValues ratings = allColumnValues ratings.
Proof.
  pose proof (valuesOf_columnValues ratings) as H. unfold questionColumns in H.
  repeat (apply Forall_cons in H; destruct H as [?Hq H]). cbn [fst snd] in *.
  unfold allValues, allColumnValues, questionKeys. cbn [map concat].
  rewrite Hq, Hq0, Hq1, Hq2, Hq3, Hq4, Hq5, Hq6, app_nil_r. reflexivity.
Qed.

(** C10: for every list of rating rows, the memo is [null] exactly on the
    empty list and never throws; otherwise the entry of each of the eight
    questions holds the sum and the count of the values of its column
    that are not [null], its average is that sum over that count, 0 when
    the column has no such value, and the overall average is the sum of
    all these values of the eight columns over their number, 0 when there
    is none. *)
Theorem statistics_averages (ratings : list Rating) :
  match statistics ratings with
  | Null => ratings = []
  | Thrown => False
  | Value s =>
      ratings <> [] /\
      length questionColumns = 8%nat /\
      Forall (fun q =>
                exists st, byQuestion s !! q.1 = Some st /\
                  sum st = sumZ (columnValues q.2 ratings) /\
                  count st = Z.of_nat (length (columnValues q.2 ratings)) /\
                  avg st = average (columnValues q.2 ratings))
        questionColumns /\
      overallAvg s = average (allColumnValues ratings) /\
      totalResponses s = Z.of_nat (length ratings)
  end.
Proof.
  pose proof (statistics_by_key ratings) as H.
  destruct (statistics ratings) as [| s |]; [exact H | | exact H].
  destruct H as (Hne & _ & Hkeys & Hall & Htotal).
  split; [exact Hne |]. split; [reflexivity |].
  split; [| split; [rewrite <- allValues_allColumnValues; exact Hall | exact Htotal]].
  pose proof (valuesOf_columnValues ratings) as Hcols.
  apply Forall_forall. intros q Hq.
  rewrite Forall_forall in Hcols. rewrite <- (Hcols q Hq).
  apply Hkeys. change questionKeys with (questionColumns.*1).
  apply list_elem_of_fmap. exists q. split; [reflexivity | exact Hq].
Qed.

(** On two rows: 5 and 3 stars for the first question, one 4 for the
    second, none for the third, and a 1 for the fourth. *)
Lemma statistics_averages_witness :
  exists s,
    statistics [rate "a" [Some 5; Some 4; None]; rate "b" [Some 3; None; None; Some 1]] =
      Value s /\
    (exists st, byQuestion s !! "ease_of_use" = Some st /\
       sum st = 8 /\ count st = 2 /\ avg st = (8 # 2)%Q) /\
    (exists st, byQuestion s !! "interface_design" = Some st /\
       sum st = 4 /\ count st = 1 /\ avg st = (4 # 1)%Q) /\
    (exists st, byQuestion s !! "qr_code_functionality" = Some st /\
       sum st = 0 /\ count st = 0 /\ avg st = 0%Q) /\
    (exists st, byQuestion s !! "attendance_tracking" = Some st /\
       sum st = 1 /\ count st = 1 /\ avg st = (1 # 1)%Q) /\
    overallAvg s = (13 # 4)%Q /\
    totalResponses s = 2.
Proof.
  pose proof (statistics_averages
    [rate "a" [Some 5; Some 4; None]; rate "b" [Some 3; None; None; Some 1]]) as H.
  destruct (statistics _) as [| s |]; [discriminate H | | destruct H].
  destruct H as (_ & _ & Hq & Hall & Htotal). exists s.
  unfold questionColumns in Hq.
  apply Forall_cons in Hq. destruct Hq as [H1 Hq].
  apply Forall_cons in Hq. destruct Hq as [H2 Hq].
  apply Forall_cons in Hq. destruct Hq as [H3 Hq].
  apply Forall_cons in Hq. destruct Hq as [H4 _].
  exact (conj eq_refl (conj H1 (conj H2 (conj H3 (conj H4 (conj Hall Htotal)))))).
Defined.

End RatingsFacts.

(** ** Further properties of the scan handler *)

Module ScannerPathFacts.

Import Js Scanner ScannerPaths ScannerFacts.

Local Open Scope list_scope.

Lemma sendEmail_shape w sd p st :
  (sendEmail w sd p st).2 = Next tt \/
  exists te req,
    sendEmail w sd p st = (te, Throw (InvokeThrew req)) /\
    isEmail req = true /\ requests te = [req].
Proof.
  unfold sendEmail, invoke. destruct (email p) as [to |]; [| left; reflexivity].
  destruct (truthy _); [| left; reflexivity].
  rewrite bind_emit. destruct (functions_invoke w _); cbn;
    [left; reflexivity | left; reflexivity |].
  right. eexists _, (SendEmail to _ _ st). repeat split; reflexivity.
Qed.

Lemma tryBlock_no_student w result :
  isFalsy result || negb (scanning w) = false ->
  scannedStudent w result = None ->
  exists e, (e = MissingRawValue \/ e = InvalidJSON \/ e = ProfileNotFound) /\
    handleScan w result = (SetScanning false :: catchBlock e, ScanFailed e).
Proof.
  intros Hig. unfold scannedStudent, handleScan, tryBlock. rewrite Hig.
  destruct (rawValueOf result) as [raw |]; [| exists MissingRawValue; auto].
  destruct (truthy (Some raw)); [| exists MissingRawValue; auto].
  destruct (JSON_parse w raw) as [sd' |]; [| exists InvalidJSON; auto].
  destruct (profiles_single w (sd_user_id sd')) as [p' |]; [discriminate |].
  exists ProfileNotFound; auto.
Qed.

(** Every pass takes one of the six paths. *)
Lemma handleScan_shape w result :
  PassShape w result (handleScan w result).1 (handleScan w result).2.
Proof.
  destruct (isFalsy result || negb (scanning w)) eqn:Hig.
  { unfold handleScan. rewrite Hig. apply PassIgnored. exact Hig. }
  destruct (scannedStudent w result) as [[sd p] |] eqn:Hs.
  2:{ destruct (tryBlock_no_student _ _ Hig Hs) as (e & He & ->).
      apply PassNoStudent; assumption. }
  rewrite (scannedStudent_tryBlock _ _ _ _ Hs).
  unfold processStudent, recordAttendance. cbv zeta.
  change (checkIfBirthday (Date_new w) (clock_birthday w) (birthday p))
    with (birthdayOf w p).
  change (getAttendanceStatus (clock_status w)) with (baseStatus w).
  change (reconcile (birthdayOf w p) (getHours (clock_now w))
            (attendance_today w (sd_user_id sd))) with (reconciled w sd p).
  destruct (reconcile_cases (birthdayOf w p) (getHours (clock_now w))
              (attendance_today w (sd_user_id sd))) as [Hr | [Hr | Hr]];
    change (reconcile (birthdayOf w p) (getHours (clock_now w))
              (attendance_today w (sd_user_id sd))) with (reconciled w sd p) in Hr;
    rewrite Hr.
  2:{ replace (tryCatch _) with
        ((prelude (birthdayOf w p) ++ rejection AlreadyRecordedToday (birthdayOf w p))%list,
         BothSessionsComplete) by (destruct (birthdayOf w p); reflexivity).
      eapply PassRejected; eauto. }
  2:{ replace (tryCatch _) with
        ((prelude (birthdayOf w p) ++ rejection AlreadyRecordedSession (birthdayOf w p))%list,
         SessionAlreadyRecorded) by (destruct (birthdayOf w p); reflexivity).
      eapply PassRejected; eauto. }
  destruct (attendance_insert w (attendanceRow w sd p (baseStatus w))) eqn:Hins.
  2:{ replace (tryCatch _) with
        ((prelude (birthdayOf w p) ++
          InsertRefused (attendanceRow w sd p (baseStatus w)) :: catchBlock InsertError)%list,
         ScanFailed InsertError) by (destruct (birthdayOf w p); reflexivity).
      apply PassInsertRefused; assumption. }
  destruct (emailThrows w sd p (baseStatus w)) eqn:He.
  - destruct (notify_when_email_throws _ _ _ _ He) as [Hn _]. rewrite Hn.
    destruct (sendEmail_shape w sd p (baseStatus w)) as [Hnext | (te & req & Hse & Hreq & Hte)].
    { apply emailThrows_true in He. destruct He as [e He]. congruence. }
    rewrite Hse.
    replace (tryCatch _) with
      ((prelude (birthdayOf w p) ++ recordedEvents w sd p ++ te ++
        catchBlock (InvokeThrew req))%list, ScanFailed (InvokeThrew req)).
    + eapply PassEmailThrew; eassumption.
    + unfold recordedEvents. destruct (birthdayOf w p); cbn; rewrite <- ?app_assoc;
        reflexivity.
  - destruct (notify_when_email_returns _ _ _ _ He) as [Hflow _].
    destruct (notify w sd p (baseStatus w)) as [tn rn] eqn:En. cbn in Hflow. subst rn.
    replace (tryCatch _) with
      ((prelude (birthdayOf w p) ++ recordedEvents w sd p ++ tn ++
        [SetTimeout ResetAfterRecord (resetDelay (birthdayOf w p))])%list,
       Recorded (baseStatus w)).
    + pose proof (PassRecorded w result sd p Hs Hr Hins He) as H. rewrite En in H. exact H.
    + unfold recordedEvents. destruct (birthdayOf w p); cbn; rewrite <- ?app_assoc;
        reflexivity.
Qed.

(** *** Events of the notification phase *)

Lemma sendEmail_events w sd p st :
  Forall (fun e => isNotifyEvent e = true) (sendEmail w sd p st).1.
Proof. unfold sendEmail, invoke. repeat trace_step; reflexivity. Qed.

Lemma notify_events w sd p st :
  Forall (fun e => isNotifyEvent e = true) (notify w sd p st).1.
Proof.
  unfold notify, sendEmail, sendPush, sendSms, invoke. repeat trace_step; reflexivity.
Qed.

Lemma notify_events_quiet (t : list Event) :
  Forall (fun e => isNotifyEvent e = true) t ->
  timers t = [] /\ insertedRows t = [] /\ submittedRows t = [] /\
  PlayBirthdayAnimation ∉ t.
Proof.
  intros H. repeat split.
  1-3: apply omap_none; eapply Forall_impl; [exact H |];
       intros [] He; cbn in He; try discriminate; reflexivity.
  intros Hin. rewrite Forall_forall in H. specialize (H _ Hin). discriminate.
Qed.

Lemma timers_app t1 t2 : timers (t1 ++ t2) = (timers t1 ++ timers t2)%list.
Proof. unfold timers. apply omap_app. Qed.

Lemma submittedRows_app t1 t2 :
  submittedRows (t1 ++ t2) = (submittedRows t1 ++ submittedRows t2)%list.
Proof. unfold submittedRows. apply omap_app. Qed.

Lemma prelude_facts b :
  head (prelude b) = Some (SetScanning false) /\
  timers (prelude b) = [] /\ insertedRows (prelude b) = [] /\
  submittedRows (prelude b) = [] /\ requests (prelude b) = [] /\
  (PlayBirthdayAnimation ∈ prelude b <-> b = true).
Proof.
  destruct b; repeat split; try reflexivity; try discriminate.
  - intros _. unfold prelude. rewrite !elem_of_cons. auto.
  - unfold prelude. rewrite !elem_of_cons, elem_of_nil. intros [H | [H | []]]; discriminate.
Qed.

Lemma catchBlock_facts e :
  timers (catchBlock e) = [(ResumeAfterFailure, 2000)] /\
  last (catchBlock e) = Some (SetTimeout ResumeAfterFailure 2000) /\
  insertedRows (catchBlock e) = [] /\ submittedRows (catchBlock e) = [] /\
  requests (catchBlock e) = [] /\ (PlayBirthdayAnimation ∉ catchBlock e) /\
  (Toast (ScanFailedToast e) false ∈ catchBlock e).
Proof.
  repeat split; try reflexivity; unfold catchBlock; rewrite !elem_of_cons, ?elem_of_nil.
  - intros [H | [H | [H | []]]]; discriminate.
  - auto.
Qed.

Lemma rejection_facts kind b :
  timers (rejection kind b) = [(ResumeAfterReject, resetDelay b)] /\
  last (rejection kind b) = Some (SetTimeout ResumeAfterReject (resetDelay b)) /\
  (PlayBirthdayAnimation ∉ rejection kind b).
Proof.
  repeat split. unfold rejection. rewrite !elem_of_cons, elem_of_nil.
  intros [H | [H | []]]; discriminate.
Qed.

Lemma recordedEvents_facts w sd p :
  timers (recordedEvents w sd p) = [] /\
  insertedRows (recordedEvents w sd p) = [attendanceRow w sd p (baseStatus w)] /\
  submittedRows (recordedEvents w sd p) = [attendanceRow w sd p (baseStatus w)] /\
  requests (recordedEvents w sd p) = [] /\
  (PlayBirthdayAnimation ∉ recordedEvents w sd p).
Proof.
  repeat split. unfold recordedEvents. rewrite !elem_of_cons, elem_of_nil.
  intros [H | [H | [H | []]]]; discriminate.
Qed.

(** X1: a pass that is ignored does nothing at all; every other pass
    starts by switching the scanner off and ends by arming exactly one
    timer that switches it on again: after 2 s for a failed scan, and for a
    rejected or recorded scan after 5 s when the birthday animation was
    played and 3 s otherwise. *)
Theorem pass_arms_one_timer w result :
  match (handleScan w result).2 with
  | Ignored => (handleScan w result).1 = []
  | ScanFailed _ =>
      head (handleScan w result).1 = Some (SetScanning false) /\
      timers (handleScan w result).1 = [(ResumeAfterFailure, 2000)] /\
      last (handleScan w result).1 = Some (SetTimeout ResumeAfterFailure 2000)
  | Recorded _ =>
      exists b,
        head (handleScan w result).1 = Some (SetScanning false) /\
        timers (handleScan w result).1 = [(ResetAfterRecord, resetDelay b)] /\
        last (handleScan w result).1 = Some (SetTimeout ResetAfterRecord (resetDelay b)) /\
        (PlayBirthdayAnimation ∈ (handleScan w result).1 <-> b = true)
  | BothSessionsComplete | SessionAlreadyRecorded =>
      exists b,
        head (handleScan w result).1 = Some (SetScanning false) /\
        timers (handleScan w result).1 = [(ResumeAfterReject, resetDelay b)] /\
        last (handleScan w result).1 = Some (SetTimeout ResumeAfterReject (resetDelay b)) /\
        (PlayBirthdayAnimation ∈ (handleScan w result).1 <-> b = true)
  end.
Proof.
  pose proof (handleScan_shape w result) as H.
  destruct (handleScan w result) as [t o]. cbn [fst snd] in *.
  destruct H as [Hig | e Hig Hs He | sd p kind o Hs Hr Hk | sd p Hs Hr Hins
                 | sd p te req Hs Hr Hins Hse Hreq Hte | sd p Hs Hr Hins He].
  - reflexivity.
  - destruct (catchBlock_facts e) as (Ht & Hl & _).
    split_and!; [reflexivity | exact Ht | rewrite last_cons, Hl; reflexivity].
  - destruct (prelude_facts (birthdayOf w p)) as (Hh & Ht & _ & _ & _ & Hb).
    destruct (rejection_facts kind (birthdayOf w p)) as (Ht' & Hl & Hn).
    assert (Hgoal :
      head (prelude (birthdayOf w p) ++ rejection kind (birthdayOf w p))%list =
        Some (SetScanning false) /\
      timers (prelude (birthdayOf w p) ++ rejection kind (birthdayOf w p))%list =
        [(ResumeAfterReject, resetDelay (birthdayOf w p))] /\
      last (prelude (birthdayOf w p) ++ rejection kind (birthdayOf w p))%list =
        Some (SetTimeout ResumeAfterReject (resetDelay (birthdayOf w p))) /\
      (PlayBirthdayAnimation ∈ (prelude (birthdayOf w p) ++
                                rejection kind (birthdayOf w p))%list
       <-> birthdayOf w p = true)).
    { split_and!.
      - destruct (birthdayOf w p); reflexivity.
      - rewrite timers_app, Ht, Ht'. reflexivity.
      - rewrite last_app, Hl. reflexivity.
      - rewrite elem_of_app. split.
        + intros [Hin | Hin]; [apply Hb; exact Hin | contradiction].
        + intros Hbt. left. apply Hb. exact Hbt. }
    destruct Hk as [[_ ->] | [_ ->]]; exists (birthdayOf w p); exact Hgoal.
  - destruct (catchBlock_facts InsertError) as (Ht & Hl & _).
    destruct (prelude_facts (birthdayOf w p)) as (Hh & Htp & _).
    split_and!.
    + destruct (birthdayOf w p); reflexivity.
    + change (InsertRefused ?r :: ?c) with ([InsertRefused r] ++ c).
      rewrite !timers_app, Htp, Ht. reflexivity.
    + change (InsertRefused ?r :: ?c) with ([InsertRefused r] ++ c).
      rewrite !last_app, Hl. reflexivity.
  - destruct (catchBlock_facts (InvokeThrew req)) as (Ht & Hl & _).
    destruct (prelude_facts (birthdayOf w p)) as (Hh & Htp & _).
    destruct (recordedEvents_facts w sd p) as (Htr & _).
    pose proof (sendEmail_events w sd p (baseStatus w)) as Hev. rewrite Hse in Hev.
    cbn [fst] in Hev.
    destruct (notify_events_quiet _ Hev) as (Hte' & _).
    split_and!.
    + destruct (birthdayOf w p); reflexivity.
    + rewrite !timers_app, Htp, Htr, Hte', Ht. reflexivity.
    + rewrite !last_app, Hl. reflexivity.
  - destruct (prelude_facts (birthdayOf w p)) as (Hh & Htp & _ & _ & _ & Hb).
    destruct (recordedEvents_facts w sd p) as (Htr & _ & _ & _ & Hnr).
    destruct (notify_events_quiet _ (notify_events w sd p (baseStatus w)))
      as (Htn & _ & _ & Hnn).
    exists (birthdayOf w p). split_and!.
    + destruct (birthdayOf w p); reflexivity.
    + rewrite !timers_app, Htp, Htr, Htn. reflexivity.
    + rewrite !app_assoc. apply last_snoc.
    + rewrite !elem_of_app, list_elem_of_singleton. split.
      * intros [Hin | [Hin | [Hin | Hin]]];
          [apply Hb; exact Hin | contradiction | contradiction | discriminate].
      * intros Hbt. left. apply Hb. exact Hbt.
Qed.

Lemma scannedStudent_ignored w result :
  isFalsy result || negb (scanning w) = true -> scannedStudent w result = None.
Proof. intros H. unfold scannedStudent. rewrite H. reflexivity. Qed.

Lemma animation_after_prelude b rest :
  PlayBirthdayAnimation ∉ rest ->
  (PlayBirthdayAnimation ∈ prelude b ++ rest <-> b = true).
Proof.
  intros Hrest. destruct (prelude_facts b) as (_ & _ & _ & _ & _ & Hb).
  rewrite elem_of_app. split.
  - intros [H | H]; [apply Hb; exact H | contradiction].
  - intros H. left. apply Hb. exact H.
Qed.

(** X2: the birthday animation is played exactly in the passes that get
    to a profile whose birthday is today, whether the scan is then
    recorded, rejected as a duplicate or fails at the insert. *)
Theorem birthday_animation_iff w result :
  PlayBirthdayAnimation ∈ (handleScan w result).1 <->
  exists sd p,
    scannedStudent w result = Some (sd, p) /\
    checkIfBirthday (Date_new w) (clock_birthday w) (birthday p) = true.
Proof.
  pose proof (handleScan_shape w result) as H.
  destruct (handleScan w result) as [t o]. cbn [fst snd] in *.
  assert (Hstudent : forall sd p rest,
    scannedStudent w result = Some (sd, p) ->
    PlayBirthdayAnimation ∉ rest ->
    PlayBirthdayAnimation ∈ prelude (birthdayOf w p) ++ rest <->
    exists sd' p', scannedStudent w result = Some (sd', p') /\
      checkIfBirthday (Date_new w) (clock_birthday w) (birthday p') = true).
  { intros sd p rest Hs Hrest. rewrite (animation_after_prelude _ _ Hrest). split.
    - intros Hb. exists sd, p. split; [exact Hs | exact Hb].
    - intros (sd' & p' & Hs' & Hb). rewrite Hs in Hs'. injection Hs' as <- <-. exact Hb. }
  destruct H as [Hig | e Hig Hs He | sd p kind o Hs Hr Hk | sd p Hs Hr Hins
                 | sd p te req Hs Hr Hins Hse Hreq Hte | sd p Hs Hr Hins He].
  - split; [intros Hin; inversion Hin |].
    intros (sd & p & Hs & _). rewrite (scannedStudent_ignored _ _ Hig) in Hs. discriminate.
  - split.
    + rewrite elem_of_cons. intros [Hin | Hin]; [discriminate |].
      destruct (catchBlock_facts e) as (_ & _ & _ & _ & _ & Hn & _). contradiction.
    + intros (sd & p & Hs' & _). rewrite Hs in Hs'. discriminate.
  - apply (Hstudent sd p _ Hs). apply rejection_facts.
  - apply (Hstudent sd p _ Hs). rewrite not_elem_of_cons. split; [discriminate |].
    apply catchBlock_facts.
  - apply (Hstudent sd p _ Hs). rewrite !not_elem_of_app. split_and!.
    + apply recordedEvents_facts.
    + pose proof (sendEmail_events w sd p (baseStatus w)) as Hev. rewrite Hse in Hev.
      apply (notify_events_quiet _ Hev).
    + apply catchBlock_facts.
  - apply (Hstudent sd p _ Hs). rewrite !not_elem_of_app. split_and!.
    + apply recordedEvents_facts.
    + apply (notify_events_quiet _ (notify_events w sd p (baseStatus w))).
    + rewrite list_elem_of_singleton. discriminate.
Qed.

(** X3: a failed scan has one of five causes.  A code without a value, a
    text that is no JSON and a missing profile fail before any row is
    built; a refused insert fails with the row submitted but not inserted;
    in these four cases no request is sent.  The fifth cause is a thrown
    e-mail call, which fails the pass although its row is inserted; a push
    or SMS call never fails a pass.  The failure toast is always shown. *)
Theorem scan_failure_causes w result e :
  (handleScan w result).2 = ScanFailed e ->
  Toast (ScanFailedToast e) false ∈ (handleScan w result).1 /\
  (((e = MissingRawValue \/ e = InvalidJSON \/ e = ProfileNotFound) /\
    submittedRows (handleScan w result).1 = [] /\
    requests (handleScan w result).1 = []) \/
   (e = InsertError /\
    insertedRows (handleScan w result).1 = [] /\
    (exists row, submittedRows (handleScan w result).1 = [row]) /\
    requests (handleScan w result).1 = []) \/
   (exists req, e = InvokeThrew req /\ isEmail req = true /\
    (exists row, insertedRows (handleScan w result).1 = [row]) /\
    requests (handleScan w result).1 = [req])).
Proof.
  pose proof (handleScan_shape w result) as H.
  destruct (handleScan w result) as [t o]. cbn [fst snd] in *. intros Ho.
  destruct H as [Hig | e' Hig Hs He | sd p kind o Hs Hr Hk | sd p Hs Hr Hins
                 | sd p te req Hs Hr Hins Hse Hreq Hte | sd p Hs Hr Hins He];
    try discriminate.
  - injection Ho as <-. split.
    + apply list_elem_of_further. apply catchBlock_facts.
    + left. split; [exact He |]. split; reflexivity.
  - destruct Hk as [[_ ->] | [_ ->]]; discriminate.
  - injection Ho as <-.
    destruct (prelude_facts (birthdayOf w p)) as (_ & _ & Hi & Hsub & Hrq & _).
    split.
    + rewrite elem_of_app. right. apply list_elem_of_further. apply catchBlock_facts.
    + right. left. split; [reflexivity |].
      change (InsertRefused ?r :: ?c) with ([InsertRefused r] ++ c).
      rewrite !insertedRows_app, !submittedRows_app, !requests_app, Hi, Hsub, Hrq.
      split_and!; [reflexivity | eexists; reflexivity | reflexivity].
  - injection Ho as <-.
    destruct (prelude_facts (birthdayOf w p)) as (_ & _ & Hi & _ & Hrq & _).
    destruct (recordedEvents_facts w sd p) as (_ & Hir & _ & Hrr & _).
    destruct (catchBlock_facts (InvokeThrew req)) as (_ & _ & Hic & _ & Hrc & _ & Htoast).
    pose proof (sendEmail_events w sd p (baseStatus w)) as Hev. rewrite Hse in Hev.
    cbn [fst] in Hev. destruct (notify_events_quiet _ Hev) as (_ & Hie & _).
    split.
    + rewrite !elem_of_app. right. right. right. exact Htoast.
    + right. right. exists req. split; [reflexivity |]. split; [exact Hreq |].
      rewrite !insertedRows_app, !requests_app, Hi, Hir, Hie, Hic, Hrq, Hrr, Hte, Hrc.
      split; [eexists; reflexivity | reflexivity].
Qed.

Lemma scan_failure_causes_witness :
  Toast (ScanFailedToast InvalidJSON) false ∈
    (handleScan (Scenario.world 9 0 [] Scenario.all_resolve)
       (Code (mkBarcode (Some "not json")))).1.
Proof.
  exact (proj1 (scan_failure_causes (Scenario.world 9 0 [] Scenario.all_resolve)
                  (Code (mkBarcode (Some "not json"))) InvalidJSON eq_refl)).
Defined.

(** The rows a pass inserts are the row read off its inputs. *)
Lemma insertedRows_acceptedRow w result :
  insertedRows (handleScan w result).1 = option_list (acceptedRow w result).
Proof.
  pose proof (handleScan_shape w result) as H.
  destruct (handleScan w result) as [t o]. cbn [fst snd] in *. unfold acceptedRow.
  destruct H as [Hig | e Hig Hs He | sd p kind o Hs Hr Hk | sd p Hs Hr Hins
                 | sd p te req Hs Hr Hins Hse Hreq Hte | sd p Hs Hr Hins He].
  - rewrite (scannedStudent_ignored _ _ Hig). reflexivity.
  - rewrite Hs. reflexivity.
  - rewrite Hs, Hr. apply rejection_quiet.
  - rewrite Hs, Hr, Hins.
    destruct (prelude_facts (birthdayOf w p)) as (_ & _ & Hi & _).
    rewrite insertedRows_app, Hi. reflexivity.
  - rewrite Hs, Hr, Hins.
    destruct (prelude_facts (birthdayOf w p)) as (_ & _ & Hi & _).
    destruct (recordedEvents_facts w sd p) as (_ & Hir & _).
    pose proof (sendEmail_events w sd p (baseStatus w)) as Hev. rewrite Hse in Hev.
    cbn [fst] in Hev. destruct (notify_events_quiet _ Hev) as (_ & Hie & _).
    rewrite !insertedRows_app, Hi, Hir, Hie. reflexivity.
  - rewrite Hs, Hr, Hins.
    destruct (prelude_facts (birthdayOf w p)) as (_ & _ & Hi & _).
    destruct (recordedEvents_facts w sd p) as (_ & Hir & _).
    destruct (notify_events_quiet _ (notify_events w sd p (baseStatus w)))
      as (_ & Hin & _).
    rewrite !insertedRows_app, Hi, Hir, Hin. reflexivity.
Qed.

(** X4: what a pass inserts does not depend on the edge functions: with
    any other answers from the e-mail, push and SMS functions the same
    rows are inserted.  A pass inserts at most one row; the row is for the
    scanned student, carries the base status, and its [parent_notified]
    says only whether the profile has a parent number. *)
Theorem inserted_row_independent_of_delivery w result answers :
  insertedRows (handleScan (withAnswers w answers) result).1 =
    insertedRows (handleScan w result).1 /\
  (length (insertedRows (handleScan w result).1) <= 1)%nat /\
  (forall row, row ∈ insertedRows (handleScan w result).1 ->
     exists sd p,
       scannedStudent w result = Some (sd, p) /\
       new_student_id row = sd_user_id sd /\
       new_status row = getAttendanceStatus (clock_status w) /\
       new_parent_notified row = truthy (parent_number p)).
Proof.
  rewrite !insertedRows_acceptedRow. split_and!.
  - destruct w; reflexivity.
  - destruct (acceptedRow w result); cbn; lia.
  - intros row. unfold acceptedRow.
    destruct (scannedStudent w result) as [[sd p] |]; [| intros Hin; inversion Hin].
    destruct (reconciled w sd p) as [tr [[] | o | e]]; try (intros Hin; inversion Hin; fail).
    destruct (attendance_insert w _); [| intros Hin; inversion Hin].
    cbn. rewrite list_elem_of_singleton. intros ->. exists sd, p. repeat split.
Qed.

Lemma notify_carriesRequestStatus w sd p st :
  Forall (carriesRequestStatus st) (notify w sd p st).1.
Proof.
  unfold notify, sendEmail, sendPush, sendSms, invoke.
  repeat trace_step; try exact I; cbn; intros st' [= <-]; reflexivity.
Qed.

Lemma requests_Forall (Q : Request -> Prop) (t : list Event) :
  Forall (fun e => match e with Invoke req => Q req | _ => True end) t ->
  Forall Q (requests t).
Proof.
  induction 1 as [| e t He Ht IH]; [constructor |].
  unfold requests in *. destruct e; cbn; try exact IH. constructor; assumption.
Qed.

(** X5: no request is sent before the row is inserted.  A pass either
    sends no request at all, or its events split around the one inserted
    row: nothing is submitted or requested before it, no further row
    after it, and every e-mail and push request carries the status of that
    row. *)
Theorem requests_follow_insert w result :
  requests (handleScan w result).1 = [] \/
  exists before row after,
    (handleScan w result).1 = before ++ Inserted row :: after /\
    requests before = [] /\ submittedRows before = [] /\ submittedRows after = [] /\
    Forall (fun req => forall st, requestStatus req = Some st -> st = new_status row)
      (requests (handleScan w result).1).
Proof.
  pose proof (handleScan_shape w result) as H.
  destruct (handleScan w result) as [t o]. cbn [fst snd] in *.
  destruct H as [Hig | e Hig Hs He | sd p kind o Hs Hr Hk | sd p Hs Hr Hins
                 | sd p te req Hs Hr Hins Hse Hreq Hte | sd p Hs Hr Hins He].
  - left; reflexivity.
  - left; reflexivity.
  - left. apply rejection_quiet.
  - left. destruct (prelude_facts (birthdayOf w p)) as (_ & _ & _ & _ & Hrq & _).
    rewrite requests_app, Hrq. reflexivity.
  - right. destruct (prelude_facts (birthdayOf w p)) as (_ & _ & _ & Hsub & Hrq & _).
    pose proof (notify_carriesRequestStatus w sd p (baseStatus w)) as Hst.
    destruct (notify_when_email_throws w sd p (baseStatus w)) as [Hn _].
    { unfold emailThrows. rewrite Hse. reflexivity. }
    rewrite Hn, Hse in Hst. cbn [fst] in Hst.
    pose proof (sendEmail_events w sd p (baseStatus w)) as Hev. rewrite Hse in Hev.
    cbn [fst] in Hev. destruct (notify_events_quiet _ Hev) as (_ & _ & Hse' & _).
    destruct (catchBlock_facts (InvokeThrew req)) as (_ & _ & _ & Hsc & Hrc & _).
    exists (prelude (birthdayOf w p)), (attendanceRow w sd p (baseStatus w)),
      ([SetScannedStudent sd (baseStatus w);
        Toast (AttendanceRecorded (baseStatus w)) (birthdayOf w p)] ++ te ++
       catchBlock (InvokeThrew req)).
    split_and!; trivial.
    + rewrite !submittedRows_app, Hse', Hsc. reflexivity.
    + rewrite !requests_app, Hrq, Hrc, app_nil_r. cbn [requests omap recordedEvents].
      apply requests_Forall in Hst. exact Hst.
  - right. destruct (prelude_facts (birthdayOf w p)) as (_ & _ & _ & Hsub & Hrq & _).
    pose proof (notify_carriesRequestStatus w sd p (baseStatus w)) as Hst.
    destruct (notify_events_quiet _ (notify_events w sd p (baseStatus w)))
      as (_ & _ & Hsn & _).
    exists (prelude (birthdayOf w p)), (attendanceRow w sd p (baseStatus w)),
      ([SetScannedStudent sd (baseStatus w);
        Toast (AttendanceRecorded (baseStatus w)) (birthdayOf w p)] ++
       (notify w sd p (baseStatus w)).1 ++
       [SetTimeout ResetAfterRecord (resetDelay (birthdayOf w p))]).
    split_and!; trivial.
    + rewrite !submittedRows_app, Hsn. reflexivity.
    + rewrite !requests_app, Hrq, app_nil_r. cbn [requests omap recordedEvents].
      apply requests_Forall in Hst. exact Hst.
Qed.

(** X6: a pass sends at most one e-mail request, at most one push request
    and at most one SMS request, and always in this order. *)
Theorem requests_in_order w result :
  exists mails pushes texts,
    requests (handleScan w result).1 = mails ++ pushes ++ texts /\
    (length mails <= 1)%nat /\ (length pushes <= 1)%nat /\ (length texts <= 1)%nat /\
    Forall (fun req => isEmail req = true) mails /\
    Forall (fun req => isPush req = true) pushes /\
    Forall (fun req => isSms req = true) texts.
Proof.
  pose proof (handleScan_shape w result) as H.
  destruct (handleScan w result) as [t o]. cbn [fst snd] in *.
  assert (Hnone : requests t = [] -> exists mails pushes texts,
    requests t = mails ++ pushes ++ texts /\
    (length mails <= 1)%nat /\ (length pushes <= 1)%nat /\ (length texts <= 1)%nat /\
    Forall (fun req => isEmail req = true) mails /\
    Forall (fun req => isPush req = true) pushes /\
    Forall (fun req => isSms req = true) texts).
  { intros ->. exists [], [], []. split_and!; try constructor; cbn; lia. }
  destruct H as [Hig | e Hig Hs He | sd p kind o Hs Hr Hk | sd p Hs Hr Hins
                 | sd p te req Hs Hr Hins Hse Hreq Hte | sd p Hs Hr Hins He].
  - apply Hnone; reflexivity.
  - apply Hnone; reflexivity.
  - apply Hnone. apply rejection_quiet.
  - apply Hnone. destruct (prelude_facts (birthdayOf w p)) as (_ & _ & _ & _ & Hrq & _).
    rewrite requests_app, Hrq. reflexivity.
  - destruct (prelude_facts (birthdayOf w p)) as (_ & _ & _ & _ & Hrq & _).
    destruct (catchBlock_facts (InvokeThrew req)) as (_ & _ & _ & _ & Hrc & _).
    exists [req], [], []. rewrite !requests_app, Hrq, Hte, Hrc.
    split_and!.
    + reflexivity.
    + cbn; lia.
    + cbn; lia.
    + cbn; lia.
    + constructor; [exact Hreq | constructor].
    + constructor.
    + constructor.
  - destruct (prelude_facts (birthdayOf w p)) as (_ & _ & _ & _ & Hrq & _).
    destruct (notify_when_email_returns _ _ _ _ He) as [_ Hn].
    exists (requests (sendEmail w sd p (baseStatus w)).1),
      (requests (sendPush w sd (baseStatus w)).1),
      (requests (sendSms w sd p (baseStatus w)).1).
    rewrite !requests_app, Hrq, Hn, sendEmail_requests, sendPush_requests, sendSms_requests.
    split; [cbn; rewrite app_nil_r; reflexivity |].
    destruct (email p) as [to |]; [destruct (truthy (Some to)) |];
      (destruct (parent_number p) as [ph |]; [destruct (truthy (Some ph)) |]);
      destruct (isAlertStatus (baseStatus w));
      split_and!; cbn; try lia; repeat constructor.
Qed.

(** X7: outside the session hours (before 06:00 or from 16:00 on) the
    rows already recorded today play no part: a pass that gets to the
    student and whose insert is accepted inserts its row, whatever rows
    the student has, and ends recorded unless the e-mail call throws. *)
Theorem outside_session_hours_always_inserted w result sd p :
  scannedStudent w result = Some (sd, p) ->
  getHours (clock_now w) < 6 \/ 16 <= getHours (clock_now w) ->
  attendance_insert w
    (attendanceRow w sd p (getAttendanceStatus (clock_status w))) = true ->
  insertedRows (handleScan w result).1 =
    [attendanceRow w sd p (getAttendanceStatus (clock_status w))] /\
  ((handleScan w result).2 = Recorded (getAttendanceStatus (clock_status w)) \/
   exists req, isEmail req = true /\ (handleScan w result).2 = ScanFailed (InvokeThrew req)).
Proof.
  intros Hs Hh Hins.
  assert (Hr : reconciled w sd p = ([], Next tt)).
  { apply reconcile_outside_sessions.
    - destruct (isMorningHour _) eqn:E; [apply isMorningHour_iff in E; lia | reflexivity].
    - destruct (isAfternoonHour _) eqn:E; [apply isAfternoonHour_iff in E; lia | reflexivity]. }
  split.
  - rewrite insertedRows_acceptedRow. unfold acceptedRow.
    rewrite Hs, Hr. unfold baseStatus. rewrite Hins. reflexivity.
  - pose proof (handleScan_shape w result) as H.
    destruct (handleScan w result) as [t o]. cbn [fst snd] in *.
    destruct H as [Hig | e Hig Hs' He | sd' p' kind o Hs' Hr' Hk | sd' p' Hs' Hr' Hins'
                   | sd' p' te req Hs' Hr' Hins' Hse Hreq Hte | sd' p' Hs' Hr' Hins' He].
    + rewrite (scannedStudent_ignored _ _ Hig) in Hs. discriminate.
    + congruence.
    + rewrite Hs in Hs'. injection Hs' as <- <-. rewrite Hr in Hr'. discriminate.
    + rewrite Hs in Hs'. injection Hs' as <- <-. unfold baseStatus in Hins'. congruence.
    + right. exists req. auto.
    + left. reflexivity.
Qed.

Lemma outside_session_hours_always_inserted_witness :
  insertedRows
    (handleScan (Scenario.world 5 45 [Scenario.morning_row; Scenario.afternoon_row]
       Scenario.all_resolve) Scenario.qr).1 = [Scenario.row_of present].
Proof.
  refine (proj1 (outside_session_hours_always_inserted
                   (Scenario.world 5 45 [Scenario.morning_row; Scenario.afternoon_row]
                      Scenario.all_resolve)
                   Scenario.qr Scenario.ana Scenario.ana_profile eq_refl _ eq_refl)).
  left. cbn. lia.
Defined.

Lemma reconcile_passes_in_session b h rows :
  reconcile b h (Some rows) = ([], Next tt) ->
  isMorningHour h || isAfternoonHour h = true ->
  morningScans rows = [] /\ afternoonScans rows = [].
Proof.
  unfold reconcile. intros Hr Hh.
  destruct (nonEmpty rows) eqn:Hne.
  - cbv zeta in Hr.
    destruct (nonEmpty (morningScans rows)) eqn:Hm, (nonEmpty (afternoonScans rows)) eqn:Ha,
      (isMorningHour h), (isAfternoonHour h); cbn in Hr, Hh; try discriminate;
      split; apply dec_stable; intros Hx; apply nonEmpty_iff in Hx; congruence.
  - assert (rows = []) as ->.
    { apply dec_stable. intros Hx. apply nonEmpty_iff in Hx. congruence. }
    split; reflexivity.
Qed.

(** X8: when the two clock readings of a pass agree, what is recorded
    follows the sessions.  Late is recorded only between 08:00 and 11:59,
    and then the student had no row today in either session; absent is
    recorded only from 17:30 on, outside the sessions; a scan recorded in
    the afternoon session (12:00 to 15:59) is always present. *)
Theorem recorded_status_by_session w result sd p st :
  scannedStudent w result = Some (sd, p) ->
  clock_status w = clock_now w ->
  0 <= getMinutes (clock_now w) < 60 ->
  (handleScan w result).2 = Recorded st ->
  (st = late ->
     8 <= getHours (clock_now w) < 12 /\
     forall rows, attendance_today w (sd_user_id sd) = Some rows ->
       morningScans rows = [] /\ afternoonScans rows = []) /\
  (st = absent ->
     1050 <= getHours (clock_now w) * 60 + getMinutes (clock_now w) /\
     17 <= getHours (clock_now w)) /\
  (12 <= getHours (clock_now w) < 16 -> st = present).
Proof.
  intros Hs Hclock Hmin Hrec.
  pose proof (handleScan_shape w result) as H.
  destruct (handleScan w result) as [t o]. cbn [fst snd] in *. subst o.
  inversion H as [| | sd' p' kind o Hs' Hr' Hk | | | sd' p' Hs' Hr Hins He]; subst.
  { destruct Hk as [[_ Ho] | [_ Ho]]; discriminate. }
  rewrite Hs in Hs'. injection Hs' as <- <-.
  unfold baseStatus, getAttendanceStatus in *. rewrite Hclock in *. cbv zeta in *.
  set (h := getHours (clock_now w)) in *. set (m := getMinutes (clock_now w)) in *.
  assert (Hlate : (if (360 <=? h * 60 + m) && (h * 60 + m <? 480) then present
                   else if (480 <=? h * 60 + m) && (h * 60 + m <? 720) then late
                   else if (720 <=? h * 60 + m) && (h * 60 + m <=? 795) then present
                   else if 1050 <=? h * 60 + m then absent else present) = late ->
                  8 <= h < 12).
  { repeat match goal with
    | |- context [?a <=? ?b] => destruct (Z.leb_spec a b)
    | |- context [?a <? ?b] => destruct (Z.ltb_spec a b)
    end; cbn; intros Hx; try discriminate; lia. }
  split_and!.
  - intros Hl. split; [apply Hlate; exact Hl |].
    intros rows Hrows. unfold reconciled in Hr. rewrite Hrows in Hr.
    apply (reconcile_passes_in_session _ _ _ Hr).
    apply orb_true_iff. left. apply isMorningHour_iff. specialize (Hlate Hl). fold h. lia.
  - repeat match goal with
    | |- context [?a <=? ?b] => destruct (Z.leb_spec a b)
    | |- context [?a <? ?b] => destruct (Z.ltb_spec a b)
    end; cbn; intros Hx; try discriminate; lia.
  - intros Hh.
    repeat match goal with
    | |- context [?a <=? ?b] => destruct (Z.leb_spec a b)
    | |- context [?a <? ?b] => destruct (Z.ltb_spec a b)
    end; cbn; try reflexivity; lia.
Qed.

Lemma recorded_status_by_session_witness :
  8 <= getHours (clock_now (Scenario.world 9 0 [] Scenario.all_resolve)) < 12.
Proof.
  refine (proj1 (proj1 (recorded_status_by_session
                          (Scenario.world 9 0 [] Scenario.all_resolve)
                          Scenario.qr Scenario.ana Scenario.ana_profile late
                          eq_refl eq_refl _ eq_refl) eq_refl)).
  cbn. lia.
Defined.

End ScannerPathFacts.

(** ** Properties of the rest of the ratings page *)

Module RatingsViewsFacts.

Import Ratings RatingsViews RatingsFacts.

Local Open Scope list_scope.

(** *** [sectionStats] *)

Lemma sectionStats_snoc ratings r :
  sectionStats (ratings ++ [r]) = countSection (sectionStats ratings) r.
Proof. unfold sectionStats. apply foldl_snoc. Qed.

Lemma rowsOfSection_snoc s ratings r :
  rowsOfSection s (ratings ++ [r]) =
    rowsOfSection s ratings + (if String.eqb (sectionOf r) s then 1 else 0).
Proof.
  unfold rowsOfSection. rewrite List.filter_app, length_app, Nat2Z.inj_add. cbn [List.filter].
  destruct (String.eqb (sectionOf r) s); reflexivity.
Qed.

Lemma rowsOfSection_nonneg s ratings : 0 <= rowsOfSection s ratings.
Proof. unfold rowsOfSection. lia. Qed.

Lemma countSection_other sections r s :
  sectionOf r <> s -> countSection sections r !! s = sections !! s.
Proof.
  intros Hne. unfold countSection. cbv zeta.
  destruct (sections !! sectionOf r) as [[n |] |].
  - apply lookup_insert_ne. exact Hne.
  - apply lookup_insert_ne. exact Hne.
  - destruct (String.eqb _ _); [reflexivity |].
    destruct (bool_decide _); apply lookup_insert_ne; exact Hne.
Qed.

Lemma sectionStats_entry (ratings : list Rating) (s : string) :
  sectionStats ratings !! s =
    (if rowsOfSection s ratings =? 0 then None
     else if String.eqb s "__proto__" then None
     else if bool_decide (s ∈ inheritedData) then Some NotACount
     else Some (Count (rowsOfSection s ratings))).
Proof.
  induction ratings as [| r ratings IH] using rev_ind; [reflexivity |].
  rewrite sectionStats_snoc, rowsOfSection_snoc.
  pose proof (rowsOfSection_nonneg s ratings) as Hn.
  destruct (String.eqb_spec (sectionOf r) s) as [Heq | Hne].
  2:{ rewrite (countSection_other _ _ _ Hne), Z.add_0_r. exact IH. }
  subst s. unfold countSection. cbv zeta.
  destruct (Z.eqb_spec (rowsOfSection (sectionOf r) ratings + 1) 0) as [Hz' | _]; [lia |].
  destruct (Z.eqb_spec (rowsOfSection (sectionOf r) ratings) 0) as [Hz | Hz].
  + rewrite IH, Hz.
    destruct (String.eqb (sectionOf r) "__proto__"); [exact IH |].
    destruct (bool_decide (sectionOf r ∈ inheritedData)); rewrite lookup_insert_eq;
      reflexivity.
  + destruct (String.eqb (sectionOf r) "__proto__").
    { rewrite IH. exact IH. }
    destruct (bool_decide (sectionOf r ∈ inheritedData)); rewrite IH, lookup_insert_eq;
      [reflexivity |].
    destruct (Z.eqb_spec (rowsOfSection (sectionOf r) ratings) 0);
      [contradiction | reflexivity].
Qed.

(** X9: the entry of every section name [s].  A name no row has is no
    key.  Otherwise the entry is the number of rows with that name, where
    rows without a section, with an empty section and with the section
    Unknown are all counted under Unknown; except that a name which is a
    member of [Object.prototype] gets a text instead of a count, and
    [__proto__] gets no entry. *)
Theorem sectionStats_lookup (ratings : list Rating) (s : string) :
  sectionStats ratings !! s =
    (if rowsOfSection s ratings =? 0 then None
     else if String.eqb s "__proto__" then None
     else if bool_decide (s ∈ inheritedData) then Some NotACount
     else Some (Count (rowsOfSection s ratings))) /\
  (forall r, sectionOf r = "Unknown" <->
     user_section r = None \/ user_section r = Some "" \/ user_section r = Some "Unknown").
Proof.
  split; [apply sectionStats_entry |].
  - intros r. unfold sectionOf, Js.or_else.
    destruct (user_section r) as [sec |]; [| split; auto].
    destruct (String.eqb_spec sec ""); subst; split; auto.
    + intros ->. auto.
    + intros [H | [H | H]]; congruence.
Qed.

Lemma totalCounted_insert (sections : gmap string Entry) (k : string) (e : Entry) :
  totalCounted (<[k := e]> sections) =
    entryCount e + totalCounted sections -
    match sections !! k with Some e0 => entryCount e0 | None => 0 end.
Proof.
  unfold totalCounted.
  assert (Hcomm : forall (m : gmap string Entry) j1 j2 z1 z2 y,
    j1 <> j2 -> m !! j1 = Some z1 -> m !! j2 = Some z2 ->
    entryCount z1 + (entryCount z2 + y) = entryCount z2 + (entryCount z1 + y)).
  { intros. lia. }
  destruct (sections !! k) as [e0 |] eqn:Hk.
  - rewrite <- insert_delete_eq.
    rewrite map_fold_insert_L; [| apply Hcomm | apply lookup_delete_eq].
    rewrite (map_fold_delete_L _ _ k e0 sections); [lia | apply Hcomm | exact Hk].
  - rewrite map_fold_insert_L; [lia | apply Hcomm | exact Hk].
Qed.

Lemma plainSection_spec s :
  plainSection s = true ->
  String.eqb s "__proto__" = false /\ bool_decide (s ∈ inheritedData) = false.
Proof.
  unfold plainSection. rewrite andb_true_iff, !negb_true_iff. tauto.
Qed.

Lemma sectionStats_plain_step ratings r :
  plainSection (sectionOf r) = true ->
  sectionStats (ratings ++ [r]) =
    <[sectionOf r := Count (rowsOfSection (sectionOf r) ratings + 1)]>
      (sectionStats ratings) /\
  sectionStats ratings !! sectionOf r =
    (if rowsOfSection (sectionOf r) ratings =? 0 then None
     else Some (Count (rowsOfSection (sectionOf r) ratings))).
Proof.
  intros Hplain. destruct (plainSection_spec _ Hplain) as [Hp Hi].
  pose proof (sectionStats_entry ratings (sectionOf r)) as He. rewrite Hp, Hi in He.
  split; [| exact He].
  rewrite sectionStats_snoc. unfold countSection. cbv zeta. rewrite He, Hp, Hi.
  destruct (Z.eqb_spec (rowsOfSection (sectionOf r) ratings) 0) as [-> | Hz];
    [reflexivity |].
  destruct (Z.eqb_spec (rowsOfSection (sectionOf r) ratings) 0); [contradiction |].
  reflexivity.
Qed.

(** X10: when no section name is a member of [Object.prototype], every
    row is counted exactly once: the counts of all sections add up to the
    number of rows, every entry is a positive count, and the keys are the
    distinct section names, so that Sections Covered shows their
    number. *)
Theorem sectionStats_total (ratings : list Rating) :
  Forall (fun r => plainSection (sectionOf r) = true) ratings ->
  totalCounted (sectionStats ratings) = Z.of_nat (length ratings) /\
  (forall s e, sectionStats ratings !! s = Some e -> exists n, e = Count n /\ 0 < n) /\
  dom (sectionStats ratings) = list_to_set (sectionOf <$> ratings) /\
  size (sectionStats ratings) = size (list_to_set (sectionOf <$> ratings) : gset string).
Proof.
  intros Hplain.
  assert (Hdom : dom (sectionStats ratings) = list_to_set (sectionOf <$> ratings)).
  { clear -Hplain. induction ratings as [| r ratings IH] using rev_ind; [reflexivity |].
    apply Forall_app in Hplain. destruct Hplain as [Hrs Hr].
    rewrite Forall_singleton in Hr.
    destruct (sectionStats_plain_step ratings r Hr) as [-> _].
    rewrite dom_insert_L, (IH Hrs), fmap_app, list_to_set_app_L. cbn.
    rewrite (right_id_L ∅ (∪)). apply (comm_L (∪)). }
  split_and!.
  - clear Hdom. induction ratings as [| r ratings IH] using rev_ind; [reflexivity |].
    apply Forall_app in Hplain. destruct Hplain as [Hrs Hr].
    rewrite Forall_singleton in Hr.
    destruct (sectionStats_plain_step ratings r Hr) as [-> Hlook].
    rewrite totalCounted_insert, Hlook, (IH Hrs), length_app, Nat2Z.inj_add.
    destruct (Z.eqb_spec (rowsOfSection (sectionOf r) ratings) 0); cbn; lia.
  - intros s e He. rewrite sectionStats_entry in He.
    destruct (Z.eqb_spec (rowsOfSection s ratings) 0) as [| Hz]; [discriminate |].
    destruct (String.eqb s "__proto__"); [discriminate |].
    destruct (bool_decide (s ∈ inheritedData)) eqn:Hin.
    + exfalso. assert (Hrow : exists r, r ∈ ratings /\ sectionOf r = s).
      { unfold rowsOfSection in Hz.
        destruct (List.filter _ ratings) as [| r l] eqn:Hf; [contradiction |].
        assert (Hr : In r (List.filter (fun r => String.eqb (sectionOf r) s) ratings))
          by (rewrite Hf; left; reflexivity).
        apply filter_In in Hr. destruct Hr as [Hr Hs]. exists r.
        split; [apply list_elem_of_In; exact Hr | apply String.eqb_eq; exact Hs]. }
      destruct Hrow as (r & Hr & <-).
      rewrite Forall_forall in Hplain. specialize (Hplain _ Hr).
      apply plainSection_spec in Hplain. destruct Hplain as [_ Hi]. congruence.
    + injection He as <-. eexists. split; [reflexivity |].
      pose proof (rowsOfSection_nonneg s ratings). lia.
  - exact Hdom.
  - rewrite <- Hdom. symmetry. apply size_dom.
Qed.

Lemma sectionStats_total_witness :
  totalCounted (sectionStats [rate "ana" []; rate "ben" []]) = 2.
Proof.
  refine (proj1 (sectionStats_total [rate "ana" []; rate "ben" []] _)).
  repeat constructor.
Defined.

(** *** The statistics object, entry by entry *)

Lemma averaged_entry key ratings :
  averaged (accumulated key ratings (mkStat 0 0 0%Q)) = entryOf key ratings.
Proof.
  destruct (averaged_accumulated key ratings) as (Hs & Hc & Ha).
  destruct (averaged _) as [a b c]. cbn in *. subst. reflexivity.
Qed.

Lemma statistics_value (ratings : list Rating) :
  ratings <> [] ->
  exists s, statistics ratings = Value s /\
    (forall key, byQuestion s !! key =
       if decide (key ∈ questionKeys) then Some (entryOf key ratings) else None) /\
    overallAvg s = average (allValues ratings) /\
    totalResponses s = Z.of_nat (length ratings).
Proof.
  intros Hne. unfold statistics.
  destruct (Z.eqb_spec (Z.of_nat (length ratings)) 0) as [Hlen | Hlen].
  { destruct ratings; [contradiction | cbn in Hlen; lia]. }
  cbv zeta.
  destruct (forEach_initStat questionKeys ∅) as (stats0 & -> & Hlook0).
  assert (Hdef0 : forall k, k ∈ questionKeys -> is_Some (stats0 !! k)).
  { intros k Hk. rewrite Hlook0. destruct (decide (k ∈ questionKeys)); [| contradiction].
    eexists; reflexivity. }
  destruct (forEach_addRating ratings stats0 Hdef0) as (stats1 & Hloop1 & Hlook1).
  assert (Hdef1 : forall k, k ∈ questionKeys -> is_Some (stats1 !! k)).
  { intros k Hk. rewrite Hlook1. destruct (decide (k ∈ questionKeys)); [| contradiction].
    destruct (Hdef0 k Hk) as [st ->]. eexists; reflexivity. }
  destruct (forEach_setAvg stats1 Hdef1) as (stats2 & Hloop2 & Hlook2).
  assert (Hentry : forall k, stats2 !! k =
    if decide (k ∈ questionKeys) then Some (entryOf k ratings) else None).
  { intros k. rewrite Hlook2, Hlook1, Hlook0.
    destruct (decide (k ∈ questionKeys)); [| apply lookup_empty].
    cbn. rewrite averaged_entry. reflexivity. }
  assert (Hentry' : forall k, k ∈ questionKeys -> stats2 !! k = Some (entryOf k ratings)).
  { intros k Hk. rewrite Hentry. destruct (decide (k ∈ questionKeys)); [reflexivity |].
    contradiction. }
  pose proof (forEach_addTotals stats2 (fun k => entryOf k ratings) questionKeys Hentry'
                (0, 0)) as Htotals.
  cbn [mbind option_bind]. rewrite Hloop1. cbn [mbind option_bind].
  rewrite Hloop2. cbn [mbind option_bind]. rewrite Htotals. cbn [mbind option_bind fst snd].
  eexists. split; [reflexivity |]. cbn [byQuestion overallAvg totalResponses].
  split; [exact Hentry |]. split; [| reflexivity].
  rewrite !Z.add_0_l. cbn [entryOf sum count].
  replace (sumZ (map (fun k => sumZ (valuesOf k ratings)) questionKeys))
    with (sumZ (allValues ratings))
    by (unfold allValues; rewrite sumZ_concat, map_map; reflexivity).
  replace (sumZ (map (fun k => Z.of_nat (length (valuesOf k ratings))) questionKeys))
    with (Z.of_nat (length (allValues ratings)))
    by (unfold allValues; rewrite length_concat_Z, map_map; reflexivity).
  apply quotient_average.
Qed.

(** *** Averages stay within the scores *)

Lemma sumZ_bounds lo hi (xs : list Z) :
  Forall (fun x => lo <= x <= hi) xs ->
  lo * Z.of_nat (length xs) <= sumZ xs <= hi * Z.of_nat (length xs).
Proof.
  induction 1 as [| x xs Hx Hxs IH]; [cbn; lia |].
  change (sumZ (x :: xs)) with (x + sumZ xs). cbn [length]. lia.
Qed.

Lemma average_bounds lo hi (xs : list Z) :
  xs <> [] ->
  Forall (fun x => lo <= x <= hi) xs ->
  (inject_Z lo <= average xs)%Q /\ (average xs <= inject_Z hi)%Q.
Proof.
  intros Hne Hall. pose proof (sumZ_bounds lo hi xs Hall) as [Hlo Hhi].
  unfold average.
  destruct (Z.eqb_spec (Z.of_nat (length xs)) 0) as [Hz | Hz].
  { destruct xs; [contradiction | cbn in Hz; lia]. }
  assert (Hpos : (0 < inject_Z (Z.of_nat (length xs)))%Q).
  { change 0%Q with (inject_Z 0). rewrite <- Zlt_Qlt. lia. }
  split.
  - apply Qle_shift_div_l; [exact Hpos |].
    rewrite <- inject_Z_mult, <- Zle_Qle. exact Hlo.
  - apply Qle_shift_div_r; [exact Hpos |].
    rewrite <- inject_Z_mult, <- Zle_Qle. exact Hhi.
Qed.

Lemma valuesOf_bounds lo hi key (ratings : list Rating) :
  (forall rating k v, rating ∈ ratings -> numberAt rating k = Some v -> lo <= v <= hi) ->
  Forall (fun x => lo <= x <= hi) (valuesOf key ratings).
Proof.
  intros Hall. apply Forall_forall. intros v Hv. unfold valuesOf in Hv.
  apply list_elem_of_omap in Hv. destruct Hv as (rating & Hin & Hnum). eauto.
Qed.

Lemma allValues_bounds lo hi (ratings : list Rating) :
  (forall rating k v, rating ∈ ratings -> numberAt rating k = Some v -> lo <= v <= hi) ->
  Forall (fun x => lo <= x <= hi) (allValues ratings).
Proof.
  intros Hall. unfold allValues. apply Forall_forall. intros v Hv.
  apply list_elem_of_In, in_concat in Hv. destruct Hv as (vs & Hvs & Hv).
  apply in_map_iff in Hvs. destruct Hvs as (key & <- & _).
  pose proof (valuesOf_bounds lo hi key ratings Hall) as Hb.
  rewrite Forall_forall in Hb. apply Hb. apply list_elem_of_In. exact Hv.
Qed.

(** X11: the averages stay within the scores.  When every score of the
    rows lies between [lo] and [hi], so does the average of every question
    that has a score, and so does the overall average when there is any
    score; a question without a score has the average 0 and the count 0,
    whatever the bounds. *)
Theorem statistics_within_scores (ratings : list Rating) (lo hi : Z) :
  ratings <> [] ->
  (forall rating key v,
     rating ∈ ratings -> numberAt rating key = Some v -> lo <= v <= hi) ->
  exists s, statistics ratings = Value s /\
    (forall key st, byQuestion s !! key = Some st ->
       (0 < count st -> (inject_Z lo <= avg st)%Q /\ (avg st <= inject_Z hi)%Q) /\
       (valuesOf key ratings = [] -> count st = 0 /\ avg st = 0%Q)) /\
    (allValues ratings <> [] ->
       (inject_Z lo <= overallAvg s)%Q /\ (overallAvg s <= inject_Z hi)%Q).
Proof.
  intros Hne Hall.
  destruct (statistics_value ratings Hne) as (s & Hs & Hentry & Hoverall & _).
  exists s. split; [exact Hs |]. split.
  - intros key st Hst. rewrite Hentry in Hst.
    destruct (decide (key ∈ questionKeys)); [| discriminate].
    injection Hst as <-. cbn [entryOf count avg]. split.
    + intros Hpos. apply average_bounds; [| apply valuesOf_bounds; exact Hall].
      intros E. rewrite E in Hpos. cbn in Hpos. lia.
    + intros ->. split; reflexivity.
  - intros Hany. rewrite Hoverall.
    apply average_bounds; [exact Hany | apply allValues_bounds; exact Hall].
Qed.

Lemma statistics_within_scores_witness :
  exists s, statistics [rate "ana" [Some 5; Some 4]; rate "ben" [Some 3]] = Value s /\
    (inject_Z 1 <= overallAvg s)%Q /\ (overallAvg s <= inject_Z 5)%Q.
Proof.
  destruct (statistics_within_scores
              [rate "ana" [Some 5; Some 4]; rate "ben" [Some 3]] 1 5)
    as (s & Hs & _ & Hall).
  - discriminate.
  - intros rating key v Hin Hnum.
    rewrite !elem_of_cons, elem_of_nil in Hin.
    destruct Hin as [-> | [-> | []]]; unfold numberAt in Hnum;
      repeat match type of Hnum with
      | (if ?b then _ else _) = _ => destruct b
      end; cbn in Hnum; try discriminate; injection Hnum as <-; lia.
  - exists s. split; [exact Hs |]. apply Hall. discriminate.
Defined.

(** *** Colours *)

Lemma Qle_bool_false (a x : Q) : Qle_bool a x = false <-> (x < a)%Q.
Proof.
  rewrite <- not_true_iff_false, Qle_bool_iff. split.
  - apply Qnot_le_lt.
  - intros Hlt Hle. exact (Qlt_not_le _ _ Hlt Hle).
Qed.

(** Two bounds on a score that leave no room. *)
Ltac q_absurd :=
  match goal with
  | H1 : (?a <= ?x)%Q, H2 : (?x < ?b)%Q |- _ =>
      let Habs := fresh in
      pose proof (Qle_lt_trans _ _ _ H1 H2) as Habs; vm_compute in Habs; discriminate Habs
  end.

(** X12: the colour of the number and the colour of the bar of a question
    change at the same scores: both are green from 4 on, yellow from 3 to
    below 4, and red below 3. *)
Theorem bar_and_score_colours_agree (x : Q) :
  ((4 <= x)%Q ->
     getScoreColor x = "text-green-600 dark:text-green-400" /\
     barColor x = "bg-green-500") /\
  ((3 <= x)%Q /\ (x < 4)%Q ->
     getScoreColor x = "text-yellow-600 dark:text-yellow-400" /\
     barColor x = "bg-yellow-500") /\
  ((x < 3)%Q ->
     getScoreColor x = "text-red-600 dark:text-red-400" /\
     barColor x = "bg-red-500").
Proof.
  unfold getScoreColor, barColor.
  destruct (Qle_bool 4 x) eqn:H4; [apply Qle_bool_iff in H4 | apply Qle_bool_false in H4];
    (destruct (Qle_bool 3 x) eqn:H3;
       [apply Qle_bool_iff in H3 | apply Qle_bool_false in H3]);
    split_and!; intros H; try (split; reflexivity); exfalso;
    lazymatch type of H with
    | _ /\ _ => destruct H as [Ha Hb]
    | _ => idtac
    end; q_absurd.
Qed.

(** X13: a question that no row scores is shown like the worst score: its
    count and its average are 0, and both its number and its bar are
    red. *)
Theorem unanswered_question_is_red (ratings : list Rating) (key : string) :
  ratings <> [] ->
  key ∈ questionKeys ->
  valuesOf key ratings = [] ->
  exists s st,
    statistics ratings = Value s /\ byQuestion s !! key = Some st /\
    count st = 0 /\ avg st = 0%Q /\
    getScoreColor (avg st) = "text-red-600 dark:text-red-400" /\
    barColor (avg st) = "bg-red-500".
Proof.
  intros Hne Hkey Hnone.
  destruct (statistics_value ratings Hne) as (s & Hs & Hentry & _).
  exists s, (entryOf key ratings). split; [exact Hs |]. split.
  - rewrite Hentry. destruct (decide (key ∈ questionKeys)); [reflexivity | contradiction].
  - unfold entryOf. rewrite Hnone. repeat split.
Qed.

Lemma unanswered_question_is_red_witness :
  exists s st,
    statistics [rate "ana" [Some 5]] = Value s /\
    byQuestion s !! "reliability" = Some st /\
    count st = 0 /\ avg st = 0%Q /\
    getScoreColor (avg st) = "text-red-600 dark:text-red-400" /\
    barColor (avg st) = "bg-red-500".
Proof.
  apply (unanswered_question_is_red [rate "ana" [Some 5]] "reliability").
  - discriminate.
  - apply list_elem_of_In. vm_compute. tauto.
  - reflexivity.
Defined.

(** *** The highest rated question *)

Lemma byAvgDescending_Gt (a b : string * Stat) :
  (byAvgDescending a b ?= 0)%Q = Gt <-> (avg (snd a) < avg (snd b))%Q.
Proof.
  unfold byAvgDescending. rewrite <- Qgt_alt. symmetry. apply Qlt_minus_iff.
Qed.

(** The first element of the sorted entries is the first entry, in the
    original order, that no entry beats. *)
Lemma head_sortBy (l : list (string * Stat)) :
  match head (sortBy byAvgDescending l) with
  | None => l = []
  | Some x =>
      exists l1 l2, l = l1 ++ x :: l2 /\
        Forall (fun y => (avg (snd y) < avg (snd x))%Q) l1 /\
        Forall (fun y => (avg (snd y) <= avg (snd x))%Q) l2
  end.
Proof.
  induction l as [| a l IH]; [reflexivity |].
  cbn [sortBy fold_right]. fold (sortBy byAvgDescending l).
  destruct (sortBy byAvgDescending l) as [| y rest]; cbn [head] in IH.
  - subst l. cbn. exists [], []. split_and!; [reflexivity | constructor | constructor].
  - destruct IH as (l1 & l2 & -> & Hl1 & Hl2). cbn [insertBy].
    destruct (byAvgDescending a y ?= 0)%Q eqn:Hcmp.
    3:{ apply byAvgDescending_Gt in Hcmp. cbn [head].
        exists (a :: l1), l2. split_and!; [reflexivity | constructor; assumption | exact Hl2]. }
    all: assert (Hle : (avg (snd y) <= avg (snd a))%Q)
      by (apply Qnot_lt_le; intros Hlt; apply byAvgDescending_Gt in Hlt; congruence).
    all: cbn [head]; exists [], (l1 ++ y :: l2);
      (split_and!; [reflexivity | constructor |]).
    all: apply Forall_app; split;
      [eapply Forall_impl; [exact Hl1 |]; intros z Hz; cbn beta in Hz;
       apply Qlt_le_weak; eapply Qlt_le_trans; [exact Hz | exact Hle]
      | constructor; [exact Hle |];
        eapply Forall_impl; [exact Hl2 |]; intros z Hz; cbn beta in Hz;
        eapply Qle_trans; [exact Hz | exact Hle]].
Qed.

Lemma entries_statistics (ratings : list Rating) s :
  (forall key, byQuestion s !! key =
     if decide (key ∈ questionKeys) then Some (entryOf key ratings) else None) ->
  entries s = (fun key => (key, entryOf key ratings)) <$> questionKeys.
Proof.
  intros Hentry. unfold entries.
  assert (Hgen : forall keys : list string, (forall k, k ∈ keys -> k ∈ questionKeys) ->
    omap (fun key => (fun st => (key, st)) <$> byQuestion s !! key) keys =
    (fun key => (key, entryOf key ratings)) <$> keys).
  { induction keys as [| k keys IH]; intros Hsub; [reflexivity |].
    cbn. rewrite Hentry.
    destruct (decide (k ∈ questionKeys)) as [_ | Hn]; [| exfalso; apply Hn, Hsub; left].
    cbn. f_equal. apply IH. intros k' Hk'. apply Hsub. right. exact Hk'. }
  apply Hgen. auto.
Qed.

(** X14: the question shown as Highest Rated has the greatest average:
    no question has a greater one, and of the questions that share the
    greatest average it is the first in the order of the form, every
    question before it having a smaller average. *)
Theorem highestRated_is_first_maximum (ratings : list Rating) :
  ratings <> [] ->
  exists s key before after,
    statistics ratings = Value s /\
    highestRated s = Some (key, entryOf key ratings) /\
    questionKeys = before ++ key :: after /\
    Forall (fun k => (average (valuesOf k ratings) < average (valuesOf key ratings))%Q)
      before /\
    Forall (fun k => (average (valuesOf k ratings) <= average (valuesOf key ratings))%Q)
      after.
Proof.
  intros Hne.
  destruct (statistics_value ratings Hne) as (s & Hs & Hentry & _).
  pose proof (head_sortBy (entries s)) as Hhead.
  rewrite (entries_statistics ratings s Hentry) in Hhead.
  destruct (head _) as [[key st] |] eqn:Hh; [| discriminate].
  destruct Hhead as (l1 & l2 & Hsplit & Hl1 & Hl2).
  apply fmap_app_inv in Hsplit. destruct Hsplit as (before & rest & -> & Hrest & Hkeys).
  symmetry in Hrest. apply fmap_cons_inv in Hrest.
  destruct Hrest as (key' & after & [= -> ->] & -> & ->).
  exists s, key', before, after. split_and!.
  - exact Hs.
  - unfold highestRated. rewrite (entries_statistics ratings s Hentry). exact Hh.
  - exact Hkeys.
  - rewrite Forall_fmap in Hl1. exact Hl1.
  - rewrite Forall_fmap in Hl2. exact Hl2.
Qed.

Lemma highestRated_is_first_maximum_witness :
  let ratings := [rate "ana" [Some 3; Some 5; Some 5]] in
  exists s key before after,
    statistics ratings = Value s /\
    highestRated s = Some (key, entryOf key ratings) /\
    questionKeys = before ++ key :: after /\
    Forall (fun k => (average (valuesOf k ratings) < average (valuesOf key ratings))%Q)
      before /\
    Forall (fun k => (average (valuesOf k ratings) <= average (valuesOf key ratings))%Q)
      after.
Proof.
  apply (highestRated_is_first_maximum [rate "ana" [Some 3; Some 5; Some 5]]).
  discriminate.
Defined.

(** *** The exported file *)

Lemma readCells_nonempty inQuotes text : readCells inQuotes text <> [].
Proof.
  revert inQuotes. induction text as [| c rest IH]; intros inQuotes; [discriminate |].
  cbn [readCells]. destruct inQuotes.
  - destruct (Ascii.eqb c quote).
    + destruct rest as [| c' rest']; [discriminate |].
      destruct (Ascii.eqb c' quote); [| apply IH].
      unfold pushChar. destruct (readCells true rest'); discriminate.
    + unfold pushChar. destruct (readCells true rest); discriminate.
  - destruct (Ascii.eqb c ","); [discriminate |].
    destruct (Ascii.eqb c quote); [apply IH |].
    unfold pushChar. destruct (readCells false rest); discriminate.
Qed.

Lemma pushChar_length c cells : cells <> [] -> length (pushChar c cells) = length cells.
Proof. destruct cells; [contradiction | reflexivity]. Qed.

(** An unquoted cell without quotes, followed by a comma: it ends at its
    first comma. *)
Lemma readCells_raw_length (cell rest : string) :
  noQuote cell = true ->
  length (readCells false (cell ++ String "," rest)%string) =
  (commas cell + 1 + length (readCells false rest))%nat.
Proof.
  induction cell as [| c cell IH]; intros Hq; [reflexivity |].
  cbn [noQuote] in Hq. apply andb_true_iff in Hq. destruct Hq as [Hc Hq].
  apply negb_true_iff in Hc.
  change (String c cell ++ String "," rest)%string
    with (String c (cell ++ String "," rest)%string).
  cbn [readCells commas]. rewrite Hc. destruct (Ascii.eqb c ",").
  - cbn [length]. rewrite (IH Hq). lia.
  - rewrite pushChar_length by apply readCells_nonempty. apply IH. exact Hq.
Qed.

Lemma readCells_raw_last_length (cell : string) :
  noQuote cell = true -> length (readCells false cell) = (commas cell + 1)%nat.
Proof.
  induction cell as [| c cell IH]; intros Hq; [reflexivity |].
  cbn [noQuote] in Hq. apply andb_true_iff in Hq. destruct Hq as [Hc Hq].
  apply negb_true_iff in Hc. cbn [readCells commas]. rewrite Hc.
  destruct (Ascii.eqb c ",").
  - cbn [length]. rewrite (IH Hq). lia.
  - rewrite pushChar_length by apply readCells_nonempty. apply IH. exact Hq.
Qed.

Lemma readCells_raw (cell rest : string) :
  noQuote cell = true -> commas cell = 0%nat ->
  readCells false (cell ++ String "," rest)%string = cell :: readCells false rest.
Proof.
  induction cell as [| c cell IH]; intros Hq Hc0; [reflexivity |].
  cbn [noQuote] in Hq. apply andb_true_iff in Hq. destruct Hq as [Hc Hq].
  apply negb_true_iff in Hc. cbn [commas] in Hc0.
  change (String c cell ++ String "," rest)%string
    with (String c (cell ++ String "," rest)%string).
  cbn [readCells]. rewrite Hc. destruct (Ascii.eqb c ","); [discriminate |].
  rewrite (IH Hq Hc0). reflexivity.
Qed.

Lemma readCells_raw_last (cell : string) :
  noQuote cell = true -> commas cell = 0%nat -> readCells false cell = [cell].
Proof.
  induction cell as [| c cell IH]; intros Hq Hc0; [reflexivity |].
  cbn [noQuote] in Hq. apply andb_true_iff in Hq. destruct Hq as [Hc Hq].
  apply negb_true_iff in Hc. cbn [commas] in Hc0.
  cbn [readCells]. rewrite Hc. destruct (Ascii.eqb c ","); [discriminate |].
  rewrite (IH Hq Hc0). reflexivity.
Qed.

(** A quoted stretch written by [doubleQuotes] reads back as the text it
    was written from, whatever the text holds. *)
Lemma readCells_doubleQuotes (text rest : string) :
  readCells true (doubleQuotes text ++ String quote (String "," rest))%string =
  text :: readCells false rest.
Proof.
  induction text as [| c text IH]; [reflexivity |].
  cbn [doubleQuotes]. destruct (Ascii.eqb c quote) eqn:Hc.
  - apply Ascii.eqb_eq in Hc. subst c.
    change (String quote (String quote (doubleQuotes text)) ++
            String quote (String "," rest))%string
      with (String quote (String quote
              (doubleQuotes text ++ String quote (String "," rest))%string)).
    cbn [readCells]. rewrite Ascii.eqb_refl, IH. reflexivity.
  - change (String c (doubleQuotes text) ++ String quote (String "," rest))%string
      with (String c (doubleQuotes text ++ String quote (String "," rest))%string).
    cbn [readCells]. rewrite Hc, IH. reflexivity.
Qed.

Lemma readCells_quoted (v : option string) (rest : string) :
  readCells false (quoted v ++ String "," rest)%string =
  Js.or_else v "" :: readCells false rest.
Proof.
  unfold quoted.
  assert (Happ : forall x : string,
    ((x ++ String quote EmptyString) ++ String "," rest)%string =
    (x ++ String quote (String "," rest))%string).
  { induction x as [| c x IH]; [reflexivity |].
    exact (f_equal (String c) IH). }
  change (String quote (doubleQuotes (Js.or_else v "") ++ String quote EmptyString) ++
          String "," rest)%string
    with (String quote ((doubleQuotes (Js.or_else v "") ++ String quote EmptyString) ++
                        String "," rest)%string).
  rewrite Happ.
  change (readCells false (String quote ?x)) with (readCells true x).
  apply readCells_doubleQuotes.
Qed.

Lemma numberText_raw (n : Z) :
  noQuote (numberText n) = true /\ commas (numberText n) = 0%nat.
Proof.
  assert (Hu : forall d, noQuote (DecimalString.NilEmpty.string_of_uint d) = true /\
                         commas (DecimalString.NilEmpty.string_of_uint d) = 0%nat).
  { induction d as [| d IH | d IH | d IH | d IH | d IH | d IH | d IH | d IH | d IH | d IH];
      [split; reflexivity | ..]; destruct IH as [Hq Hc]; split; cbn; try rewrite Hq; auto. }
  unfold numberText, DecimalString.NilZero.string_of_int,
    DecimalString.NilZero.string_of_uint.
  destruct (Z.to_int n) as [d | d]; destruct d; try (split; reflexivity);
    try apply Hu;
    match goal with
    | |- context [DecimalString.NilEmpty.string_of_uint ?d] =>
        destruct (Hu d) as [Hq Hc]; split; cbn in *; auto
    end.
Qed.

Lemma scoreCell_raw (v : option Z) :
  noQuote (scoreCell v) = true /\ commas (scoreCell v) = 0%nat.
Proof.
  unfold scoreCell. destruct v as [n |]; [| split; reflexivity].
  destruct (n =? 0); [split; reflexivity | apply numberText_raw].
Qed.

Lemma readCells_score (v : option Z) (rest : string) :
  readCells false (scoreCell v ++ String "," rest)%string =
  scoreCell v :: readCells false rest.
Proof. destruct (scoreCell_raw v) as [Hq Hc]. apply readCells_raw; assumption. Qed.

(** The line of a row, cell by cell. *)
Lemma rowLine_cells (toLocaleString : string -> string) (r : Rating) :
  String.concat "," (rowCells toLocaleString r) =
  (user_name r ++ String "," (
   Js.or_else (user_section r) "" ++ String "," (
   scoreCell (ease_of_use r) ++ String "," (
   scoreCell (interface_design r) ++ String "," (
   scoreCell (qr_code_functionality r) ++ String "," (
   scoreCell (attendance_tracking r) ++ String "," (
   scoreCell (response_speed r) ++ String "," (
   scoreCell (reliability r) ++ String "," (
   scoreCell (overall_satisfaction r) ++ String "," (
   scoreCell (would_recommend r) ++ String "," (
   quoted (suggestions r) ++ String "," (
   quoted (additional_comments r) ++ String "," (
   toLocaleString (created_at r))))))))))))))%string.
Proof. reflexivity. Qed.



Lemma numberText_not_empty (n : Z) : numberText n <> "".
Proof.
  unfold numberText, DecimalString.NilZero.string_of_int.
  destruct (Z.to_int n) as [d | d]; [destruct d |]; discriminate.
Qed.

Lemma scoreCell_empty (v : option Z) : scoreCell v = "" <-> v = None \/ v = Some 0.
Proof.
  unfold scoreCell. destruct v as [n |]; [| split; auto].
  destruct (Z.eqb_spec n 0) as [-> | Hn]; [split; auto |].
  split.
  - intros H. exfalso. exact (numberText_not_empty n H).
  - intros [H | H]; [discriminate | congruence].
Qed.

(** The score cells of a row are its third to tenth cell, in the order of
    the questions. *)
Lemma scoreCells_columns (toLocaleString : string -> string) (r : Rating) k key column :
  questionColumns !! k = Some (key, column) ->
  rowCells toLocaleString r !! (k + 2)%nat = Some (scoreCell (column r)).
Proof.
  do 8 (destruct k as [| k]; [intros [= <- <-]; reflexivity |]). discriminate.
Qed.

Lemma columnValues_app column (xs ys : list Rating) :
  columnValues column (xs ++ ys) = columnValues column xs ++ columnValues column ys.
Proof.
  induction xs as [| x xs IH]; [reflexivity |].
  cbn. destruct (column x); cbn; rewrite IH; reflexivity.
Qed.

(** X16: the export and the statistics disagree on a score of 0.  The
    cell of a question in the exported row is empty exactly for a missing
    score and for the score 0, so the file cannot tell the two apart; yet
    in [statistics] a row with the score 0 is counted as an answer to the
    question, one more than the other rows give, where a row with a
    missing score is not counted. *)
Theorem zero_score_exported_blank (toLocaleString : string -> string) (k : nat)
    (key : string) (column : Rating -> option Z) (r : Rating)
    (before after : list Rating) :
  questionColumns !! k = Some (key, column) ->
  rowCells toLocaleString r !! (k + 2)%nat = Some (scoreCell (column r)) /\
  (scoreCell (column r) = "" <-> column r = None \/ column r = Some 0) /\
  exists s st,
    statistics (before ++ r :: after) = Value s /\
    byQuestion s !! key = Some st /\
    (column r = Some 0 ->
       count st = Z.of_nat (length (columnValues column (before ++ after))) + 1 /\
       sum st = sumZ (columnValues column (before ++ after))) /\
    (column r = None ->
       count st = Z.of_nat (length (columnValues column (before ++ after))) /\
       sum st = sumZ (columnValues column (before ++ after))).
Proof.
  intros Hk. split; [exact (scoreCells_columns toLocaleString r k key column Hk) |].
  split; [apply scoreCell_empty |].
  assert (Hq : (key, column) ∈ questionColumns) by exact (list_elem_of_lookup_2 _ _ _ Hk).
  assert (Hkey : key ∈ questionKeys).
  { change questionKeys with (questionColumns.*1). apply list_elem_of_fmap.
    exists (key, column). split; [reflexivity | exact Hq]. }
  assert (Hne : before ++ r :: after <> []) by (destruct before; discriminate).
  destruct (statistics_value _ Hne) as (s & Hs & Hentry & _).
  exists s, (entryOf key (before ++ r :: after)).
  split; [exact Hs |]. split.
  { rewrite Hentry. destruct (decide (key ∈ questionKeys)); [reflexivity | contradiction]. }
  pose proof (valuesOf_columnValues (before ++ r :: after)) as Hcols.
  rewrite Forall_forall in Hcols. specialize (Hcols _ Hq). cbn [fst snd] in Hcols.
  cbn [entryOf count sum]. rewrite Hcols, !columnValues_app.
  cbn [columnValues]. split; intros ->; rewrite !length_app, !sumZ_app.
  - change (sumZ (0 :: columnValues column after)) with (0 + sumZ (columnValues column after)).
    cbn [length]. split; lia.
  - split; reflexivity.
Qed.

Lemma zero_score_exported_blank_witness :
  let zero := rate "a" [Some 0] in
  let four := rate "b" [Some 4] in
  rowCells (fun t => t) zero !! 2%nat = Some "" /\
  exists s st,
    statistics [zero; four] = Value s /\
    byQuestion s !! "ease_of_use" = Some st /\
    count st = 2 /\ sum st = 4.
Proof.
  intros zero four.
  destruct (zero_score_exported_blank (fun t => t) 0 "ease_of_use" ease_of_use zero [] [four]
              eq_refl) as (Hcell & _ & s & st & Hs & Hst & Hzero & _).
  split; [exact Hcell |]. exists s, st.
  destruct (Hzero eq_refl) as [Hcount Hsum].
  exact (conj Hs (conj Hst (conj Hcount Hsum))).
Defined.

(** The export offers a file exactly when there are rows.  Without
    rows only the No Data toast is shown; otherwise the file is named
    after the day, its text has the header line first and then one line
    per row, in the order of the rows, and the toast reports the number of
    rows. *)
Lemma exportToCSV_file (toLocaleString : string -> string) (today : string)
    (ratings : list Rating) :
  (exportToCSV toLocaleString today ratings = NoData <-> ratings = []) /\
  (ratings <> [] ->
   exportToCSV toLocaleString today ratings =
     Exported ("app_ratings_" ++ today ++ ".csv")%string
       (String.concat newline
          (String.concat "," headers ::
           map (fun r => String.concat "," (rowCells toLocaleString r)) ratings))
       (Z.of_nat (length ratings))).
Proof.
  unfold exportToCSV, csvContent.
  destruct ratings as [| r ratings].
  - split; [split; reflexivity | intros H; contradiction].
  - destruct (Z.eqb_spec (Z.of_nat (length (r :: ratings))) 0) as [Hz | _];
      [cbn in Hz; lia |].
    split; [split; discriminate |]. intros _. rewrite map_map. reflexivity.
Qed.

End RatingsViewsFacts.

(** ** Properties of the [send-email] edge function *)

Module SendEmailFacts.

Import SendEmailFunction.

Local Open Scope list_scope.

(** The payload built from well-formed input. *)
Lemma tryBlock_cases secrets fetch req :
  (configured secrets = false /\
   tryBlock secrets fetch req = ([], Some "Email service not configured")) \/
  (configured secrets = true /\ exists message,
     json req = JsonThrows message /\ tryBlock secrets fetch req = ([], Some message)) \/
  (configured secrets = true /\ wellFormed req = false /\
   (exists b, json req = JsonBody b) /\
   tryBlock secrets fetch req =
     ([], Some "to_email, student_name, and status are required")) \/
  (configured secrets = true /\ wellFormed req = true /\
   exists b p,
     json req = JsonBody b /\
     to_email b = Some (param_to_email p) /\
     student_name b = Some (param_student_name p) /\
     status b = Some (param_status p) /\
     param_to_name p = Js.or_else (to_name b) "Parent/Guardian" /\
     param_time p = time b /\
     param_status_formatted p = statusFormatted (param_status p) /\
     param_message p = getStatusMessage (param_status p) (param_student_name p) /\
     EMAILJS_SERVICE_ID secrets = Some (service_id p) /\
     EMAILJS_TEMPLATE_ID secrets = Some (template_id p) /\
     EMAILJS_PUBLIC_KEY secrets = Some (public_key p) /\
     tryBlock secrets fetch req =
       ([p],
        match fetch p with
        | FetchThrows message => Some message
        | FetchResponse true _ _ => None
        | FetchResponse false code' text =>
            Some ("EmailJS error (" ++ RatingsViews.numberText code' ++ "): " ++
                  (if String.eqb text "" then "Unknown" else text))%string
        end)).
Proof.
  unfold tryBlock, configured, wellFormed.
  destruct secrets as [[a |] [b |] [c |]]; cbn [EMAILJS_SERVICE_ID EMAILJS_TEMPLATE_ID
    EMAILJS_PUBLIC_KEY]; try (left; split; [| reflexivity]; cbn;
    rewrite ?andb_false_r; reflexivity).
  destruct (Js.truthy (Some a) && Js.truthy (Some b) && Js.truthy (Some c)) eqn:Hc;
    [| left; split; reflexivity].
  right. destruct (json req) as [body |message] eqn:Hj.
  2:{ left. split; [reflexivity |]. exists message. split; reflexivity. }
  right.
  destruct (to_email body) as [e |] eqn:He, (student_name body) as [n |] eqn:Hn,
    (status body) as [st |] eqn:Hst;
    try (left; split; [reflexivity |]; split; [cbn; rewrite ?andb_false_r; reflexivity |];
         split; [eexists; reflexivity | reflexivity]).
  destruct (Js.truthy (Some e) && Js.truthy (Some n) && Js.truthy (Some st)) eqn:Hw.
  2:{ left. split; [reflexivity |]. split; [reflexivity |].
      split; [eexists; reflexivity | reflexivity]. }
  right. split; [reflexivity |]. split; [reflexivity |]. cbv zeta.
  exists body, (mkEmailJsPayload a b c e (Js.or_else (to_name body) "Parent/Guardian") n st
                  (statusFormatted st) (time body) (getStatusMessage st n)).
  cbn [param_to_email param_student_name param_status param_to_name param_time
       param_status_formatted param_message service_id template_id public_key].
  split_and!; try reflexivity; try assumption.
  destruct (fetch _) as [m | [|] k t]; reflexivity.
Qed.

Lemma tryBlock_success secrets fetch req :
  (tryBlock secrets fetch req).2 = None <->
  configured secrets = true /\ wellFormed req = true /\
  exists p k t, (tryBlock secrets fetch req).1 = [p] /\ fetch p = FetchResponse true k t.
Proof.
  destruct (tryBlock_cases secrets fetch req)
    as [[Hc ->] | [(Hc & m & Hj & ->) | [(Hc & Hw & _ & ->) | (Hc & Hw & b & p & Hrest)]]].
  - split; [discriminate | intros (Hc' & _); congruence].
  - split; [discriminate |]. intros (_ & Hw & _). unfold wellFormed in Hw.
    rewrite Hj in Hw. discriminate.
  - split; [discriminate | intros (_ & Hw' & _); congruence].
  - destruct Hrest as (_ & _ & _ & _ & _ & _ & _ & _ & _ & _ & _ & ->). cbn [fst snd].
    split.
    + intros Hf. split; [exact Hc |]. split; [exact Hw |].
      destruct (fetch p) as [m | [|] k t] eqn:Hfetch; try discriminate.
      exists p, k, t. split; [reflexivity | exact Hfetch].
    + intros (_ & _ & p' & k & t & [= <-] & Hfetch). rewrite Hfetch. reflexivity.
Qed.

Lemma handler_not_preflight secrets fetch req :
  method req <> "OPTIONS" ->
  (handler secrets fetch req).1 = (tryBlock secrets fetch req).1 /\
  (handler secrets fetch req).2 =
    match (tryBlock secrets fetch req).2 with
    | None => mkResponse 200 jsonHeaders SuccessBody
    | Some errorMessage => mkResponse 500 jsonHeaders (ErrorBody errorMessage)
    end.
Proof.
  intros Hm. unfold handler.
  destruct (String.eqb_spec (method req) "OPTIONS"); [contradiction |].
  destruct (tryBlock secrets fetch req) as [sent [m |]]; split; reflexivity.
Qed.

(** X17: the function answers every request and never lets an error
    escape: the status is 200 or 500; it is 200 exactly for a preflight
    request ([OPTIONS]) and for a request that is configured, well formed
    and accepted by EmailJS; a 500 answer carries the message of the
    error; and every answer carries the CORS headers. *)
Theorem handler_answers secrets fetch req :
  (code (handler secrets fetch req).2 = 200 \/ code (handler secrets fetch req).2 = 500) /\
  (code (handler secrets fetch req).2 = 200 <->
     method req = "OPTIONS" \/
     (configured secrets = true /\ wellFormed req = true /\
      exists p k t, (handler secrets fetch req).1 = [p] /\ fetch p = FetchResponse true k t)) /\
  (code (handler secrets fetch req).2 = 500 <->
     exists message, body (handler secrets fetch req).2 = ErrorBody message) /\
  (forall h, h ∈ corsHeaders -> h ∈ headers (handler secrets fetch req).2).
Proof.
  destruct (String.eqb_spec (method req) "OPTIONS") as [Hm | Hm].
  { unfold handler. rewrite Hm. rewrite String.eqb_refl. cbn [fst snd code body headers].
    split; [left; reflexivity |]. split; [split; auto |].
    split; [split; [discriminate | intros [m Hx]; discriminate] | auto]. }
  destruct (handler_not_preflight secrets fetch req Hm) as [-> ->].
  pose proof (tryBlock_success secrets fetch req) as Hok.
  destruct (tryBlock secrets fetch req).2 as [m |]; cbn [code body headers].
  - split; [right; reflexivity |]. split; [| split].
    + split; [discriminate |]. intros [Hx | Hx]; [contradiction |].
      apply Hok in Hx. discriminate.
    + split; [eauto | reflexivity].
    + intros h Hh. unfold jsonHeaders. apply elem_of_app. left. exact Hh.
  - split; [left; reflexivity |]. split; [| split].
    + split; [| reflexivity]. intros _. right. apply Hok. reflexivity.
    + split; [discriminate | intros [m Hx]; discriminate].
    + intros h Hh. unfold jsonHeaders. apply elem_of_app. left. exact Hh.
Qed.

(** X18: EmailJS is contacted at most once, and exactly when the request
    is no preflight, the three secrets are set and the body names an
    address, a student and a status.  What is sent is what the body said,
    with the recipient name defaulted to Parent/Guardian and the message
    and the formatted status computed from the status. *)
Theorem provider_contacted_iff secrets fetch req :
  (length (handler secrets fetch req).1 <= 1)%nat /\
  ((handler secrets fetch req).1 <> [] <->
     method req <> "OPTIONS" /\ configured secrets = true /\ wellFormed req = true) /\
  (forall p, p ∈ (handler secrets fetch req).1 ->
     exists b,
       json req = JsonBody b /\
       to_email b = Some (param_to_email p) /\
       student_name b = Some (param_student_name p) /\
       status b = Some (param_status p) /\
       param_to_name p = Js.or_else (to_name b) "Parent/Guardian" /\
       param_status_formatted p = statusFormatted (param_status p) /\
       param_message p = getStatusMessage (param_status p) (param_student_name p)).
Proof.
  destruct (String.eqb_spec (method req) "OPTIONS") as [Hm | Hm].
  { unfold handler. rewrite Hm. rewrite String.eqb_refl. cbn [fst length].
    split; [lia |]. split; [| intros p Hp; inversion Hp].
    split; [intros H; contradiction | intros (H & _); contradiction]. }
  destruct (handler_not_preflight secrets fetch req Hm) as [-> _].
  destruct (tryBlock_cases secrets fetch req)
    as [[Hc ->] | [(Hc & m & Hj & ->) | [(Hc & Hw & _ & ->) | (Hc & Hw & b & p & Hrest)]]];
    cbn [fst length].
  - split; [lia |]. split; [| intros p Hp; inversion Hp].
    split; [intros H; contradiction | intros (_ & Hc' & _); congruence].
  - split; [lia |]. split; [| intros p Hp; inversion Hp].
    split; [intros H; contradiction |]. intros (_ & _ & Hw). unfold wellFormed in Hw.
    rewrite Hj in Hw. discriminate.
  - split; [lia |]. split; [| intros p Hp; inversion Hp].
    split; [intros H; contradiction | intros (_ & _ & Hw'); congruence].
  - destruct Hrest as (Hj & He & Hn & Hst & Hto & _ & Hsf & Hmsg & _ & _ & _ & ->).
    cbn [fst length]. split; [lia |]. split.
    + split; [intros _; auto | intros _; discriminate].
    + intros p' Hp'. apply list_elem_of_singleton in Hp'. subst p'.
      exists b. split_and!; assumption.
Qed.

(** X19: each of the four attendance statuses the scanner sends has a
    message of its own, none of them the fallback message, and a
    formatted status with a capital and without the underscore. *)
Theorem attendance_statuses_have_messages (studentName : string) :
  (forall st st',
     getStatusMessage (statusText st) studentName =
     getStatusMessage (statusText st') studentName -> st = st') /\
  (forall st,
     getStatusMessage (statusText st) studentName <>
     getStatusMessage "unknown" studentName) /\
  map (fun st => statusFormatted (statusText st))
    [Scanner.present; Scanner.late; Scanner.absent; Scanner.half_day] =
    ["Present"; "Late"; "Absent"; "Half day"].
Proof.
  assert (Hname : forall a b : string, (studentName ++ a)%string = (studentName ++ b)%string
                                       -> a = b).
  { induction studentName as [| ch rest IH]; cbn; intros a b H; [exact H |].
    injection H as H. apply IH. exact H. }
  split_and!; [| | reflexivity].
  - intros st st' H. destruct st, st'; try reflexivity; exfalso;
      cbn [statusText getStatusMessage String.eqb Ascii.eqb Bool.eqb] in H;
      cbn in H; repeat (injection H as H); apply Hname in H; discriminate H.
  - intros st H. destruct st;
      cbn [statusText getStatusMessage String.eqb Ascii.eqb Bool.eqb] in H;
      cbn in H; repeat (injection H as H);
      try (apply Hname in H; discriminate H); discriminate H.
Qed.

End SendEmailFacts.

(** ** The test notifications page *)

Module TestNotificationsFacts.

Import TestNotifications.

Local Open Scope list_scope.

(** What [find] returns is a student of the list with the selected id. *)
Lemma selectedStudent_Some st student :
  selectedStudent st = Some student ->
  student ∈ students st /\ user_id student = selectedStudentId st.
Proof.
  unfold selectedStudent. intros H. apply find_some in H. destruct H as [Hin Heq].
  split; [apply list_elem_of_In; exact Hin | apply String.eqb_eq; exact Heq].
Qed.

Lemma outcome_facts kind r :
  type (outcome kind r).1 = kind /\
  (success (outcome kind r).1 = true <-> r = Data) /\
  (success (outcome kind r).1 = true <-> error (outcome kind r).1 = None) /\
  (success (outcome kind r).1 = true <-> (outcome kind r).2 = Sent kind) /\
  (success (outcome kind r).1 = false <->
     exists message, error (outcome kind r).1 = Some message /\
                     (outcome kind r).2 = NotSent kind message).
Proof.
  destruct r; cbn; split_and!; try reflexivity;
    (split; [try discriminate; try reflexivity; eauto
            | try discriminate; try reflexivity; try (intros (m & H & _); discriminate)]).
Qed.

(** X20: a click on the enabled email button sends one test email, to the
    address of the student of the list whose id is selected, with the
    status present and the guardian name defaulted to Parent/Guardian.
    Whatever the call does, also when it throws, one entry of type email is
    put in front of the log, successful exactly when the call resolved
    without error and then without an error text; the toast agrees with
    it; and the button is enabled again afterwards with the rest of the
    state as it was. *)
Theorem email_click_logs_one_result (invoke : Payload -> Invoked) (st : State) :
  emailButtonDisabled st = false ->
  exists student result toasted,
    student ∈ students st /\ user_id student = selectedStudentId st /\
    let payload :=
      TestEmail (email student)
        (Js.or_else (parent_guardian_name student) "Parent/Guardian")
        (name student) "present" in
    (handleSendEmail invoke st).2 = [Invoke payload; Toast toasted] /\
    results (handleSendEmail invoke st).1 = result :: results st /\
    type result = email_kind /\
    (success result = true <-> invoke payload = Data) /\
    (success result = true <-> error result = None) /\
    (success result = true <-> toasted = Sent email_kind) /\
    (success result = false <->
       exists message, error result = Some message /\ toasted = NotSent email_kind message) /\
    students (handleSendEmail invoke st).1 = students st /\
    selectedStudentId (handleSendEmail invoke st).1 = selectedStudentId st /\
    sendingSms (handleSendEmail invoke st).1 = sendingSms st /\
    emailButtonDisabled (handleSendEmail invoke st).1 = false.
Proof.
  unfold emailButtonDisabled at 1, handleSendEmail.
  destruct (selectedStudent st) as [student |] eqn:Hsel; [| discriminate].
  intros _. destruct (selectedStudent_Some st student Hsel) as [Hin Hid].
  cbv zeta.
  pose proof (outcome_facts email_kind
    (invoke (TestEmail (email student)
       (Js.or_else (parent_guardian_name student) "Parent/Guardian")
       (name student) "present"))) as Hout.
  destruct (outcome email_kind _) as [result toasted]. cbn [fst snd] in Hout.
  destruct Hout as (Ht & Hd & He & Hs & Hf).
  exists student, result, toasted. cbn [fst snd results students selectedStudentId sendingSms].
  split_and!; try assumption; try reflexivity.
  unfold emailButtonDisabled, selectedStudent.
  cbn [students selectedStudentId sendingEmail].
  fold (selectedStudent st). rewrite Hsel. reflexivity.
Qed.

Lemma email_click_logs_one_result_witness :
  let ana := mkStudentProfile "u1" "Ana" "ana@example.org" None None None in
  let st := mkState [ana] "u1" false false [] in
  exists student result toasted,
    student ∈ students st /\ user_id student = selectedStudentId st /\
    let payload :=
      TestEmail (email student)
        (Js.or_else (parent_guardian_name student) "Parent/Guardian")
        (name student) "present" in
    (handleSendEmail (fun _ => ThrewOther) st).2 = [Invoke payload; Toast toasted] /\
    results (handleSendEmail (fun _ => ThrewOther) st).1 = result :: results st /\
    type result = email_kind /\
    (success result = true <-> (fun _ : Payload => ThrewOther) payload = Data) /\
    (success result = true <-> error result = None) /\
    (success result = true <-> toasted = Sent email_kind) /\
    (success result = false <->
       exists message, error result = Some message /\ toasted = NotSent email_kind message) /\
    students (handleSendEmail (fun _ => ThrewOther) st).1 = students st /\
    selectedStudentId (handleSendEmail (fun _ => ThrewOther) st).1 = selectedStudentId st /\
    sendingSms (handleSendEmail (fun _ => ThrewOther) st).1 = sendingSms st /\
    emailButtonDisabled (handleSendEmail (fun _ => ThrewOther) st).1 = false.
Proof.
  apply (email_click_logs_one_result (fun _ => ThrewOther)
           (mkState [mkStudentProfile "u1" "Ana" "ana@example.org" None None None]
              "u1" false false [])).
  reflexivity.
Defined.

(** X21: a click on the enabled SMS button sends one test SMS to the
    parent number of the selected student, which is not empty, under the
    selected id, and logs one entry of type sms in front of the log,
    successful exactly when the call resolved without error; the button
    is enabled again afterwards and the email flag is untouched. *)
Theorem sms_click_logs_one_result (invoke : Payload -> Invoked) (st : State) :
  smsButtonDisabled st = false ->
  exists student phone result toasted,
    student ∈ students st /\ parent_number student = Some phone /\ phone <> "" /\
    let payload := TestSms phone (name student) (selectedStudentId st) "test_sms" in
    (handleSendSms invoke st).2 = [Invoke payload; Toast toasted] /\
    results (handleSendSms invoke st).1 = result :: results st /\
    type result = sms_kind /\
    (success result = true <-> invoke payload = Data) /\
    (success result = true <-> error result = None) /\
    (success result = true <-> toasted = Sent sms_kind) /\
    (success result = false <->
       exists message, error result = Some message /\ toasted = NotSent sms_kind message) /\
    students (handleSendSms invoke st).1 = students st /\
    selectedStudentId (handleSendSms invoke st).1 = selectedStudentId st /\
    sendingEmail (handleSendSms invoke st).1 = sendingEmail st /\
    smsButtonDisabled (handleSendSms invoke st).1 = false.
Proof.
  unfold smsButtonDisabled at 1, handleSendSms.
  destruct (selectedStudent st) as [student |] eqn:Hsel; [| discriminate].
  destruct (selectedStudent_Some st student Hsel) as [Hin Hid].
  destruct (parent_number student) as [phone |] eqn:Hphone; [| discriminate].
  destruct (Js.truthy (Some phone)) eqn:Htruthy; [| discriminate].
  cbn [negb orb]. intros Hflag. cbv zeta. rewrite Hid.
  pose proof (outcome_facts sms_kind
    (invoke (TestSms phone (name student) (selectedStudentId st) "test_sms"))) as Hout.
  destruct (outcome sms_kind _) as [result toasted]. cbn [fst snd] in Hout.
  destruct Hout as (Ht & Hd & He & Hs & Hf).
  exists student, phone, result, toasted.
  cbn [fst snd results students selectedStudentId sendingEmail].
  split_and!; try assumption; try reflexivity.
  - intros ->. discriminate Htruthy.
  - unfold smsButtonDisabled, selectedStudent.
    cbn [students selectedStudentId sendingSms].
    fold (selectedStudent st). rewrite Hsel, Hphone, Htruthy. reflexivity.
Qed.

Lemma sms_click_logs_one_result_witness :
  let ana := mkStudentProfile "u1" "Ana" "ana@example.org" None (Some "0917") None in
  let st := mkState [ana] "u1" true false [] in
  exists student phone result toasted,
    student ∈ students st /\ parent_number student = Some phone /\ phone <> "" /\
    let payload := TestSms phone (name student) (selectedStudentId st) "test_sms" in
    (handleSendSms (fun _ => Failed "down") st).2 = [Invoke payload; Toast toasted] /\
    results (handleSendSms (fun _ => Failed "down") st).1 = result :: results st /\
    type result = sms_kind /\
    (success result = true <-> (fun _ : Payload => Failed "down") payload = Data) /\
    (success result = true <-> error result = None) /\
    (success result = true <-> toasted = Sent sms_kind) /\
    (success result = false <->
       exists message, error result = Some message /\ toasted = NotSent sms_kind message) /\
    students (handleSendSms (fun _ => Failed "down") st).1 = students st /\
    selectedStudentId (handleSendSms (fun _ => Failed "down") st).1 = selectedStudentId st /\
    sendingEmail (handleSendSms (fun _ => Failed "down") st).1 = sendingEmail st /\
    smsButtonDisabled (handleSendSms (fun _ => Failed "down") st).1 = false.
Proof.
  apply (sms_click_logs_one_result (fun _ => Failed "down")
           (mkState [mkStudentProfile "u1" "Ana" "ana@example.org" None (Some "0917") None]
              "u1" true false [])).
  reflexivity.
Defined.

(** X22: the guards of the two handlers.  A handler that does not send
    leaves the state as it is and shows nothing.  The email handler sends
    exactly when a student of the list is selected; the SMS handler
    exactly when that student has a parent number that is not empty.
    Neither guard reads the sending flags: it is only the disabled
    attribute of the buttons that keeps a second send from starting while
    one is under way. *)
Theorem handlers_guards (invoke : Payload -> Invoked) (st : State) :
  ((handleSendEmail invoke st).2 <> [] <-> selectedStudent st <> None) /\
  ((handleSendSms invoke st).2 <> [] <->
     exists student, selectedStudent st = Some student /\
                     Js.truthy (parent_number student) = true) /\
  ((handleSendEmail invoke st).2 = [] -> (handleSendEmail invoke st).1 = st) /\
  ((handleSendSms invoke st).2 = [] -> (handleSendSms invoke st).1 = st) /\
  (emailButtonDisabled st = false <->
     (handleSendEmail invoke st).2 <> [] /\ sendingEmail st = false) /\
  (smsButtonDisabled st = false <->
     (handleSendSms invoke st).2 <> [] /\ sendingSms st = false) /\
  (forall payload, payload ∈ invocations (handleSendSms invoke st).2 ->
     exists phone name', payload = TestSms phone name' (selectedStudentId st) "test_sms") /\
  (forall payload, payload ∈ invocations (handleSendEmail invoke st).2 ->
     exists address to student', payload = TestEmail address to student' "present").
Proof.
  unfold handleSendEmail, handleSendSms, emailButtonDisabled, smsButtonDisabled.
  destruct (selectedStudent st) as [student |] eqn:Hsel.
  2:{ cbn. split_and!.
      - split; intros H; contradiction.
      - split; [intros H; contradiction | intros (s & H & _); discriminate].
      - reflexivity.
      - reflexivity.
      - split; [discriminate | intros [H _]; contradiction].
      - split; [discriminate | intros [H _]; contradiction].
      - intros payload H. inversion H.
      - intros payload H. inversion H. }
  destruct (selectedStudent_Some st student Hsel) as [_ Hid].
  cbv zeta.
  destruct (outcome email_kind _) as [eresult etoast].
  destruct (parent_number student) as [phone |] eqn:Hphone.
  2:{ cbn. split_and!.
      - split; [discriminate | intros _; discriminate].
      - split; [contradiction |]. intros (s & [= <-] & H). rewrite Hphone in H. discriminate.
      - discriminate.
      - reflexivity.
      - split; [intros ->; split; [discriminate | reflexivity] | intros [_ H]; exact H].
      - split; [discriminate | intros [H _]; contradiction].
      - intros payload H. inversion H.
      - intros payload H. apply list_elem_of_singleton in H. eauto. }
  destruct (Js.truthy (Some phone)) eqn:Htruthy.
  2:{ cbn. split_and!.
      - split; [discriminate | intros _; discriminate].
      - split; [contradiction |]. intros (s & [= <-] & H). rewrite Hphone in H. congruence.
      - discriminate.
      - reflexivity.
      - split; [intros ->; split; [discriminate | reflexivity] | intros [_ H]; exact H].
      - split; [discriminate | intros [H _]; contradiction].
      - intros payload H. inversion H.
      - intros payload H. apply list_elem_of_singleton in H. eauto. }
  destruct (outcome sms_kind _) as [sresult stoast]. cbn. split_and!.
  - split; [discriminate | intros _; discriminate].
  - split; [| discriminate]. intros _. exists student. rewrite Hphone. split; [reflexivity | exact Htruthy].
  - discriminate.
  - discriminate.
  - split; [intros ->; split; [discriminate | reflexivity] | intros [_ H]; exact H].
  - split; [intros ->; split; [discriminate | reflexivity] | intros [_ H]; exact H].
  - intros payload H. apply list_elem_of_singleton in H. rewrite Hid in H. eauto.
  - intros payload H. apply list_elem_of_singleton in H. eauto.
Qed.

End TestNotificationsFacts.
